(** * Attendance and roster services of the course-management application

    A shallow embedding of [src/services/attendanceService.ts] (class
    [AttendanceService]) and of the statistics helper of
    [src/components/Courses/CourseCard.tsx], together with the parts of
    their environment they talk to:

    - the hosted database (tables [attendance_records] and [enrollments],
      reached through the supabase client), modelled as lists of rows with
      the columns and the [UNIQUE(course_id, student_id, date)] constraint
      the schema files declare; a payload that names a column the table
      lacks is refused;
    - the browser's [localStorage], modelled as a finite map from keys to
      stored texts;
    - the clock ([new Date()]) and the network, modelled as an oracle that
      is consulted once per interaction.

    Asynchronous methods are written in a state-and-exception monad over
    the world; [await] is sequencing, a rejected promise is a thrown
    exception.  Calls are run one after the other: interleavings of
    concurrent calls are not modelled.

    Percentages are binary64 numbers, computed with the operations of
    IEEE 754 as JavaScript does.

    What the model leaves out: foreign keys, column types and row-level
    security (a refusal by the database for any such reason is an answer
    carrying an [error], which the oracle may give at any call); the
    storage quota of [localStorage] ([setItem] always succeeds); console
    output. *)

From Stdlib Require Import ZArith Floats.
From stdpp Require Import gmap strings list fin_maps pretty sorting.

Open Scope string_scope.
Open Scope list_scope.

(** ** Data model *)

(** The literal type ['present' | 'absent' | 'late']. *)
Inductive Status := present | absent | late.

#[global] Instance Status_eq_dec : EqDecision Status.
Proof. solve_decision. Defined.

(** [new Date().toISOString()]: an instant, printed injectively. *)
Definition Timestamp := nat.

(** A roster entry, [{ id, name, email, student_id }]. *)
Record Student := mkStudent {
  st_id : string;
  st_name : string;
  st_email : string;
  st_student_id : string
}.

#[global] Instance Student_eq_dec : EqDecision Student.
Proof. solve_decision. Defined.

(** A row of table [attendance_records], with the columns of the schema
    files ([CREATE TABLE attendance_records], and [Row] in
    [database.types.ts]); [row_id] stands for the uuid primary key. *)
Record Row := mkRow {
  row_id : nat;
  course_id : string;
  student_id : string;
  date : string;
  status : Status;
  marked_by : string;
  created_at : Timestamp
}.

#[global] Instance Row_eq_dec : EqDecision Row.
Proof. solve_decision. Defined.

(** The object the service passes to [insert]: no [id], and an
    [updated_at] besides the columns of the table. *)
Record NewRow := mkNewRow {
  new_course_id : string;
  new_student_id : string;
  new_date : string;
  new_status : Status;
  new_marked_by : string;
  new_created_at : Timestamp;
  new_updated_at : Timestamp
}.

(** The composite key [(course_id, student_id, date)]. *)
Definition Key : Type := string * string * string.

Definition row_key (r : Row) : Key := (course_id r, student_id r, date r).
Definition new_key (r : NewRow) : Key :=
  (new_course_id r, new_student_id r, new_date r).

(** One value of a cached day, [{ status, markedBy, timestamp }]. *)
Record CacheMark := mkCacheMark {
  cm_status : Status;
  cm_markedBy : string;
  cm_timestamp : Timestamp
}.

#[global] Instance CacheMark_eq_dec : EqDecision CacheMark.
Proof. solve_decision. Defined.

(** A text held by [localStorage].  [ObjText o] is the JSON text of the
    object [o] (what [JSON.stringify] produces from a
    [Record<string, {status, markedBy, timestamp}>]); [BadText] is a
    non-empty text that [JSON.parse] rejects with a [SyntaxError].  Texts
    of other JSON values (numbers, arrays, [null]) are not represented,
    objects are keyed by ordinary property names, and the order of
    [Object.entries] is the order of [map_to_list]. *)
Inductive StoredText :=
  | ObjText (o : gmap string CacheMark)
  | BadText.

(** The camel-case record built by the cache fallback of
    [getAttendanceRecords]; [ar_date] stands for [new Date(date)]. *)
Record AttendanceRecord := mkAttendanceRecord {
  ar_id : string;
  ar_courseId : string;
  ar_studentId : string;
  ar_date : string;
  ar_status : Status;
  ar_markedBy : string
}.

(** [getAttendanceRecords] returns database rows as they come on the
    remote path and [AttendanceRecord]s on the cache path. *)
Inductive Fetched :=
  | DbRow (r : Row)
  | CacheRecord (a : AttendanceRecord).

(** The embedded [student] of an enrollment row: a single profile or an
    array of profiles (hence the [.flat()] of the source). *)
Inductive Joined :=
  | JoinOne (s : Student)
  | JoinMany (l : list Student).

Record Enrollment := mkEnrollment {
  enr_course_id : string;
  enr_student : Joined
}.

(** ** The world *)

Record World := mkWorld {
  db : list Row;                          (* table attendance_records *)
  enrollments : list Enrollment;          (* table enrollments, joined *)
  localStorage : gmap string StoredText;
  next_id : nat;                          (* next generated row id *)
  tick : nat                              (* interactions so far *)
}.

Definition set_db (f : list Row → list Row) (w : World) : World :=
  mkWorld (f (db w)) (enrollments w) (localStorage w) (next_id w) (tick w).
Definition set_localStorage
    (f : gmap string StoredText → gmap string StoredText) (w : World) : World :=
  mkWorld (db w) (enrollments w) (f (localStorage w)) (next_id w) (tick w).
Definition set_next_id (n : nat) (w : World) : World :=
  mkWorld (db w) (enrollments w) (localStorage w) n (tick w).
Definition set_tick (n : nat) (w : World) : World :=
  mkWorld (db w) (enrollments w) (localStorage w) (next_id w) n.

(** How the remote end answers one call: normally, with an [error] in the
    response object, or by rejecting the awaited promise. *)
Inductive Fault := NoFault | ReturnsError | Throws.

(** The oracle: what the clock reads and how the network behaves at each
    interaction. *)
Record Env := mkEnv {
  time_at : nat → Timestamp;
  net_at : nat → Fault
}.

(** ** Exceptions and the monad *)

Inductive DbErr :=
  | Unavailable
  | NotSingleRow
  | UniqueViolation
  | UnknownColumn (c : string).

Inductive Exn :=
  | NetworkFailure            (* the awaited call rejected *)
  | Raised (e : DbErr)        (* [throw error] *)
  | SyntaxError.              (* [JSON.parse] *)

Inductive Result (A : Type) :=
  | Val (a : A)
  | Thrown (e : Exn).
Arguments Val {A} a.
Arguments Thrown {A} e.

Definition M (A : Type) : Type := World → Result A * World.

Definition ret {A} (a : A) : M A := fun w => (Val a, w).
Definition throw {A} (e : Exn) : M A := fun w => (Thrown e, w).
Definition bind {A B} (m : M A) (k : A → M B) : M B :=
  fun w => match m w with
           | (Val a, w') => k a w'
           | (Thrown e, w') => (Thrown e, w')
           end.
(** [try { m } catch (e) { h e }]: effects of [m] up to the throw stay. *)
Definition try_catch {A} (m : M A) (h : Exn → M A) : M A :=
  fun w => match m w with
           | (Val a, w') => (Val a, w')
           | (Thrown e, w') => h e w'
           end.

Notation "x <~ m ;; k" := (bind m (fun x => k))
  (at level 100, m at next level, right associativity).
Notation "m ;;; k" := (bind m (fun _ => k))
  (at level 100, right associativity).

Fixpoint mapM {A B} (f : A → M B) (l : list A) : M (list B) :=
  match l with
  | [] => ret []
  | a :: l' => b <~ f a ;; bs <~ mapM f l' ;; ret (b :: bs)
  end.

(** [forEach] / [for ... of] with an accumulator. *)
Fixpoint foldM {A B} (f : B → A → M B) (b : B) (l : list A) : M B :=
  match l with
  | [] => ret b
  | a :: l' => b' <~ f b a ;; foldM f b' l'
  end.

(** A response object [{ data, error }] of the supabase client. *)
Record Response (D : Type) := mkResponse {
  data : option D;
  error : option DbErr
}.
Arguments mkResponse {D} data error.
Arguments data {D} r.
Arguments error {D} r.

(** JavaScript truthiness of an optional string argument: [undefined] and
    the empty string are falsy. *)
Definition truthy (s : option string) : bool :=
  match s with
  | Some s => negb (String.eqb s "")
  | None => false
  end.

Definition storageKey (courseId date : string) : string :=
  ("attendance_" ++ courseId ++ "_" ++ date)%string.

(** The template literal [`${date}`] of an optional argument. *)
Definition date_text (d : option string) : string := default "undefined" d.

Section Environment.

Variable env : Env.

(** *** Clock and network *)

Definition now : M Timestamp :=
  fun w => (Val (time_at env (tick w)), set_tick (S (tick w)) w).

Definition net : M Fault :=
  fun w => (Val (net_at env (tick w)), set_tick (S (tick w)) w).

(** One awaited call: rejects, answers with an error, or runs [ok]. *)
Definition remote {D} (ok : M (Response D)) : M (Response D) :=
  f <~ net ;;
  match f with
  | Throws => throw NetworkFailure
  | ReturnsError => ret (mkResponse None (Some Unavailable))
  | NoFault => ok
  end.

(** *** The database *)

Definition matches_key (k : Key) (r : Row) : bool := bool_decide (row_key r = k).

Definition in_partition (courseId d : string) (r : Row) : bool :=
  bool_decide (course_id r = courseId) && bool_decide (date r = d).

(** [.select('id').eq(course_id).eq(student_id).eq(date).single()]:
    the row when exactly one matches, an error otherwise. *)
Definition db_select_single (k : Key) : M (Response Row) :=
  remote (fun w =>
    match List.filter (matches_key k) (db w) with
    | [r] => (Val (mkResponse (Some r) None), w)
    | _ => (Val (mkResponse None (Some NotSingleRow)), w)
    end).

(** The columns of [attendance_records], as every declaration of the
    table in the repository gives them. *)
Definition attendance_records_columns : list string :=
  ["id"; "course_id"; "student_id"; "date"; "status"; "marked_by"; "created_at"].

(** The property names of the objects the service passes to [insert] and
    to [update]. *)
Definition insert_payload_columns : list string :=
  ["course_id"; "student_id"; "date"; "status"; "marked_by"; "created_at";
   "updated_at"].

Definition update_payload_columns : list string :=
  ["status"; "marked_by"; "updated_at"].

(** The first property of a payload that is no column of the table.  The
    remote end answers a write whose payload has one with an error and
    writes nothing. *)
Definition unknown_column (payload : list string) : option string :=
  List.find (fun c => negb (bool_decide (c ∈ attendance_records_columns))) payload.

Definition apply_update (id : nat) (s : Status) (by_ : string) (r : Row) : Row :=
  if bool_decide (row_id r = id)
  then mkRow (row_id r) (course_id r) (student_id r) (date r) s by_ (created_at r)
  else r.

(** [.update({status, marked_by, updated_at}).eq('id', id)]; [t] is the
    value sent for [updated_at]. *)
Definition db_update (id : nat) (s : Status) (by_ : string) (t : Timestamp)
    : M (Response unit) :=
  remote (fun w =>
    match unknown_column update_payload_columns with
    | Some c => (Val (mkResponse None (Some (UnknownColumn c))), w)
    | None =>
        (Val (mkResponse (Some tt) None), set_db (map (apply_update id s by_)) w)
    end).

(** Rows get consecutive fresh ids and the columns of the table. *)
Fixpoint stamp (n : nat) (rs : list NewRow) : list Row :=
  match rs with
  | [] => []
  | r :: rs' =>
      mkRow n (new_course_id r) (new_student_id r) (new_date r) (new_status r)
            (new_marked_by r) (new_created_at r)
      :: stamp (S n) rs'
  end.

(** [.insert(rows)]: one statement.  An empty batch stores nothing; a
    batch whose objects name an unknown column is refused; so is, as a
    whole, a batch that would break [UNIQUE(course_id, student_id, date)]. *)
Definition db_insert (rs : list NewRow) : M (Response unit) :=
  remote (fun w =>
    match rs with
    | [] => (Val (mkResponse (Some tt) None), w)
    | _ :: _ =>
        match unknown_column insert_payload_columns with
        | Some c => (Val (mkResponse None (Some (UnknownColumn c))), w)
        | None =>
            if bool_decide (NoDup (map new_key rs ++ map row_key (db w)))
            then (Val (mkResponse (Some tt) None),
                  set_next_id (next_id w + length rs)
                    (set_db (fun rows => rows ++ stamp (next_id w) rs) w))
            else (Val (mkResponse None (Some UniqueViolation)), w)
        end
    end).

(** [.delete().eq('course_id', c).eq('date', d)]. *)
Definition db_delete (courseId d : string) : M (Response unit) :=
  remote (fun w =>
    (Val (mkResponse (Some tt) None),
     set_db (List.filter (fun r => negb (in_partition courseId d r))) w)).

(** Insertion into a list ordered by descending date, for
    [.order('date', { ascending: false })]. *)
Fixpoint insert_desc (r : Row) (l : list Row) : list Row :=
  match l with
  | [] => [r]
  | x :: l' => if String.leb (date x) (date r) then r :: l
               else x :: insert_desc r l'
  end.

Definition order_desc (l : list Row) : list Row := foldr insert_desc [] l.

(** [.select(...).eq('course_id', c)], optionally [.eq('date', d)],
    ordered by descending date. *)
Definition db_select_records (courseId : string) (d : option string)
    : M (Response (list Row)) :=
  remote (fun w =>
    let by_course := List.filter (fun r => bool_decide (course_id r = courseId)) (db w) in
    let by_date := match d with
                   | Some d => List.filter (fun r => bool_decide (date r = d)) by_course
                   | None => by_course
                   end in
    (Val (mkResponse (Some (order_desc by_date)) None), w)).

(** [.select('status').eq('course_id', c)], optionally [.gte('date', s)]
    and [.lte('date', e)]. *)
Definition db_select_status (courseId : string) (startDate endDate : option string)
    : M (Response (list Status)) :=
  remote (fun w =>
    let q0 := List.filter (fun r => bool_decide (course_id r = courseId)) (db w) in
    let q1 := match startDate with
              | Some s => List.filter (fun r => String.leb s (date r)) q0
              | None => q0
              end in
    let q2 := match endDate with
              | Some e => List.filter (fun r => String.leb (date r) e) q1
              | None => q1
              end in
    (Val (mkResponse (Some (map status q2)) None), w)).

(** [.from('enrollments').select(student:profiles(...)).eq('course_id', c)]. *)
Definition db_select_enrollments (courseId : string)
    : M (Response (list Enrollment)) :=
  remote (fun w =>
    (Val (mkResponse
            (Some (List.filter (fun e => bool_decide (enr_course_id e = courseId))
                               (enrollments w)))
            None), w)).

(** *** localStorage and JSON *)

Definition getItem (key : string) : M (option StoredText) :=
  fun w => (Val (localStorage w !! key), w).

Definition setItem (key : string) (t : StoredText) : M unit :=
  fun w => (Val tt, set_localStorage (insert key t) w).

(** [JSON.parse(localStorage.getItem(key) || '{}')]. *)
Definition JSON_parse_or_empty (t : option StoredText) : M (gmap string CacheMark) :=
  match t with
  | None => ret ∅
  | Some (ObjText o) => ret o
  | Some BadText => throw SyntaxError
  end.

Definition JSON_stringify (o : gmap string CacheMark) : StoredText := ObjText o.

(** ** [AttendanceService] *)

Definition mockStudents : list Student :=
  [ mkStudent "550e8400-e29b-41d4-a716-446655440005" "John Smith"
              "john.smith@student.edu" "STU001";
    mkStudent "550e8400-e29b-41d4-a716-446655440006" "Maria Garcia"
              "maria.garcia@student.edu" "STU002";
    mkStudent "550e8400-e29b-41d4-a716-446655440007" "David Wilson"
              "david.wilson@student.edu" "STU003";
    mkStudent "550e8400-e29b-41d4-a716-446655440008" "Lisa Zhang"
              "lisa.zhang@student.edu" "STU004";
    mkStudent "550e8400-e29b-41d4-a716-446655440009" "Robert Brown"
              "robert.brown@student.edu" "STU005" ].

(** [(data?.map(enrollment => enrollment.student) || []).flat()]. *)
Definition flat (l : list Joined) : list Student :=
  concat (map (fun j => match j with JoinOne s => [s] | JoinMany ss => ss end) l).

Definition getCourseStudents (courseId : string) : M (list Student) :=
  try_catch
    (try_catch
       (resp <~ db_select_enrollments courseId ;;
        match error resp with
        | Some _ => ret mockStudents
        | None =>
            let students := flat (map enr_student (default [] (data resp))) in
            if (length students =? 0)%nat then ret mockStudents else ret students
        end)
       (fun dbError => ret mockStudents))
    (fun error => throw error).

(** The cache fallback of [getAttendanceRecords]: one record per entry of
    the parsed object. *)
Definition decode_entries (courseId d : string) (localData : gmap string CacheMark)
    : list AttendanceRecord :=
  map (fun '(studentId, record) =>
         mkAttendanceRecord (courseId ++ "_" ++ studentId ++ "_" ++ d)%string
           courseId studentId d (cm_status record) (cm_markedBy record))
      (map_to_list localData).

Definition getAttendanceRecords (courseId : string) (d : option string)
    : M (list Fetched) :=
  try_catch
    (try_catch
       (resp <~ db_select_records courseId (if truthy d then d else None) ;;
        match error resp with
        | Some e => throw (Raised e)
        | None => ret (map DbRow (default [] (data resp)))
        end)
       (fun dbError =>
          if truthy d then
            let storageKey := storageKey courseId (date_text d) in
            item <~ getItem storageKey ;;
            localData <~ JSON_parse_or_empty item ;;
            ret (map CacheRecord (decode_entries courseId (date_text d) localData))
          else ret []))
    (fun error => throw error).

(** An element [{ studentId, status }] of a bulk payload. *)
Record Mark := mkMark {
  m_studentId : string;
  m_status : Status
}.

Definition markAttendance (courseId d : string) (attendanceData : list Mark)
    (markedBy : string) : M bool :=
  try_catch
    (let storageKey := storageKey courseId d in
     localData <~ foldM (fun (localData : gmap string CacheMark) record =>
                           t <~ now ;;
                           ret (<[m_studentId record :=
                                    mkCacheMark (m_status record) markedBy t]> localData))
                        ∅ attendanceData ;;
     setItem storageKey (JSON_stringify localData) ;;;
     try_catch
       (db_delete courseId d ;;;
        records <~ mapM (fun record =>
                           c <~ now ;;
                           u <~ now ;;
                           ret (mkNewRow courseId (m_studentId record) d
                                         (m_status record) markedBy c u))
                        attendanceData ;;
        resp <~ db_insert records ;;
        match error resp with
        | Some e => throw (Raised e)
        | None => ret tt
        end)
       (fun dbError => ret tt) ;;;
     ret true)
    (fun error => ret false).

Definition markSingleAttendance (courseId studentId d : string) (st : Status)
    (markedBy : string) : M bool :=
  try_catch
    (let storageKey := storageKey courseId d in
     item <~ getItem storageKey ;;
     existingData <~ JSON_parse_or_empty item ;;
     t <~ now ;;
     setItem storageKey
       (JSON_stringify (<[studentId := mkCacheMark st markedBy t]> existingData)) ;;;
     try_catch
       (sel <~ db_select_single (courseId, studentId, d) ;;
        match data sel with
        | Some existingRecord =>
            u <~ now ;;
            resp <~ db_update (row_id existingRecord) st markedBy u ;;
            match error resp with
            | Some e => throw (Raised e)
            | None => ret tt
            end
        | None =>
            c <~ now ;;
            u <~ now ;;
            resp <~ db_insert [mkNewRow courseId studentId d st markedBy c u] ;;
            match error resp with
            | Some e => throw (Raised e)
            | None => ret tt
            end
        end)
       (fun dbError => ret tt) ;;;
     ret true)
    (fun error => ret false).

(** The object returned by [getAttendanceStats]. *)
Record Stats := mkStats {
  totalStudents : nat;
  totalRecords : nat;
  stats_present : nat;
  stats_absent : nat;
  stats_late : nat;
  presentPercentage : float;
  attendanceRate : float
}.

Definition count_status (s : Status) (l : list Status) : nat :=
  length (List.filter (fun r => bool_decide (r = s)) l).

(** The number that holds a count.  Counts are lengths of arrays, below
    [2^32], where the conversion is exact. *)
Definition number_of_nat (n : nat) : float :=
  PrimFloat.of_uint63 (Uint63.of_Z (Z.of_nat n)).

(** [(num / den) * 100], in binary64 arithmetic. *)
Definition percent (num den : nat) : float :=
  (number_of_nat num / number_of_nat den * 100)%float.

(** [Object.keys(localStorage)]. *)
Definition storage_keys : M (list string) :=
  fun w => (Val (map fst (map_to_list (localStorage w))), w).

Definition getAttendanceStats (courseId : string) (startDate endDate : option string)
    : M Stats :=
  try_catch
    (enrolledStudents <~ getCourseStudents courseId ;;
     let totalStudents := length enrolledStudents in
     resp <~ db_select_status courseId
               (if truthy startDate then startDate else None)
               (if truthy endDate then endDate else None) ;;
     attendanceRecords <~
       match error resp, data resp with
       | None, Some rows => ret rows
       | _, _ =>
           allLocalKeys <~ storage_keys ;;
           let courseAttendanceKeys :=
             List.filter (String.prefix ("attendance_" ++ courseId ++ "_")%string)
                         allLocalKeys in
           foldM (fun acc key =>
                    item <~ getItem key ;;
                    dateData <~ JSON_parse_or_empty item ;;
                    ret (acc ++ map (fun e => cm_status (snd e)) (map_to_list dateData)))
                 [] courseAttendanceKeys
       end ;;
     let total := length attendanceRecords in
     let p := count_status present attendanceRecords in
     let a := count_status absent attendanceRecords in
     let l := count_status late attendanceRecords in
     ret (mkStats totalStudents total p a l
            (if (0 <? total)%nat then percent p total else 0%float)
            (if (0 <? total)%nat then percent (p + l) total else 0%float)))
    (fun error =>
       try_catch
         (enrolledStudents <~ getCourseStudents courseId ;;
          ret (mkStats (length enrolledStudents) 0 0 0 0 0%float 0%float))
         (fun _ => ret (mkStats 0 0 0 0 0 0%float 0%float))).

(** An element [{ studentId, date, status }] of an import. *)
Record ImportEntry := mkImportEntry {
  imp_studentId : string;
  imp_date : string;
  imp_status : Status
}.

Record ImportResults := mkImportResults {
  success : nat;
  failed : nat;
  errors : list string
}.

(** [`${error}`]. *)
Definition exn_text (e : Exn) : string :=
  match e with
  | NetworkFailure => "TypeError: Failed to fetch"
  | Raised _ => "[object Object]"
  | SyntaxError => "SyntaxError"
  end.

Definition bulkImportAttendance (courseId : string) (attendanceData : list ImportEntry)
    (markedBy : string) : M ImportResults :=
  foldM (fun results record =>
           try_catch
             (markSingleAttendance courseId (imp_studentId record) (imp_date record)
                                   (imp_status record) markedBy ;;;
              ret (mkImportResults (S (success results)) (failed results)
                                   (errors results)))
             (fun error =>
                ret (mkImportResults (success results) (S (failed results))
                       (errors results ++
                        [("Failed to import record for student " ++ imp_studentId record
                          ++ " on " ++ imp_date record ++ ": " ++ exn_text error)%string]))))
        (mkImportResults 0 0 []) attendanceData.

(** *** Sequences of marking calls *)

Inductive Call :=
  | MarkOne (courseId studentId d : string) (st : Status) (markedBy : string)
  | MarkBulk (courseId d : string) (attendanceData : list Mark) (markedBy : string).

Definition run_call (c : Call) : M bool :=
  match c with
  | MarkOne courseId studentId d st markedBy =>
      markSingleAttendance courseId studentId d st markedBy
  | MarkBulk courseId d attendanceData markedBy =>
      markAttendance courseId d attendanceData markedBy
  end.

Fixpoint run_calls (cs : list Call) (w : World) : World :=
  match cs with
  | [] => w
  | c :: cs' => run_calls cs' (snd (run_call c w))
  end.

End Environment.

(** ** The statistics helper of the course-detail view
    ([getAttendanceStats] in [CourseCard.tsx]) *)

Module CourseCard.

Definition fetched_status (r : Fetched) : Status :=
  match r with
  | DbRow r => status r
  | CacheRecord a => ar_status a
  end.

(** The integer [n] for which [n / 10] is nearest to the exact value
    [m * 2^e] of a number, the larger one on a tie. *)
Definition nearest_tenths (m : positive) (e : Z) : N :=
  Z.to_N (if (0 <=? e)%Z then Z.pos m * 2 ^ e * 10
          else (20 * Z.pos m + 2 ^ (- e)) / 2 ^ (- e + 1))%Z.

Definition print_tenths (n : N) : string :=
  (pretty (n / 10)%N ++ "." ++ pretty (n mod 10)%N)%string.

(** [x.toFixed(1)], for [x] below [1e21]: one digit after the point,
    rounded from the exact value of the number. *)
Definition toFixed1 (x : float) : string :=
  match Prim2SF x with
  | S754_zero _ => "0.0"
  | S754_finite false m e => print_tenths (nearest_tenths m e)
  | S754_finite true m e => ("-" ++ print_tenths (nearest_tenths m e))%string
  | S754_infinity false => "Infinity"
  | S754_infinity true => "-Infinity"
  | S754_nan => "NaN"
  end.

Record ViewStats := mkViewStats {
  totalStudents : nat;
  markedStudents : nat;
  present_count : nat;
  late_count : nat;
  absent_count : nat;
  unmarked : Z;
  attendanceRate : string
}.

Definition count (s : Status) (l : list Fetched) : nat :=
  length (List.filter (fun r => bool_decide (fetched_status r = s)) l).

Definition getAttendanceStats (students : list Student)
    (attendanceRecords : list Fetched) : ViewStats :=
  let totalStudents := length students in
  let markedStudents := length attendanceRecords in
  let p := count present attendanceRecords in
  let l := count late attendanceRecords in
  let a := count absent attendanceRecords in
  let unmarked := (Z.of_nat totalStudents - Z.of_nat markedStudents)%Z in
  mkViewStats totalStudents markedStudents p l a unmarked
    (if (0 <? markedStudents)%nat then toFixed1 (percent (p + l) markedStudents)
     else "0").

End CourseCard.

(** ** Notions used in the statements *)

(** What [JSON.parse(getItem(key) || '{}')] yields when it does not throw:
    the empty object for a missing entry, the stored object otherwise. *)
Definition entry_object (t : option StoredText) : option (gmap string CacheMark) :=
  match t with
  | None => Some ∅
  | Some (ObjText o) => Some o
  | Some BadText => None
  end.

(** The object built by the [forEach] of [markAttendance], started at
    interaction [t] from [acc]. *)
Fixpoint bulk_object (env : Env) (markedBy : string) (t : nat)
    (acc : gmap string CacheMark) (l : list Mark) : gmap string CacheMark :=
  match l with
  | [] => acc
  | m :: l' =>
      bulk_object env markedBy (S t)
        (<[m_studentId m := mkCacheMark (m_status m) markedBy (time_at env t)]> acc) l'
  end.

(** The rows built by the [map] of [markAttendance], started at
    interaction [t]. *)
Fixpoint bulk_rows (env : Env) (courseId d markedBy : string) (t : nat)
    (l : list Mark) : list NewRow :=
  match l with
  | [] => []
  | m :: l' =>
      mkNewRow courseId (m_studentId m) d (m_status m) markedBy
               (time_at env t) (time_at env (S t))
      :: bulk_rows env courseId d markedBy (S (S t)) l'
  end.

(** The write-ahead step of [markSingleAttendance]: everything before the
    inner [try]. *)
Definition cache_step_single (env : Env) (courseId studentId d : string)
    (st : Status) (markedBy : string) : M unit :=
  item <~ getItem (storageKey courseId d) ;;
  existingData <~ JSON_parse_or_empty item ;;
  t <~ now env ;;
  setItem (storageKey courseId d)
    (JSON_stringify (<[studentId := mkCacheMark st markedBy t]> existingData)).

(** The write-ahead step of [markAttendance]. *)
Definition cache_step_bulk (env : Env) (courseId d : string)
    (attendanceData : list Mark) (markedBy : string) : M unit :=
  localData <~ foldM (fun (localData : gmap string CacheMark) record =>
                        t <~ now env ;;
                        ret (<[m_studentId record :=
                                 mkCacheMark (m_status record) markedBy t]> localData))
                     ∅ attendanceData ;;
  setItem (storageKey courseId d) (JSON_stringify localData).

(** The remote attempt of [markSingleAttendance]: the inner [try]/[catch]. *)
Definition remote_step_single (env : Env) (courseId studentId d : string)
    (st : Status) (markedBy : string) : M unit :=
  try_catch
    (sel <~ db_select_single env (courseId, studentId, d) ;;
     match data sel with
     | Some existingRecord =>
         u <~ now env ;;
         resp <~ db_update env (row_id existingRecord) st markedBy u ;;
         match error resp with
         | Some e => throw (Raised e)
         | None => ret tt
         end
     | None =>
         c <~ now env ;;
         u <~ now env ;;
         resp <~ db_insert env [mkNewRow courseId studentId d st markedBy c u] ;;
         match error resp with
         | Some e => throw (Raised e)
         | None => ret tt
         end
     end)
    (fun dbError => ret tt).

(** The remote attempt of [markAttendance]. *)
Definition remote_step_bulk (env : Env) (courseId d : string)
    (attendanceData : list Mark) (markedBy : string) : M unit :=
  try_catch
    (db_delete env courseId d ;;;
     records <~ mapM (fun record =>
                        c <~ now env ;;
                        u <~ now env ;;
                        ret (mkNewRow courseId (m_studentId record) d
                                      (m_status record) markedBy c u))
                     attendanceData ;;
     resp <~ db_insert env records ;;
     match error resp with
     | Some e => throw (Raised e)
     | None => ret tt
     end)
    (fun dbError => ret tt).

(** The enrollment join is unavailable: the call fails, or no student
    comes back. *)
Definition join_unavailable (env : Env) (courseId : string) (w : World) : Prop :=
  net_at env (tick w) ≠ NoFault ∨
  flat (map enr_student
          (List.filter (fun e => bool_decide (enr_course_id e = courseId))
                       (enrollments w))) = [].

(** The stored rows and the cached records of one triple. *)
Definition records_for (k : Key) (w : World) : list Row :=
  List.filter (matches_key k) (db w).

Definition cached_for (k : Key) (w : World) : list AttendanceRecord :=
  let '(courseId, studentId, d) := k in
  match localStorage w !! storageKey courseId d with
  | Some (ObjText o) =>
      List.filter (fun a => bool_decide (ar_studentId a = studentId))
                  (decode_entries courseId d o)
  | _ => []
  end.

(** The object assembled at the end of [getAttendanceStats] from the
    roster size and the fetched statuses. *)
Definition build_stats (totalStudents : nat) (attendanceRecords : list Status) : Stats :=
  let total := length attendanceRecords in
  let p := count_status present attendanceRecords in
  let a := count_status absent attendanceRecords in
  let l := count_status late attendanceRecords in
  mkStats totalStudents total p a l
    (if (0 <? total)%nat then percent p total else 0%float)
    (if (0 <? total)%nat then percent (p + l) total else 0%float).

(** The database invariants: the unique constraint, the primary key, and
    the freshness of generated ids. *)
Definition db_unique (w : World) : Prop := NoDup (map row_key (db w)).

Definition ids_ok (w : World) : Prop :=
  NoDup (map row_id (db w)) ∧ Forall (fun r => row_id r < next_id w) (db w).

(** Every cached text parses. *)
Definition cache_ok (w : World) : Prop :=
  ∀ key, localStorage w !! key ≠ Some BadText.

(** No day has been cached yet: the storage holds no text under a key that
    starts with [attendance_] (it may hold any text under other keys). *)
Definition no_attendance_text (w : World) : Prop :=
  ∀ key, String.prefix "attendance_" key = true → localStorage w !! key = None.

(** The texts under the keys of the service are texts the service wrote. *)
Definition service_cache (w : World) : Prop :=
  ∀ key, String.prefix "attendance_" key = true →
         localStorage w !! key ≠ Some BadText.

(** The cached days the fallback of [getAttendanceStats] visits for a
    course all parse. *)
Definition course_texts_ok (courseId : string) (w : World) : Prop :=
  ∀ key, String.prefix ("attendance_" ++ courseId ++ "_")%string key = true →
         localStorage w !! key ≠ Some BadText.

(** Worlds and oracles used in the examples. *)
Definition w0 : World := mkWorld [] [] ∅ 0 0.
Definition calm : Env := mkEnv (fun n => n) (fun _ => NoFault).
Definition offline : Env := mkEnv (fun n => n) (fun _ => Throws).

(** A storage that holds a text of another part of the application, which
    is not JSON, and no cached day. *)
Definition w_theme : World :=
  mkWorld [] [] {[ "scms-theme" := BadText ]} 0 0.

(** A cache whose entry for the day is not JSON. *)
Definition w_corrupt : World :=
  mkWorld [] [] {[ storageKey "CS101" "2024-01-15" := BadText ]} 0 0.

(** A course whose table holds three rows, two of them present. *)
Definition w_three : World :=
  mkWorld [ mkRow 0 "CS101" "S1" "2024-01-15" present "I1" 1;
            mkRow 1 "CS101" "S2" "2024-01-15" absent "I1" 2;
            mkRow 2 "CS101" "S3" "2024-01-15" present "I1" 3 ]
          [] ∅ 3 12.

(** A course with two enrolled students and three rows over two days. *)
Definition w_enrolled : World :=
  mkWorld [ mkRow 0 "CS101" "S1" "2024-01-15" present "I1" 1;
            mkRow 1 "CS101" "S2" "2024-01-15" absent "I1" 2;
            mkRow 2 "CS101" "S1" "2024-01-16" absent "I1" 3 ]
          [ mkEnrollment "CS101" (JoinOne (mkStudent "S1" "Ann" "ann@student.edu" "STU101"));
            mkEnrollment "CS101" (JoinOne (mkStudent "S2" "Ben" "ben@student.edu" "STU102")) ]
          ∅ 3 12.

(** A day for which the table and the cache hold students A, B and C. *)
Definition w_abc : World :=
  mkWorld [ mkRow 0 "CS101" "A" "2024-01-15" present "I1" 1;
            mkRow 1 "CS101" "B" "2024-01-15" late "I1" 2;
            mkRow 2 "CS101" "C" "2024-01-15" absent "I1" 3 ]
          []
          {[ storageKey "CS101" "2024-01-15" :=
               ObjText {[ "A" := mkCacheMark present "I1" 1;
                          "B" := mkCacheMark late "I1" 2;
                          "C" := mkCacheMark absent "I1" 3 ]} ]}
          3 10.

(** ** The other readers of [AttendanceService] *)

Section Readers.

Variable env : Env.

(** [.select(...).eq('student_id', s)], optionally [.eq('course_id', c)],
    ordered by descending date. *)
Definition db_select_student (studentId : string) (courseId : option string)
    : M (Response (list Row)) :=
  remote env (fun w =>
    let by_student := List.filter (fun r => bool_decide (student_id r = studentId)) (db w) in
    let by_course := match courseId with
                     | Some c => List.filter (fun r => bool_decide (course_id r = c)) by_student
                     | None => by_student
                     end in
    (Val (mkResponse (Some (order_desc by_course)) None), w)).

Definition getStudentAttendance (studentId : string) (courseId : option string)
    : M (list Row) :=
  try_catch
    (resp <~ db_select_student studentId (if truthy courseId then courseId else None) ;;
     match error resp with
     | Some e => throw (Raised e)
     | None => ret (default [] (data resp))
     end)
    (fun error => throw error).

(** Insertion into a list ordered by ascending date, for [.order('date')]. *)
Fixpoint insert_asc (r : Row) (l : list Row) : list Row :=
  match l with
  | [] => [r]
  | x :: l' => if String.leb (date r) (date x) then r :: l
               else x :: insert_asc r l'
  end.

Definition order_asc (l : list Row) : list Row := foldr insert_asc [] l.

(** [.select('*').eq('course_id', c).gte('date', s).lte('date', e).order('date')]. *)
Definition db_select_range (courseId startDate endDate : string)
    : M (Response (list Row)) :=
  remote env (fun w =>
    (Val (mkResponse
            (Some (order_asc
                     (List.filter (fun r => String.leb (date r) endDate)
                        (List.filter (fun r => String.leb startDate (date r))
                           (List.filter (fun r => bool_decide (course_id r = courseId))
                                        (db w))))))
            None), w)).

(** The [attendance] part of a report entry. *)
Record StudentAttendance := mkStudentAttendance {
  sa_total : nat;
  sa_present : nat;
  sa_late : nat;
  sa_absent : nat;
  sa_attendanceRate : float;
  sa_records : list Row
}.

Record ReportEntry := mkReportEntry {
  re_student : Student;
  re_attendance : StudentAttendance
}.

Definition count_rows (s : Status) (l : list Row) : nat :=
  length (List.filter (fun r => bool_decide (status r = s)) l).

(** The body of the [students.map] of [generateAttendanceReport];
    [records?.filter(...) || []] reads a missing [data] as no record. *)
Definition report_entry (records : option (list Row)) (student : Student) : ReportEntry :=
  let studentRecords :=
    default [] (List.filter (fun r => bool_decide (student_id r = st_id student))
                  <$> records) in
  let total := length studentRecords in
  let p := count_rows present studentRecords in
  let l := count_rows late studentRecords in
  let a := count_rows absent studentRecords in
  mkReportEntry student
    (mkStudentAttendance total p l a
       (if (0 <? total)%nat then percent (p + l) total else 0%float)
       studentRecords).

Definition generateAttendanceReport (courseId startDate endDate : string)
    : M (list ReportEntry) :=
  try_catch
    (students <~ getCourseStudents env courseId ;;
     resp <~ db_select_range courseId startDate endDate ;;
     match error resp with
     | Some e => throw (Raised e)
     | None => ret (map (report_entry (data resp)) students)
     end)
    (fun error => throw error).

(** [.select('date').eq('course_id', c).order('date', { ascending: false })]. *)
Definition db_select_dates (courseId : string) : M (Response (list string)) :=
  remote env (fun w =>
    (Val (mkResponse
            (Some (map date
                     (order_desc
                        (List.filter (fun r => bool_decide (course_id r = courseId))
                                     (db w)))))
            None), w)).

(** [[...new Set(l)]]: the values of [l] in order of first occurrence;
    [seen] holds the values already in the set. *)
Fixpoint set_values (seen : list string) (l : list string) : list string :=
  match l with
  | [] => []
  | x :: l' => if bool_decide (x ∈ seen) then set_values seen l'
               else x :: set_values (x :: seen) l'
  end.

Definition getAttendanceDates (courseId : string) : M (list string) :=
  try_catch
    (resp <~ db_select_dates courseId ;;
     match error resp with
     | Some e => throw (Raised e)
     | None => ret (set_values [] (default [] (data resp)))
     end)
    (fun error => throw error).

End Readers.

(** ** Property reads on fetched records

    The two paths of [getAttendanceRecords] return objects of different
    shapes: rows carry [student_id], cache records carry [studentId]. A
    read of the property the object lacks gives [undefined]. *)

Definition prop_student_id (r : Fetched) : option string :=
  match r with
  | DbRow r => Some (student_id r)
  | CacheRecord _ => None
  end.

Definition prop_studentId (r : Fetched) : option string :=
  match r with
  | DbRow _ => None
  | CacheRecord a => Some (ar_studentId a)
  end.

(** The service's bulk mark, under a name the view module does not shadow. *)
Definition service_markAttendance := markAttendance.

(** ** The attendance tab of the course modal
    ([CourseManagementModal] in [CourseCard.tsx]) *)

Module CourseManagementModal.

(** The state the attendance handlers read and set. *)
Record State := mkState {
  students : list Student;
  attendanceRecords : list Fetched;
  selectedDate : string;
  isSaving : bool
}.

Definition setAttendanceRecords (records : list Fetched) (v : State) : State :=
  mkState (students v) records (selectedDate v) (isSaving v).

Definition setIsSaving (b : bool) (v : State) : State :=
  mkState (students v) (attendanceRecords v) (selectedDate v) b.

Definition loadAttendance (env : Env) (courseId : string) (v : State) : M State :=
  if String.eqb courseId "" then ret v
  else
    try_catch
      (records <~ getAttendanceRecords env courseId (Some (selectedDate v)) ;;
       ret (setAttendanceRecords records v))
      (fun error => ret (setAttendanceRecords [] v)).

(** [currentUser] is given by its [id]; [None] is no user. *)
Definition markAttendance (env : Env) (courseId : string) (currentUser : option string)
    (studentId : string) (st : Status) (v : State) : M State :=
  match currentUser with
  | None => ret v
  | Some userId =>
      if String.eqb courseId "" then ret v
      else
        try_catch
          (markSingleAttendance env courseId studentId (selectedDate v) st userId ;;;
           loadAttendance env courseId v)
          (fun error => ret v)
  end.

Definition getAttendanceStatus (v : State) (studentId : string) : option Status :=
  match List.find (fun r => bool_decide (prop_student_id r = Some studentId))
                  (attendanceRecords v) with
  | Some record => Some (CourseCard.fetched_status record)
  | None => None
  end.

(** [markAllPresent] and [markAllAbsent] differ in the status only. *)
Definition markAll (st : Status) (env : Env) (courseId : string)
    (currentUser : option string) (v : State) : M State :=
  match currentUser with
  | None => ret v
  | Some userId =>
      if String.eqb courseId "" then ret v
      else
        v' <~ try_catch
                (let attendanceData := map (fun student => mkMark (st_id student) st)
                                           (students v) in
                 service_markAttendance env courseId (selectedDate v)
                   attendanceData userId ;;;
                 loadAttendance env courseId (setIsSaving true v))
                (fun error => ret (setIsSaving true v)) ;;
        ret (setIsSaving false v')
  end.

Definition markAllPresent := markAll present.
Definition markAllAbsent := markAll absent.

Definition getAttendanceStats (v : State) : CourseCard.ViewStats :=
  CourseCard.getAttendanceStats (students v) (attendanceRecords v).

End CourseManagementModal.

(** ** The attendance tab of the course page
    ([CourseManagement] in [Attendance_new.tsx]) *)

Module CourseManagement.

(** The handlers read [selectedDate] and set [attendanceRecords]; a failed
    load leaves the records that were shown. *)
Definition loadAttendance (env : Env) (courseId selectedDate : string)
    (attendanceRecords : list Fetched) : M (list Fetched) :=
  if String.eqb courseId "" then ret attendanceRecords
  else
    try_catch
      (records <~ getAttendanceRecords env courseId (Some selectedDate) ;;
       ret records)
      (fun error => ret attendanceRecords).

Definition markAttendance (env : Env) (courseId : string) (currentUser : option string)
    (selectedDate studentId : string) (st : Status) (attendanceRecords : list Fetched)
    : M (list Fetched) :=
  match currentUser with
  | None => ret attendanceRecords
  | Some userId =>
      if String.eqb courseId "" then ret attendanceRecords
      else
        try_catch
          (markSingleAttendance env courseId studentId selectedDate st userId ;;;
           loadAttendance env courseId selectedDate attendanceRecords)
          (fun error => ret attendanceRecords)
  end.

Definition getAttendanceStatus (attendanceRecords : list Fetched) (studentId : string)
    : option Status :=
  match List.find (fun r => bool_decide (prop_studentId r = Some studentId))
                  attendanceRecords with
  | Some record => Some (CourseCard.fetched_status record)
  | None => None
  end.

End CourseManagement.

(** ** Notions used in the statements about the readers *)

(** Non-increasing and non-decreasing date order on rows and on dates. *)
Definition date_desc (a b : Row) : Prop := String.leb (date b) (date a) = true.
Definition date_asc (a b : Row) : Prop := String.leb (date a) (date b) = true.
Definition later (a b : string) : Prop := String.leb b a = true ∧ a ≠ b.

(** The rows a read of [getAttendanceRecords] asks for. *)
Definition selected (courseId : string) (d : option string) (r : Row) : bool :=
  bool_decide (course_id r = courseId) &&
  (if truthy d then bool_decide (date r = date_text d) else true).

(** The rows a read of [getStudentAttendance] asks for. *)
Definition selected_student (studentId : string) (courseId : option string) (r : Row)
    : bool :=
  bool_decide (student_id r = studentId) &&
  (if truthy courseId then bool_decide (course_id r = date_text courseId) else true).

(** The rows the status query of [getAttendanceStats] asks for. *)
Definition stats_selected (courseId : string) (startDate endDate : option string)
    (r : Row) : bool :=
  bool_decide (course_id r = courseId) &&
  ((if truthy startDate then String.leb (date_text startDate) (date r) else true) &&
   (if truthy endDate then String.leb (date r) (date_text endDate) else true)).

(** The rows [generateAttendanceReport] asks for. *)
Definition in_range (courseId startDate endDate : string) (r : Row) : bool :=
  bool_decide (course_id r = courseId) &&
  (String.leb startDate (date r) && String.leb (date r) endDate).

(** The statuses the cache holds under one key, and under all the keys the
    fallback of [getAttendanceStats] visits for a course. *)
Definition statuses_at (w : World) (key : string) : list Status :=
  match localStorage w !! key with
  | Some (ObjText o) => map (fun e => cm_status (snd e)) (map_to_list o)
  | _ => []
  end.

Definition cached_statuses (courseId : string) (w : World) : list Status :=
  concat (map (statuses_at w)
            (List.filter (String.prefix ("attendance_" ++ courseId ++ "_")%string)
                         (map fst (map_to_list (localStorage w))))).

(** The keys the fallback of [getAttendanceStats] visits for a course, and
    the number of marks cached under a key. *)
Definition course_keys (courseId : string) (w : World) : list string :=
  List.filter (String.prefix ("attendance_" ++ courseId ++ "_")%string)
              (map fst (map_to_list (localStorage w))).

Definition entry_size (w : World) (key : string) : nat :=
  match localStorage w !! key with
  | Some (ObjText o) => size o
  | _ => 0
  end.

(** * Properties *)

(** ** The monad *)

Lemma try_catch_const {A} (m : M A) (a : A) (w : World) :
  ∃ b, fst (try_catch m (fun _ => ret a) w) = Val b.
Proof.
  unfold try_catch, ret. destruct (m w) as [[b|e] w']; simpl; eauto.
Qed.

Lemma Val_inj {A} (a b : A) : @Val A a = Val b → a = b.
Proof. by intros [= ->]. Qed.

Lemma set_tick_add_0 (w : World) : set_tick (tick w + 0) w = w.
Proof. destruct w; unfold set_tick; simpl. by rewrite Nat.add_0_r. Qed.

Lemma set_tick_twice (n m : nat) (w : World) :
  set_tick n (set_tick m w) = set_tick n w.
Proof. reflexivity. Qed.

Lemma foldM_bulk_object env markedBy (l : list Mark) :
  ∀ (acc : gmap string CacheMark) (w : World),
    foldM (fun (localData : gmap string CacheMark) record =>
             t <~ now env ;;
             ret (<[m_studentId record :=
                      mkCacheMark (m_status record) markedBy t]> localData))
          acc l w
    = (Val (bulk_object env markedBy (tick w) acc l),
       set_tick (tick w + length l) w).
Proof.
  induction l as [|m l IH]; intros acc w; simpl.
  - by rewrite set_tick_add_0.
  - unfold bind at 1. unfold bind at 1. unfold now at 1, ret at 1. simpl.
    rewrite IH. simpl. f_equal. rewrite set_tick_twice. f_equal. lia.
Qed.

Lemma mapM_bulk_rows env courseId d markedBy (l : list Mark) :
  ∀ w : World,
    mapM (fun record =>
            c <~ now env ;;
            u <~ now env ;;
            ret (mkNewRow courseId (m_studentId record) d
                          (m_status record) markedBy c u))
         l w
    = (Val (bulk_rows env courseId d markedBy (tick w) l),
       set_tick (tick w + 2 * length l) w).
Proof.
  induction l as [|m l IH]; intros w; simpl.
  - by rewrite set_tick_add_0.
  - unfold bind at 1. unfold bind at 1. unfold bind at 1.
    unfold now at 1 2, ret at 1. simpl.
    unfold bind at 1. rewrite IH. simpl. unfold ret. f_equal.
    rewrite !set_tick_twice. f_equal. lia.
Qed.

(** ** How the marking methods decompose *)

Lemma cache_step_single_eq env courseId studentId d st markedBy w :
  cache_step_single env courseId studentId d st markedBy w =
  match entry_object (localStorage w !! storageKey courseId d) with
  | Some o =>
      (Val tt,
       set_localStorage
         (insert (storageKey courseId d)
            (ObjText (<[studentId := mkCacheMark st markedBy (time_at env (tick w))]> o)))
         (set_tick (S (tick w)) w))
  | None => (Thrown SyntaxError, w)
  end.
Proof.
  unfold cache_step_single, bind, getItem, JSON_parse_or_empty. simpl.
  destruct (localStorage w !! storageKey courseId d) as [[o|]|]; reflexivity.
Qed.

Lemma cache_step_bulk_eq env courseId d attendanceData markedBy w :
  cache_step_bulk env courseId d attendanceData markedBy w =
  (Val tt,
   set_localStorage
     (insert (storageKey courseId d)
        (ObjText (bulk_object env markedBy (tick w) ∅ attendanceData)))
     (set_tick (tick w + length attendanceData) w)).
Proof.
  unfold cache_step_bulk. unfold bind at 1. by rewrite foldM_bulk_object.
Qed.

Lemma remote_step_single_total env courseId studentId d st markedBy w :
  fst (remote_step_single env courseId studentId d st markedBy w) = Val tt.
Proof.
  destruct (try_catch_const
              (sel <~ db_select_single env (courseId, studentId, d) ;;
               match data sel with
               | Some existingRecord =>
                   u <~ now env ;;
                   resp <~ db_update env (row_id existingRecord) st markedBy u ;;
                   match error resp with
                   | Some e => throw (Raised e)
                   | None => ret tt
                   end
               | None =>
                   c <~ now env ;;
                   u <~ now env ;;
                   resp <~ db_insert env [mkNewRow courseId studentId d st markedBy c u] ;;
                   match error resp with
                   | Some e => throw (Raised e)
                   | None => ret tt
                   end
               end) tt w) as [[] H].
  exact H.
Qed.

Lemma remote_step_bulk_total env courseId d attendanceData markedBy w :
  fst (remote_step_bulk env courseId d attendanceData markedBy w) = Val tt.
Proof.
  unfold remote_step_bulk.
  match goal with
  | |- fst (try_catch ?m _ _) = _ => destruct (try_catch_const m tt w) as [[] H]
  end.
  exact H.
Qed.

Lemma markSingleAttendance_steps env courseId studentId d st markedBy w :
  markSingleAttendance env courseId studentId d st markedBy w =
  match cache_step_single env courseId studentId d st markedBy w with
  | (Val _, w1) =>
      (Val true, snd (remote_step_single env courseId studentId d st markedBy w1))
  | (Thrown _, w1) => (Val false, w1)
  end.
Proof.
  rewrite cache_step_single_eq.
  unfold markSingleAttendance, try_catch at 1, bind at 1, getItem. simpl.
  unfold bind at 1, JSON_parse_or_empty.
  destruct (localStorage w !! storageKey courseId d) as [[o|]|]; simpl;
    try reflexivity.
  all: unfold bind at 1, now at 1; simpl; unfold bind at 1, setItem at 1; simpl.
  all: unfold bind at 1, JSON_stringify.
  all: match goal with
       | |- context [try_catch ?m ?h ?w1] =>
           change (try_catch m h) with
             (remote_step_single env courseId studentId d st markedBy);
           generalize w1; intros w1'
       end.
  all: pose proof (remote_step_single_total env courseId studentId d st markedBy w1') as Ht.
  all: destruct (remote_step_single env courseId studentId d st markedBy w1')
         as [[[]|e] w2]; simpl in Ht; [reflexivity | discriminate].
Qed.

Lemma markAttendance_steps env courseId d attendanceData markedBy w :
  markAttendance env courseId d attendanceData markedBy w =
  (Val true,
   snd (remote_step_bulk env courseId d attendanceData markedBy
          (snd (cache_step_bulk env courseId d attendanceData markedBy w)))).
Proof.
  rewrite cache_step_bulk_eq.
  unfold markAttendance, try_catch at 1, bind at 1.
  rewrite foldM_bulk_object.
  unfold bind at 1, setItem at 1, JSON_stringify. cbv beta iota. unfold bind at 1.
  match goal with
  | |- context [try_catch ?m ?h ?w1] =>
      change (try_catch m h) with
        (remote_step_bulk env courseId d attendanceData markedBy);
      generalize w1; intros w1'
  end.
  pose proof (remote_step_bulk_total env courseId d attendanceData markedBy w1') as Ht.
  unfold snd at 2.
  destruct (remote_step_bulk env courseId d attendanceData markedBy w1')
    as [[[]|e] w2]; simpl in Ht; [reflexivity | discriminate].
Qed.

(** ** What the table accepts *)

Lemma insert_payload_refused :
  unknown_column insert_payload_columns = Some "updated_at".
Proof. vm_compute. reflexivity. Qed.

Lemma update_payload_refused :
  unknown_column update_payload_columns = Some "updated_at".
Proof. vm_compute. reflexivity. Qed.

(** The remote attempt of [markSingleAttendance] reads the table and has
    its write refused: only the interaction count changes. *)
Lemma remote_step_single_eq env courseId studentId d st markedBy w :
  remote_step_single env courseId studentId d st markedBy w =
  (Val tt,
   set_tick
     match net_at env (tick w) with
     | Throws => S (tick w)
     | ReturnsError => 4 + tick w
     | NoFault =>
         match List.filter (matches_key (courseId, studentId, d)) (db w) with
         | [_] => 3 + tick w
         | _ => 4 + tick w
         end
     end w).
Proof.
  cbv [remote_step_single try_catch bind db_select_single db_update db_insert
       remote net now ret throw].
  cbn [tick set_tick db]. rewrite update_payload_refused, insert_payload_refused.
  destruct (net_at env (tick w)) eqn:E0; simpl; [| |done].
  - destruct (List.filter _ (db w)) as [|r [|r' l]]; simpl.
    + by destruct (net_at env (S (S (S (tick w))))).
    + by destruct (net_at env (S (S (tick w)))).
    + by destruct (net_at env (S (S (S (tick w))))).
  - by destruct (net_at env (S (S (S (tick w))))).
Qed.

(** The remote attempt of [markAttendance] deletes the rows of the day when
    the delete is answered, and stores nothing. *)
Lemma remote_step_bulk_eq env courseId d attendanceData markedBy w :
  remote_step_bulk env courseId d attendanceData markedBy w =
  match net_at env (tick w) with
  | Throws => (Val tt, set_tick (S (tick w)) w)
  | f =>
      (Val tt,
       mkWorld match f with
               | NoFault =>
                   List.filter (fun r => negb (in_partition courseId d r)) (db w)
               | _ => db w
               end
               (enrollments w) (localStorage w) (next_id w)
               (S (S (tick w + 2 * length attendanceData))))
  end.
Proof.
  unfold remote_step_bulk, try_catch, bind at 1, db_delete, remote.
  unfold bind at 1, net. cbv beta iota.
  destruct (net_at env (tick w)) eqn:Hf; [| |reflexivity]; simpl.
  all: unfold bind at 1; rewrite mapM_bulk_rows; cbv beta iota.
  all: unfold bind at 1, db_insert, remote; unfold bind at 1, net.
  all: rewrite insert_payload_refused.
  all: cbv [throw ret]; simpl.
  all: clear Hf; destruct attendanceData as [|m l]; simpl;
         destruct (net_at env (S _)); simpl; repeat f_equal; lia.
Qed.

(** ** The remote attempts leave the cache alone *)

Lemma remote_step_single_ls env courseId studentId d st markedBy w :
  localStorage (snd (remote_step_single env courseId studentId d st markedBy w))
  = localStorage w.
Proof. by rewrite remote_step_single_eq. Qed.

Lemma remote_step_single_db env courseId studentId d st markedBy w :
  db (snd (remote_step_single env courseId studentId d st markedBy w)) = db w ∧
  next_id (snd (remote_step_single env courseId studentId d st markedBy w))
  = next_id w.
Proof. by rewrite remote_step_single_eq. Qed.

Lemma remote_step_single_throws env courseId studentId d st markedBy w :
  net_at env (tick w) = Throws →
  remote_step_single env courseId studentId d st markedBy w
  = (Val tt, set_tick (S (tick w)) w).
Proof. intros H. by rewrite remote_step_single_eq, H. Qed.

Lemma remote_step_bulk_throws env courseId d attendanceData markedBy w :
  net_at env (tick w) = Throws →
  remote_step_bulk env courseId d attendanceData markedBy w
  = (Val tt, set_tick (S (tick w)) w).
Proof. intros H. by rewrite remote_step_bulk_eq, H. Qed.

Lemma remote_step_bulk_ls env courseId d attendanceData markedBy w :
  localStorage (snd (remote_step_bulk env courseId d attendanceData markedBy w))
  = localStorage w.
Proof. rewrite remote_step_bulk_eq. by destruct (net_at env (tick w)). Qed.

Lemma remote_step_bulk_db env courseId d attendanceData markedBy w :
  db (snd (remote_step_bulk env courseId d attendanceData markedBy w))
  = match net_at env (tick w) with
    | NoFault => List.filter (fun r => negb (in_partition courseId d r)) (db w)
    | _ => db w
    end ∧
  next_id (snd (remote_step_bulk env courseId d attendanceData markedBy w))
  = next_id w.
Proof. rewrite remote_step_bulk_eq. by destruct (net_at env (tick w)). Qed.

(** ** The roster *)

Lemma getCourseStudents_eq env courseId w :
  getCourseStudents env courseId w =
  (Val match net_at env (tick w) with
       | NoFault =>
           let students :=
             flat (map enr_student
                     (List.filter (fun e => bool_decide (enr_course_id e = courseId))
                                  (enrollments w))) in
           if (length students =? 0)%nat then mockStudents else students
       | _ => mockStudents
       end,
   set_tick (S (tick w)) w).
Proof.
  cbv [getCourseStudents try_catch bind db_select_enrollments remote net ret throw].
  cbn [tick]. destruct (net_at env (tick w)); cbn [error data default]; try done.
  cbv [id]. cbn [enrollments set_tick].
  by destruct (length _ =? 0)%nat.
Qed.

Lemma mockStudents_ids : NoDup (map st_id mockStudents).
Proof. by apply (bool_decide_unpack _); vm_compute. Qed.

(** C5. For every course, [getCourseStudents] returns a roster (it never
    raises), the roster is never empty, and when the enrollment join fails
    or yields no student the result is the fixed list [mockStudents] of
    five placeholders with pairwise distinct, constant identifiers. *)
Theorem roster_fail_soft env courseId w :
  (∃ roster, fst (getCourseStudents env courseId w) = Val roster ∧ roster ≠ []) ∧
  (join_unavailable env courseId w →
     fst (getCourseStudents env courseId w) = Val mockStudents) ∧
  length mockStudents = 5 ∧
  NoDup (map st_id mockStudents).
Proof.
  rewrite getCourseStudents_eq. cbn [fst].
  split; [|split; [|split; [reflexivity | exact mockStudents_ids]]].
  - eexists; split; [reflexivity|].
    destruct (net_at env (tick w)); try done.
    cbv zeta. case_match; [done|].
    intros Hnil. rewrite Hnil in *. discriminate.
  - intros [Hf | He].
    + by destruct (net_at env (tick w)).
    + rewrite He. by destruct (net_at env (tick w)).
Qed.

Lemma roster_fail_soft_witness :
  join_unavailable calm "CS101" w0 ∧
  fst (getCourseStudents calm "CS101" w0) = Val mockStudents.
Proof.
  split.
  - right. reflexivity.
  - apply (proj1 (proj2 (roster_fail_soft calm "CS101" w0))). right. reflexivity.
Defined.

(** ** Bulk import *)

Lemma markSingleAttendance_total env courseId studentId d st markedBy w :
  ∃ b, fst (markSingleAttendance env courseId studentId d st markedBy w) = Val b.
Proof.
  rewrite markSingleAttendance_steps.
  destruct (cache_step_single env courseId studentId d st markedBy w) as [[[]|e] w1];
    eauto.
Qed.

Lemma bulkImport_loop env courseId markedBy (l : list ImportEntry) :
  ∀ (results : ImportResults) (w : World),
    fst (foldM (fun results record =>
                  try_catch
                    (markSingleAttendance env courseId (imp_studentId record)
                       (imp_date record) (imp_status record) markedBy ;;;
                     ret (mkImportResults (S (success results)) (failed results)
                                          (errors results)))
                    (fun error =>
                       ret (mkImportResults (success results) (S (failed results))
                              (errors results ++
                               [("Failed to import record for student "
                                 ++ imp_studentId record ++ " on " ++ imp_date record
                                 ++ ": " ++ exn_text error)%string]))))
               results l w)
    = Val (mkImportResults (success results + length l) (failed results)
                           (errors results)).
Proof.
  induction l as [|record l IH]; intros results w; simpl.
  - destruct results; simpl. by rewrite Nat.add_0_r.
  - unfold bind at 1, try_catch at 1, bind at 1.
    destruct (markSingleAttendance_total env courseId (imp_studentId record)
                (imp_date record) (imp_status record) markedBy w) as [b Hb].
    destruct (markSingleAttendance env courseId (imp_studentId record)
                (imp_date record) (imp_status record) markedBy w) as [[b'|e] w1];
      simpl in Hb; [|discriminate].
    unfold ret at 1. rewrite IH. simpl. do 2 f_equal. lia.
Qed.

(** C9. [markSingleAttendance] never throws, so for every list of [n]
    entries [bulkImportAttendance] returns
    [{ success: n, failed: 0, errors: [] }], whatever happened to the
    individual writes. *)
Theorem bulk_import_reports_no_failure env courseId attendanceData markedBy w :
  (∀ studentId d st w',
     ∃ b, fst (markSingleAttendance env courseId studentId d st markedBy w') = Val b) ∧
  fst (bulkImportAttendance env courseId attendanceData markedBy w)
  = Val (mkImportResults (length attendanceData) 0 []).
Proof.
  split.
  - intros. apply markSingleAttendance_total.
  - unfold bulkImportAttendance. by rewrite bulkImport_loop.
Qed.


(** ** The cache entry written by a mark *)

Lemma bulk_object_notin env markedBy (l : list Mark) :
  ∀ t (acc : gmap string CacheMark) (s : string),
    s ∉ map m_studentId l →
    bulk_object env markedBy t acc l !! s = acc !! s.
Proof.
  induction l as [|m l IH]; intros t acc s Hs; simpl; [done|].
  simpl in Hs. apply not_elem_of_cons in Hs as [Hne Hs].
  rewrite IH by done. by rewrite lookup_insert_ne.
Qed.

Lemma bulk_object_in env markedBy (l : list Mark) :
  ∀ t (acc : gmap string CacheMark) (m : Mark),
    NoDup (map m_studentId l) → m ∈ l →
    ∃ ts, bulk_object env markedBy t acc l !! m_studentId m
          = Some (mkCacheMark (m_status m) markedBy ts).
Proof.
  induction l as [|m0 l IH]; intros t acc m Hnd Hm; simpl.
  - by apply elem_of_nil in Hm.
  - simpl in Hnd. apply NoDup_cons in Hnd as [Hfresh Hnd].
    apply elem_of_cons in Hm as [-> | Hm].
    + rewrite bulk_object_notin by done. rewrite lookup_insert_eq. eauto.
    + by apply IH.
Qed.

Lemma single_mark_storage env courseId studentId d st markedBy w o :
  entry_object (localStorage w !! storageKey courseId d) = Some o →
  fst (markSingleAttendance env courseId studentId d st markedBy w) = Val true ∧
  localStorage (snd (markSingleAttendance env courseId studentId d st markedBy w))
  = <[storageKey courseId d :=
        ObjText (<[studentId := mkCacheMark st markedBy (time_at env (tick w))]> o)]>
      (localStorage w).
Proof.
  intros Ho. rewrite markSingleAttendance_steps, cache_step_single_eq, Ho.
  cbn [fst snd]. by rewrite remote_step_single_ls.
Qed.

Lemma bulk_mark_storage env courseId d attendanceData markedBy w :
  localStorage (snd (markAttendance env courseId d attendanceData markedBy w))
  = <[storageKey courseId d :=
        ObjText (bulk_object env markedBy (tick w) ∅ attendanceData)]>
      (localStorage w).
Proof.
  rewrite markAttendance_steps, cache_step_bulk_eq.
  cbn [fst snd]. by rewrite remote_step_bulk_ls.
Qed.

(** C10. When the cached entry of [(courseId, date)] is an object (or is
    missing, which reads as the empty object), [markSingleAttendance]
    leaves an entry that maps [studentId] to the new
    [{status, markedBy, timestamp}], agrees with the old object on every
    other student, and leaves every other cache key as it was;
    [markAttendance] instead leaves an entry with no student outside its
    payload. *)
Theorem single_mark_cache_frame env courseId studentId d st markedBy w o :
  entry_object (localStorage w !! storageKey courseId d) = Some o →
  (∃ o',
     localStorage (snd (markSingleAttendance env courseId studentId d st markedBy w))
       !! storageKey courseId d = Some (ObjText o') ∧
     o' !! studentId = Some (mkCacheMark st markedBy (time_at env (tick w))) ∧
     (∀ s, s ≠ studentId → o' !! s = o !! s)) ∧
  (∀ key, key ≠ storageKey courseId d →
     localStorage (snd (markSingleAttendance env courseId studentId d st markedBy w))
       !! key = localStorage w !! key) ∧
  (∀ attendanceData,
     ∃ o'',
       localStorage (snd (markAttendance env courseId d attendanceData markedBy w))
         !! storageKey courseId d = Some (ObjText o'') ∧
       (∀ s, s ∉ map m_studentId attendanceData → o'' !! s = None)).
Proof.
  intros Ho.
  destruct (single_mark_storage env courseId studentId d st markedBy w o Ho)
    as [_ Hls].
  rewrite Hls. split; [|split].
  - eexists. split; [apply lookup_insert_eq|]. split.
    + apply lookup_insert_eq.
    + intros s Hs. by rewrite lookup_insert_ne.
  - intros key Hkey. by rewrite lookup_insert_ne.
  - intros attendanceData. rewrite bulk_mark_storage.
    eexists. split; [apply lookup_insert_eq|].
    intros s Hs. by rewrite bulk_object_notin.
Qed.

Lemma single_mark_cache_frame_witness :
  let w := snd (markAttendance calm "CS101" "2024-01-16"
                  [mkMark "S1" absent; mkMark "S2" absent] "I1" w0) in
  ∃ o',
    localStorage (snd (markSingleAttendance calm "CS101" "S1" "2024-01-16" late "I1" w))
      !! storageKey "CS101" "2024-01-16" = Some (ObjText o') ∧
    o' !! "S1" = Some (mkCacheMark late "I1" (time_at calm (tick w))) ∧
    (∀ s, s ≠ "S1" →
       o' !! s = ({[ "S1" := mkCacheMark absent "I1" 0;
                     "S2" := mkCacheMark absent "I1" 1 ]} : gmap string CacheMark) !! s).
Proof.
  intros w.
  refine (proj1 (single_mark_cache_frame calm "CS101" "S1" "2024-01-16" late "I1" w
                   {[ "S1" := mkCacheMark absent "I1" 0;
                      "S2" := mkCacheMark absent "I1" 1 ]} _)).
  vm_compute. reflexivity.
Defined.

(** ** The keys of the cache *)

Lemma string_app_assoc (a b c : string) : ((a ++ b) ++ c = a ++ (b ++ c))%string.
Proof.
  induction a as [|x a IH]; [reflexivity|].
  change (String x ((a ++ b) ++ c) = String x (a ++ (b ++ c)))%string.
  by rewrite IH.
Qed.

Lemma string_prefix_app (p s : string) : String.prefix p (p ++ s)%string = true.
Proof.
  induction p as [|c p IH]; [by destruct s|].
  change (String.prefix (String c p) (String c (p ++ s)%string) = true).
  cbn [String.prefix]. destruct (Ascii.ascii_dec c c); [done | congruence].
Qed.

Lemma string_prefix_weaken (p q key : string) :
  String.prefix (p ++ q)%string key = true → String.prefix p key = true.
Proof.
  revert key. induction p as [|c p IH]; intros key H; [by destruct key|].
  change (String.prefix (String c (p ++ q)%string) key = true) in H.
  destruct key as [|c' key]; cbn [String.prefix] in *; [discriminate|].
  destruct (Ascii.ascii_dec c c'); [by apply IH | discriminate].
Qed.

Lemma storageKey_attendance (courseId d : string) :
  String.prefix "attendance_" (storageKey courseId d) = true.
Proof. apply string_prefix_app. Qed.

Lemma storageKey_prefix (courseId d : string) :
  String.prefix ("attendance_" ++ courseId ++ "_")%string (storageKey courseId d) = true.
Proof.
  unfold storageKey.
  assert (("attendance_" ++ courseId ++ "_" ++ d)%string
          = (("attendance_" ++ courseId ++ "_") ++ d)%string) as ->
    by (by rewrite !string_app_assoc).
  apply string_prefix_app.
Qed.

Lemma storageKey_prefix_longer (courseId x d : string) :
  String.prefix ("attendance_" ++ courseId ++ "_")%string
                (storageKey (courseId ++ "_" ++ x) d) = true.
Proof.
  unfold storageKey.
  assert (("attendance_" ++ (courseId ++ "_" ++ x) ++ "_" ++ d)%string
          = (("attendance_" ++ courseId ++ "_") ++ (x ++ "_" ++ d))%string) as ->
    by (by rewrite !string_app_assoc).
  apply string_prefix_app.
Qed.

(** ** The texts the service leaves in the cache *)

Lemma no_attendance_text_service_cache (w : World) :
  no_attendance_text w → service_cache w.
Proof. intros Hw key Hkey. by rewrite (Hw key Hkey). Qed.

Lemma service_cache_insert (w : World) key (o : gmap string CacheMark) :
  service_cache w →
  ∀ key', String.prefix "attendance_" key' = true →
          <[key := ObjText o]> (localStorage w) !! key' ≠ Some BadText.
Proof.
  intros Hw key' Hpre. destruct (decide (key = key')) as [-> | Hne].
  - by rewrite lookup_insert_eq.
  - rewrite lookup_insert_ne by done. by apply Hw.
Qed.

Lemma service_cache_course_texts (courseId : string) (w : World) :
  service_cache w → course_texts_ok courseId w.
Proof.
  intros Hw key Hpre. apply Hw.
  by apply (string_prefix_weaken "attendance_" (courseId ++ "_")).
Qed.

Lemma w_theme_fresh : no_attendance_text w_theme.
Proof.
  intros key Hpre. unfold w_theme. cbn [localStorage].
  apply lookup_singleton_None. intros <-. vm_compute in Hpre. discriminate.
Qed.

Lemma run_calls_service_cache env (cs : list Call) :
  ∀ w, service_cache w → service_cache (run_calls env cs w).
Proof.
  induction cs as [|c cs IH]; intros w Hw; simpl; [done|]. apply IH.
  destruct c as [courseId studentId d st markedBy
                | courseId d attendanceData markedBy]; simpl.
  - rewrite markSingleAttendance_steps, cache_step_single_eq.
    destruct (entry_object _) as [o|]; [|done]. cbn [snd].
    unfold service_cache. rewrite remote_step_single_ls. by apply service_cache_insert.
  - unfold service_cache. rewrite bulk_mark_storage. by apply service_cache_insert.
Qed.

Lemma service_cache_entry (w : World) (courseId d : string) :
  service_cache w →
  ∃ o, entry_object (localStorage w !! storageKey courseId d) = Some o.
Proof.
  intros Hw. specialize (Hw _ (storageKey_attendance courseId d)).
  destruct (localStorage w !! storageKey courseId d) as [[o|]|]; simpl; eauto. done.
Qed.

(** ** Marks when the remote end is down *)

(** C3. On every world the marking calls reach from a storage in which no
    day has been cached yet, if every remote call from then on throws,
    [markAttendance] and [markSingleAttendance] still return [true], and
    the write-ahead step has already stored the marked data under the key
    of [(courseId, date)] when the remote attempt starts; the remote attempt
    then changes nothing but the interaction count. *)
Theorem remote_failure_is_swallowed env (cs : list Call) (w_init : World) :
  no_attendance_text w_init →
  (∀ n, (tick (run_calls env cs w_init) ≤ n)%nat → net_at env n = Throws) →
  let w := run_calls env cs w_init in
  (∀ courseId d attendanceData markedBy,
     ∃ w1,
       cache_step_bulk env courseId d attendanceData markedBy w = (Val tt, w1) ∧
       localStorage w1 !! storageKey courseId d
         = Some (ObjText (bulk_object env markedBy (tick w) ∅ attendanceData)) ∧
       markAttendance env courseId d attendanceData markedBy w
         = (Val true, set_tick (S (tick w1)) w1)) ∧
  (∀ courseId studentId d st markedBy,
     ∃ o w1,
       entry_object (localStorage w !! storageKey courseId d) = Some o ∧
       cache_step_single env courseId studentId d st markedBy w = (Val tt, w1) ∧
       localStorage w1 !! storageKey courseId d
         = Some (ObjText (<[studentId :=
                             mkCacheMark st markedBy (time_at env (tick w))]> o)) ∧
       markSingleAttendance env courseId studentId d st markedBy w
         = (Val true, set_tick (S (tick w1)) w1)).
Proof.
  intros Hinit Hdown w.
  assert (service_cache w) as Hw
    by (by apply run_calls_service_cache, no_attendance_text_service_cache).
  split.
  - intros. eexists. split; [apply cache_step_bulk_eq|]. split.
    + cbn [localStorage set_localStorage]. apply lookup_insert_eq.
    + rewrite markAttendance_steps, cache_step_bulk_eq. cbn [snd].
      rewrite remote_step_bulk_throws; [done|].
      apply Hdown. cbn [tick set_localStorage set_tick]. fold w. lia.
  - intros courseId studentId d st markedBy.
    destruct (service_cache_entry w courseId d Hw) as [o Ho].
    exists o. eexists. split; [exact Ho|].
    split; [by rewrite cache_step_single_eq, Ho|]. split.
    + cbn [localStorage set_localStorage]. apply lookup_insert_eq.
    + rewrite markSingleAttendance_steps, cache_step_single_eq, Ho.
      rewrite remote_step_single_throws; [done|].
      apply Hdown. cbn [tick set_localStorage set_tick]. fold w. lia.
Qed.

Lemma remote_failure_is_swallowed_witness :
  let w := run_calls offline [MarkOne "CS101" "S1" "2024-01-15" absent "I1"] w_theme in
  ∃ o w1,
    entry_object (localStorage w !! storageKey "CS101" "2024-01-15") = Some o ∧
    cache_step_single offline "CS101" "S1" "2024-01-15" present "I2" w = (Val tt, w1) ∧
    localStorage w1 !! storageKey "CS101" "2024-01-15"
      = Some (ObjText (<["S1" := mkCacheMark present "I2" (time_at offline (tick w))]> o)) ∧
    markSingleAttendance offline "CS101" "S1" "2024-01-15" present "I2" w
      = (Val true, set_tick (S (tick w1)) w1).
Proof.
  refine (proj2 (remote_failure_is_swallowed offline
                   [MarkOne "CS101" "S1" "2024-01-15" absent "I1"] w_theme _ _)
            "CS101" "S1" "2024-01-15" present "I2").
  - exact w_theme_fresh.
  - intros n _. reflexivity.
Defined.

(** Outside those worlds: over a text under the key of the day that is not
    JSON, which the service never writes, a single mark is reported as
    failed and nothing is cached. *)
Example single_mark_over_foreign_text :
  markSingleAttendance offline "CS101" "S1" "2024-01-15" present "I1" w_corrupt
  = (Val false, w_corrupt).
Proof. vm_compute. reflexivity. Qed.

(** ** Reading back from the cache *)

Lemma getAttendanceRecords_fallback env courseId d w :
  net_at env (tick w) ≠ NoFault →
  getAttendanceRecords env courseId d w =
  if truthy d then
    match entry_object (localStorage w !! storageKey courseId (date_text d)) with
    | Some o =>
        (Val (map CacheRecord (decode_entries courseId (date_text d) o)),
         set_tick (S (tick w)) w)
    | None => (Thrown SyntaxError, set_tick (S (tick w)) w)
    end
  else (Val [], set_tick (S (tick w)) w).
Proof.
  intros Hf.
  cbv [getAttendanceRecords try_catch bind db_select_records remote net getItem
       JSON_parse_or_empty ret throw].
  cbn [tick localStorage set_tick].
  destruct (net_at env (tick w)); [done| |];
    cbn [error data]; destruct (truthy d); try done.
  all: change (localStorage (set_tick (S (tick w)) w)) with (localStorage w).
  all: by destruct (localStorage w !! storageKey courseId (date_text d)) as [[o|]|].
Qed.

Lemma elem_of_decode_entries courseId d (o : gmap string CacheMark) a :
  a ∈ decode_entries courseId d o ↔
  ∃ s m, o !! s = Some m ∧
         a = mkAttendanceRecord (courseId ++ "_" ++ s ++ "_" ++ d)%string
               courseId s d (cm_status m) (cm_markedBy m).
Proof.
  unfold decode_entries. rewrite list_elem_of_fmap. split.
  - intros [[s m] [-> Hin]]. apply elem_of_map_to_list in Hin. eauto.
  - intros (s & m & Hsm & ->). exists (s, m). split; [done|].
    by apply elem_of_map_to_list.
Qed.

Lemma decode_entries_students courseId d (o : gmap string CacheMark) :
  map ar_studentId (decode_entries courseId d o) = (map_to_list o).*1.
Proof.
  unfold decode_entries. rewrite map_map. apply map_ext. by intros [s m].
Qed.

Lemma truthy_nonempty (d : string) : d ≠ "" → truthy (Some d) = true.
Proof.
  intros Hd. simpl. destruct (String.eqb d "") eqn:E; [|done].
  by apply String.eqb_eq in E.
Qed.

(** C4, as amended. For every course and every non-empty date, when the
    remote read fails [getAttendanceRecords] returns the decoding of the
    cache entry [attendance_{courseId}_{date}]: for an entry holding an
    object, exactly one [AttendanceRecord] per cached student id, carrying
    the cached status and marker; for a missing entry, the empty list.
    For the empty date, or no date, the fallback is the empty list. *)
Theorem read_falls_back_to_cache env courseId d w :
  d ≠ "" →
  net_at env (tick w) ≠ NoFault →
  (∀ o, localStorage w !! storageKey courseId d = Some (ObjText o) →
     fst (getAttendanceRecords env courseId (Some d) w)
       = Val (map CacheRecord (decode_entries courseId d o)) ∧
     NoDup (map ar_studentId (decode_entries courseId d o)) ∧
     ∀ a, a ∈ decode_entries courseId d o ↔
          ∃ s m, o !! s = Some m ∧
                 a = mkAttendanceRecord (courseId ++ "_" ++ s ++ "_" ++ d)%string
                       courseId s d (cm_status m) (cm_markedBy m)) ∧
  (localStorage w !! storageKey courseId d = None →
     fst (getAttendanceRecords env courseId (Some d) w) = Val []) ∧
  fst (getAttendanceRecords env courseId (Some "") w) = Val [] ∧
  fst (getAttendanceRecords env courseId None w) = Val [].
Proof.
  intros Hd Hf. rewrite !getAttendanceRecords_fallback by done.
  rewrite truthy_nonempty by done.
  change (date_text (Some d)) with d. split; [|split; [|done]].
  - intros o Ho. rewrite Ho. cbn [entry_object fst]. split; [done|]. split.
    + rewrite decode_entries_students. apply NoDup_fst_map_to_list.
    + intros a. apply elem_of_decode_entries.
  - intros Hnone. by rewrite Hnone.
Qed.

Lemma read_falls_back_to_cache_witness :
  let w := snd (markSingleAttendance offline "CS101" "S1" "2024-01-15" present "I1" w0) in
  fst (getAttendanceRecords offline "CS101" (Some "2024-01-15") w)
  = Val [CacheRecord (mkAttendanceRecord "CS101_S1_2024-01-15" "CS101" "S1"
                        "2024-01-15" present "I1")].
Proof.
  intros w.
  refine (proj1 (proj1 (read_falls_back_to_cache offline "CS101" "2024-01-15" w _ _)
                   {[ "S1" := mkCacheMark present "I1" 0 ]} _)).
  - discriminate.
  - discriminate.
  - vm_compute. reflexivity.
Defined.

(** C4 as stated fails for the empty date: a day marked under the date
    [""] is cached, and is not read back when the remote read throws. *)
Lemma read_fallback_counterexample :
  let w := snd (markSingleAttendance offline "CS101" "S1" "" present "I1" w0) in
  net_at offline (tick w) = Throws ∧
  localStorage w !! storageKey "CS101" ""
    = Some (ObjText {[ "S1" := mkCacheMark present "I1" 0 ]}) ∧
  decode_entries "CS101" "" {[ "S1" := mkCacheMark present "I1" 0 ]}
    = [mkAttendanceRecord "CS101_S1_" "CS101" "S1" "" present "I1"] ∧
  fst (getAttendanceRecords offline "CS101" (Some "") w) = Val [].
Proof. vm_compute. repeat split; reflexivity. Qed.

(** ** Statistics *)

Lemma getCourseStudents_nonempty env courseId w :
  ∃ roster,
    getCourseStudents env courseId w = (Val roster, set_tick (S (tick w)) w) ∧
    0 < length roster.
Proof.
  rewrite getCourseStudents_eq. eexists. split; [reflexivity|].
  destruct (net_at env (tick w)); simpl; try lia.
  destruct (length _ =? 0)%nat eqn:E; simpl; [lia|].
  apply Nat.eqb_neq in E. lia.
Qed.

Lemma count_status_total (l : list Status) :
  length l = count_status present l + count_status absent l + count_status late l.
Proof.
  unfold count_status. induction l as [|[] l IH]; simpl; lia.
Qed.

Lemma count_status_rows (s : Status) (rows : list Row) :
  count_status s (map status rows) = count_rows s rows.
Proof.
  unfold count_status, count_rows. induction rows as [|r rows IH]; simpl; [done|].
  destruct (bool_decide (status r = s)); simpl; by rewrite IH.
Qed.

Lemma filter_filter_andb {A} (P Q : A → bool) (l : list A) :
  List.filter Q (List.filter P l) = List.filter (fun a => P a && Q a) l.
Proof.
  induction l as [|a l IH]; simpl; [done|].
  destruct (P a); simpl; [destruct (Q a)|]; by rewrite IH.
Qed.

Lemma filter_none {A} (P : A → bool) (l : list A) :
  (∀ a, a ∈ l → P a = false) → List.filter P l = [].
Proof.
  induction l as [|a l IH]; simpl; [done|]. intros H.
  rewrite (H a) by by left. apply IH. intros a' Ha'. apply H. by right.
Qed.

(** Every result of [getAttendanceStats] is assembled from a non-empty
    roster and a list of statuses. *)
Lemma getAttendanceStats_shape env courseId startDate endDate w :
  ∃ n l w',
    getAttendanceStats env courseId startDate endDate w = (Val (build_stats n l), w') ∧
    0 < n.
Proof.
  unfold getAttendanceStats, try_catch at 1, bind at 1.
  destruct (getCourseStudents_nonempty env courseId w) as (r1 & -> & Hr1).
  unfold bind at 1.
  destruct (db_select_status env courseId _ _ _) as [[resp|e] w2].
  2: { unfold try_catch, bind.
       destruct (getCourseStudents_nonempty env courseId w2) as (r2 & -> & Hr2).
       exists (length r2), [], (set_tick (S (tick w2)) w2). by split. }
  unfold bind at 1.
  match goal with
  | |- context [match ?m w2 with _ => _ end] => destruct (m w2) as [[l|e] w3]
  end.
  - exists (length r1), l, w3. by split.
  - unfold try_catch, bind.
    destruct (getCourseStudents_nonempty env courseId w3) as (r2 & -> & Hr2).
    exists (length r2), [], (set_tick (S (tick w3)) w3). by split.
Qed.

(** The rows the status query selects. *)
Lemma status_query_rows courseId (startDate endDate : option string) (rows : list Row) :
  (let q0 := List.filter (fun r => bool_decide (course_id r = courseId)) rows in
   let q1 := match (if truthy startDate then startDate else None) with
             | Some s => List.filter (fun r => String.leb s (date r)) q0
             | None => q0
             end in
   match (if truthy endDate then endDate else None) with
   | Some e => List.filter (fun r => String.leb (date r) e) q1
   | None => q1
   end)
  = List.filter (stats_selected courseId startDate endDate) rows.
Proof.
  cbv zeta. unfold stats_selected.
  destruct startDate as [s|], endDate as [e|]; cbn [truthy date_text default];
    try destruct (negb (s =? "")); try destruct (negb (e =? "")).
  all: rewrite ?filter_filter_andb; apply List.filter_ext; intros r.
  all: cbv [id]; cbn [andb]; by rewrite ?andb_true_r.
Qed.

(** The status query answers: the statuses of the selected rows are
    counted. *)
Lemma getAttendanceStats_remote env courseId startDate endDate w :
  net_at env (S (tick w)) = NoFault →
  ∃ roster,
    fst (getCourseStudents env courseId w) = Val roster ∧
    fst (getAttendanceStats env courseId startDate endDate w)
    = Val (build_stats (length roster)
             (map status (List.filter (stats_selected courseId startDate endDate)
                                      (db w)))).
Proof.
  intros Hf.
  destruct (getCourseStudents_nonempty env courseId w) as (roster & Hr & Hpos).
  exists roster. rewrite Hr. split; [done|].
  unfold getAttendanceStats, try_catch at 1, bind at 1. rewrite Hr.
  unfold bind at 1, db_select_status, remote. unfold bind at 1, net.
  cbn [tick set_tick]. rewrite Hf. cbn [db set_tick].
  pose proof (status_query_rows courseId startDate endDate (db w)) as Hq.
  cbv zeta in Hq. rewrite Hq. reflexivity.
Qed.

Lemma stats_fold_ok (w : World) (keys : list string) :
  (∀ key, key ∈ keys → localStorage w !! key ≠ Some BadText) →
  ∀ acc,
    foldM (fun acc key =>
             item <~ getItem key ;;
             dateData <~ JSON_parse_or_empty item ;;
             ret (acc ++ map (fun e => cm_status (snd e)) (map_to_list dateData)))
          acc keys w
    = (Val (acc ++ concat (map (statuses_at w) keys)), w).
Proof.
  induction keys as [|key keys IH]; intros Hw acc; simpl.
  - by rewrite app_nil_r.
  - unfold bind at 1, bind at 1, getItem at 1. cbn [fst snd].
    unfold statuses_at at 1.
    pose proof (Hw key (list_elem_of_here _ _)) as Hkey.
    assert (∀ key', key' ∈ keys → localStorage w !! key' ≠ Some BadText) as Hw'
      by (intros key' Hin; apply Hw; by right).
    destruct (localStorage w !! key) as [[o|]|]; [| done |].
    + unfold JSON_parse_or_empty, bind at 1, ret at 1. unfold ret at 1.
      rewrite IH by done. by rewrite app_assoc.
    + unfold JSON_parse_or_empty, bind at 1, ret at 1. unfold ret at 1.
      rewrite IH by done. rewrite map_to_list_empty. by rewrite app_assoc.
Qed.

Lemma stats_fold_bad (w : World) (keys : list string) (bad : string) :
  bad ∈ keys →
  localStorage w !! bad = Some BadText →
  ∀ acc,
    ∃ e, foldM (fun acc key =>
                  item <~ getItem key ;;
                  dateData <~ JSON_parse_or_empty item ;;
                  ret (acc ++ map (fun e => cm_status (snd e)) (map_to_list dateData)))
               acc keys w
         = (Thrown e, w).
Proof.
  intros Hin Hbad. induction keys as [|key keys IH]; intros acc; simpl.
  - by apply elem_of_nil in Hin.
  - unfold bind at 1, bind at 1, getItem at 1. cbn [fst snd].
    destruct (localStorage w !! key) as [[o|]|] eqn:E.
    + unfold JSON_parse_or_empty, bind at 1, ret at 1. unfold ret at 1.
      apply elem_of_cons in Hin as [-> | Hin]; [congruence | by apply IH].
    + unfold JSON_parse_or_empty, bind at 1, throw. eauto.
    + unfold JSON_parse_or_empty, bind at 1, ret at 1. unfold ret at 1.
      apply elem_of_cons in Hin as [-> | Hin]; [congruence | by apply IH].
Qed.

Lemma cache_ok_course_texts (courseId : string) (w : World) :
  cache_ok w → course_texts_ok courseId w.
Proof. intros Hw key _. apply Hw. Qed.

(** The status query answers with an error and the cached days of the
    course parse: the cached statuses are counted. *)
Lemma getAttendanceStats_error env courseId startDate endDate w :
  net_at env (S (tick w)) = ReturnsError →
  course_texts_ok courseId w →
  ∃ roster,
    fst (getCourseStudents env courseId w) = Val roster ∧
    fst (getAttendanceStats env courseId startDate endDate w)
    = Val (build_stats (length roster) (cached_statuses courseId w)).
Proof.
  intros Hf Hw.
  destruct (getCourseStudents_nonempty env courseId w) as (roster & Hr & Hpos).
  exists roster. rewrite Hr. split; [done|].
  unfold getAttendanceStats, try_catch at 1, bind at 1. rewrite Hr.
  unfold bind at 1, db_select_status, remote. unfold bind at 1, net.
  cbn [tick set_tick]. rewrite Hf. unfold ret at 1. cbn [error data].
  unfold bind at 1. unfold bind at 1, storage_keys.
  rewrite stats_fold_ok; [reflexivity|].
  intros key Hin. apply list_elem_of_In, List.filter_In in Hin as [_ Hpre].
  by apply Hw.
Qed.

Lemma default_stats env courseId w :
  ∃ n, 0 < n ∧
       fst (try_catch
              (enrolledStudents <~ getCourseStudents env courseId ;;
               ret (mkStats (length enrolledStudents) 0 0 0 0 0%float 0%float))
              (fun _ => ret (mkStats 0 0 0 0 0 0%float 0%float)) w)
       = Val (mkStats n 0 0 0 0 0%float 0%float).
Proof.
  destruct (getCourseStudents_nonempty env courseId w) as (roster & Hr & Hpos).
  exists (length roster). split; [done|].
  unfold try_catch, bind. by rewrite Hr.
Qed.

(** The status query throws, or a cached day of the course does not parse
    in the fallback: the default object is returned. *)
Lemma getAttendanceStats_failed env courseId startDate endDate w :
  net_at env (S (tick w)) = Throws ∨
  (net_at env (S (tick w)) = ReturnsError ∧
   ∃ bad, String.prefix ("attendance_" ++ courseId ++ "_")%string bad = true ∧
          localStorage w !! bad = Some BadText) →
  ∃ n, 0 < n ∧
       fst (getAttendanceStats env courseId startDate endDate w)
       = Val (mkStats n 0 0 0 0 0%float 0%float).
Proof.
  intros Hcase.
  destruct (getCourseStudents_nonempty env courseId w) as (roster & Hr & Hpos).
  unfold getAttendanceStats, try_catch at 1, bind at 1. rewrite Hr.
  unfold bind at 1, db_select_status, remote. unfold bind at 1, net.
  cbn [tick set_tick].
  destruct Hcase as [Hf | (Hf & bad & Hpre & Hbad)]; rewrite Hf.
  - unfold throw at 1. apply default_stats.
  - unfold ret at 1. cbn [error data]. unfold bind at 1. unfold bind at 1, storage_keys.
    cbn [localStorage set_tick].
    match goal with
    | |- context [foldM ?f ?acc ?keys ?w1] =>
        assert (bad ∈ keys) as Hin;
        [| destruct (stats_fold_bad w1 keys bad Hin Hbad acc) as [e ->] ]
    end.
    + apply list_elem_of_In, List.filter_In. split; [|done].
      apply list_elem_of_In. apply (list_elem_of_fmap_2 fst _ (bad, BadText)).
      by apply elem_of_map_to_list.
    + apply default_stats.
Qed.

(** C7, as amended. [getAttendanceStats] always returns.  In its result
    [totalRecords] is the number of attendance records it fetched and
    [present], [absent], [late] are the numbers of those with that status:
    the rows of the course in the date range when the status query
    answers; the marks cached under the keys of the course when the query
    answers with an error and those cached days parse; none when the query
    throws or a cached day does not parse.  The counts add up to
    [totalRecords]; [attendanceRate] is [0] when [totalRecords] is [0] and
    the binary64 number [(present + late) / totalRecords * 100] otherwise,
    with no rounding to one decimal; [totalStudents] is positive.  For a
    course with no enrollment and no attendance row, and a remote end that
    answers, the result is five students (the fallback roster) with all
    record counts and both percentages [0]. *)
Theorem attendance_rate_formula env courseId startDate endDate w :
  let rows := List.filter (stats_selected courseId startDate endDate) (db w) in
  let cached := cached_statuses courseId w in
  ∃ s,
    fst (getAttendanceStats env courseId startDate endDate w) = Val s ∧
    (net_at env (S (tick w)) = NoFault →
       totalRecords s = length rows ∧
       stats_present s = count_rows present rows ∧
       stats_absent s = count_rows absent rows ∧
       stats_late s = count_rows late rows) ∧
    (net_at env (S (tick w)) = ReturnsError → course_texts_ok courseId w →
       totalRecords s = length cached ∧
       stats_present s = count_status present cached ∧
       stats_absent s = count_status absent cached ∧
       stats_late s = count_status late cached) ∧
    (net_at env (S (tick w)) = Throws ∨
     (net_at env (S (tick w)) = ReturnsError ∧
      ∃ bad, String.prefix ("attendance_" ++ courseId ++ "_")%string bad = true ∧
             localStorage w !! bad = Some BadText) →
       totalRecords s = 0 ∧ stats_present s = 0 ∧ stats_absent s = 0 ∧
       stats_late s = 0) ∧
    totalRecords s = stats_present s + stats_absent s + stats_late s ∧
    attendanceRate s
    = (if (0 <? totalRecords s)%nat
       then percent (stats_present s + stats_late s) (totalRecords s)
       else 0%float) ∧
    presentPercentage s
    = (if (0 <? totalRecords s)%nat
       then percent (stats_present s) (totalRecords s)
       else 0%float) ∧
    0 < totalStudents s ∧
    (net_at env (tick w) = NoFault →
     net_at env (S (tick w)) = NoFault →
     List.filter (fun e => bool_decide (enr_course_id e = courseId)) (enrollments w)
     = [] →
     List.filter (fun r => bool_decide (course_id r = courseId)) (db w) = [] →
     s = mkStats 5 0 0 0 0 0%float 0%float).
Proof.
  intros rows cached.
  destruct (getAttendanceStats_shape env courseId startDate endDate w)
    as (n & l & w' & Hs & Hn).
  exists (build_stats n l). rewrite Hs. split; [done|].
  apply (f_equal fst) in Hs. cbn [fst] in Hs.
  split; [|split; [|split; [|split; [|split; [|split; [|split]]]]]].
  - intros Hf.
    destruct (getAttendanceStats_remote env courseId startDate endDate w Hf)
      as (roster & _ & Hr).
    rewrite (Val_inj _ _ (eq_trans (eq_sym Hs) Hr)). fold rows.
    cbn [build_stats totalRecords stats_present stats_absent stats_late].
    by rewrite length_map, !count_status_rows.
  - intros Hf Hw.
    destruct (getAttendanceStats_error env courseId startDate endDate w Hf Hw)
      as (roster & _ & Hr).
    by rewrite (Val_inj _ _ (eq_trans (eq_sym Hs) Hr)).
  - intros Hcase.
    destruct (getAttendanceStats_failed env courseId startDate endDate w Hcase)
      as (n' & _ & Hr).
    by rewrite (Val_inj _ _ (eq_trans (eq_sym Hs) Hr)).
  - apply count_status_total.
  - done.
  - done.
  - done.
  - intros H1 H2 He Hd.
    destruct (getAttendanceStats_remote env courseId startDate endDate w H2)
      as (roster & Hroster & Hr).
    rewrite (Val_inj _ _ (eq_trans (eq_sym Hs) Hr)). fold rows.
    rewrite getCourseStudents_eq, H1, He in Hroster. injection Hroster as <-.
    assert (rows = []) as ->; [|reflexivity].
    apply (filter_none _ _). intros r Hr'. unfold stats_selected.
    destruct (bool_decide (course_id r = courseId)) eqn:E; [|done].
    exfalso. apply bool_decide_eq_true in E.
    assert (r ∈ List.filter (fun r => bool_decide (course_id r = courseId)) (db w))
      as Hin; [|rewrite Hd in Hin; by apply elem_of_nil in Hin].
    apply list_elem_of_In, List.filter_In. split; [by apply list_elem_of_In|].
    by apply bool_decide_eq_true.
Qed.

Lemma attendance_rate_formula_witness :
  ∃ s,
    fst (getAttendanceStats calm "CS101" None None w_three) = Val s ∧
    totalRecords s = 3 ∧ stats_present s = 2 ∧ stats_absent s = 1 ∧
    stats_late s = 0 ∧
    attendanceRate s = percent 2 3.
Proof.
  destruct (attendance_rate_formula calm "CS101" None None w_three)
    as (s & Hs & Hrows & _ & _ & _ & Hrate & _).
  destruct (Hrows eq_refl) as (Ht & Hp & Ha & Hl).
  exists s. rewrite Hrate, Ht, Hp, Ha, Hl. by vm_compute.
Defined.

(** C7 as stated fails: two present out of three give the number
    [(2 / 3) * 100], which lies strictly between [66.6] and [66.7] and so
    has more than one decimal; it is the view that prints [66.7]. *)
Lemma attendance_rate_counterexample :
  ∃ s, fst (getAttendanceStats calm "CS101" None None w_three) = Val s ∧
       totalRecords s = 3 ∧ stats_present s = 2 ∧ stats_late s = 0 ∧
       PrimFloat.ltb (666 / 10) (attendanceRate s) = true ∧
       PrimFloat.ltb (attendanceRate s) (667 / 10) = true ∧
       CourseCard.toFixed1 (attendanceRate s) = "66.7".
Proof. eexists. split; [vm_compute; reflexivity|]. by vm_compute. Qed.

(** ** The unmarked count of the course-detail view *)

(** C8, as amended. The view's [getAttendanceStats] computes [unmarked] as
    [totalStudents - markedStudents], without clamping; this is
    [max(0, totalStudents - markedStudents)] when there are at most as many
    records as students, and negative where the clamp would give [0]. *)
Theorem unmarked_is_plain_difference (students : list Student)
    (attendanceRecords : list Fetched) :
  CourseCard.unmarked (CourseCard.getAttendanceStats students attendanceRecords)
  = (Z.of_nat (length students) - Z.of_nat (length attendanceRecords))%Z ∧
  Z.max 0 (Z.of_nat (length students) - Z.of_nat (length attendanceRecords))
  = (if (length attendanceRecords <=? length students)%nat
     then CourseCard.unmarked (CourseCard.getAttendanceStats students attendanceRecords)
     else 0%Z) ∧
  (CourseCard.unmarked (CourseCard.getAttendanceStats students attendanceRecords) <? 0)%Z
  = (length students <? length attendanceRecords)%nat.
Proof.
  split; [reflexivity|]. cbn [CourseCard.unmarked CourseCard.getAttendanceStats].
  split.
  - destruct (length attendanceRecords <=? length students)%nat eqn:E.
    + apply Nat.leb_le in E. lia.
    + apply Nat.leb_gt in E. lia.
  - destruct (length students <? length attendanceRecords)%nat eqn:E.
    + apply Nat.ltb_lt in E. apply Z.ltb_lt. lia.
    + apply Nat.ltb_ge in E. apply Z.ltb_ge. lia.
Qed.

(** C8 as stated fails: one record and an empty roster give [-1], not
    [max(0, -1)]. *)
Lemma unmarked_counterexample :
  let records := [DbRow (mkRow 0 "CS101" "S1" "2024-01-15" present "I1" 0)] in
  CourseCard.unmarked (CourseCard.getAttendanceStats [] records) = (-1)%Z ∧
  CourseCard.unmarked (CourseCard.getAttendanceStats [] records)
  ≠ Z.max 0 (Z.of_nat (length (@nil Student)) - Z.of_nat (length records)).
Proof. split; [reflexivity | discriminate]. Qed.

(** ** What the marking methods do to the table *)

(** Every write of [markSingleAttendance] names [updated_at] and is
    refused: the table is what it was. *)
Lemma markSingleAttendance_db env courseId studentId d st markedBy w :
  db (snd (markSingleAttendance env courseId studentId d st markedBy w)) = db w ∧
  next_id (snd (markSingleAttendance env courseId studentId d st markedBy w))
  = next_id w.
Proof.
  rewrite markSingleAttendance_steps, cache_step_single_eq.
  destruct (entry_object _) as [o|]; [|done]. cbn [snd].
  by rewrite remote_step_single_eq.
Qed.

(** [markAttendance] deletes the rows of the day when its delete is
    answered; its insert stores nothing. *)
Lemma markAttendance_db env courseId d attendanceData markedBy w :
  db (snd (markAttendance env courseId d attendanceData markedBy w))
  = match net_at env (tick w + length attendanceData) with
    | NoFault => List.filter (fun r => negb (in_partition courseId d r)) (db w)
    | _ => db w
    end ∧
  next_id (snd (markAttendance env courseId d attendanceData markedBy w))
  = next_id w.
Proof.
  rewrite markAttendance_steps, cache_step_bulk_eq. cbn [snd].
  rewrite remote_step_bulk_eq. cbn [tick set_localStorage set_tick].
  by destruct (net_at env (tick w + length attendanceData)).
Qed.

(** ** Lists of rows *)

Lemma elem_of_map_filter {A B} (f : A → B) (P : A → bool) (l : list A) (b : B) :
  b ∈ map f (List.filter P l) → b ∈ map f l.
Proof.
  induction l as [|a l IH]; simpl; [done|].
  destruct (P a); simpl; rewrite ?elem_of_cons; [|by right; apply IH].
  intros [-> | Hb]; [by left | by right; apply IH].
Qed.

Lemma NoDup_map_filter {A B} (f : A → B) (P : A → bool) (l : list A) :
  NoDup (map f l) → NoDup (map f (List.filter P l)).
Proof.
  induction l as [|a l IH]; simpl; [done|].
  intros [Ha Hl]%NoDup_cons. destruct (P a); simpl; [|by apply IH].
  apply NoDup_cons. split; [|by apply IH].
  intros Hin. by apply Ha, (elem_of_map_filter f P).
Qed.

Lemma filter_key_nil {A B} `{EqDecision B} (f : A → B) (x : B) (l : list A) :
  x ∉ map f l → List.filter (fun a => bool_decide (f a = x)) l = [].
Proof.
  induction l as [|a l IH]; simpl; [done|].
  intros [Hne Hl]%not_elem_of_cons.
  rewrite bool_decide_eq_false_2 by done. by apply IH.
Qed.

Lemma filter_key_length {A B} `{EqDecision B} (f : A → B) (x : B) (l : list A) :
  NoDup (map f l) → (length (List.filter (fun a => bool_decide (f a = x)) l) ≤ 1)%nat.
Proof.
  induction l as [|a l IH]; simpl; [lia|].
  intros [Ha Hl]%NoDup_cons. case_bool_decide as Hx; [|by apply IH].
  subst x. rewrite filter_key_nil by done. simpl. lia.
Qed.

Lemma Forall_filter_list {A} (P : A → Prop) (Q : A → bool) (l : list A) :
  Forall P l → Forall P (List.filter Q l).
Proof.
  induction 1 as [|a l Ha Hl IH]; simpl; [constructor|].
  destruct (Q a); [by constructor | done].
Qed.

Lemma filter_in_out (P : Row → bool) (l : list Row) :
  List.filter P (List.filter (fun r => negb (P r)) l) = [].
Proof.
  induction l as [|r l IH]; simpl; [done|].
  destruct (P r) eqn:E; simpl; [done|]. by rewrite E.
Qed.

Lemma filter_out_out (P : Row → bool) (l : list Row) :
  List.filter (fun r => negb (P r)) (List.filter (fun r => negb (P r)) l)
  = List.filter (fun r => negb (P r)) l.
Proof.
  induction l as [|r l IH]; simpl; [done|].
  destruct (P r) eqn:E; simpl; [done|]. by rewrite E, IH.
Qed.

Lemma out_partition_key courseId d (l : list Row) (s : string) :
  (courseId, s, d) ∉ map row_key
    (List.filter (fun r => negb (in_partition courseId d r)) l).
Proof.
  induction l as [|r l IH]; simpl; [apply not_elem_of_nil|].
  destruct (in_partition courseId d r) eqn:E; simpl; [done|].
  apply not_elem_of_cons. split; [|done].
  intros Hk. unfold row_key in Hk. simplify_eq.
  unfold in_partition in E. by rewrite !bool_decide_eq_true_2 in E.
Qed.

(** ** The unique constraint is an invariant *)

Lemma run_call_unique env (c : Call) w :
  db_unique w → db_unique (snd (run_call env c w)).
Proof.
  unfold db_unique. intros Hw.
  destruct c as [courseId studentId d st markedBy
                | courseId d attendanceData markedBy]; simpl.
  - by rewrite (proj1 (markSingleAttendance_db env courseId studentId d st markedBy w)).
  - rewrite (proj1 (markAttendance_db env courseId d attendanceData markedBy w)).
    destruct (net_at env _); [by apply NoDup_map_filter | done | done].
Qed.

Lemma run_calls_unique env (cs : list Call) :
  ∀ w, db_unique w → db_unique (run_calls env cs w).
Proof.
  induction cs as [|c cs IH]; intros w Hw; simpl; [done|].
  by apply IH, run_call_unique.
Qed.

Lemma cached_for_length (k : Key) (w : World) : (length (cached_for k w) ≤ 1)%nat.
Proof.
  destruct k as [[courseId studentId] d]. unfold cached_for.
  destruct (localStorage w !! storageKey courseId d) as [[o|]|]; simpl; try lia.
  apply filter_key_length. rewrite decode_entries_students.
  apply NoDup_fst_map_to_list.
Qed.

(** C1. Starting from a table that satisfies its unique constraint, after
    any sequence of [markSingleAttendance] and [markAttendance] calls, under
    any behaviour of clock and network and for any payloads (duplicate
    student ids included), the table still satisfies the constraint, and
    every triple [(courseId, studentId, date)] has at most one stored row
    and at most one cached record. *)
Theorem uniqueness_invariant env (cs : list Call) (w : World) (k : Key) :
  db_unique w →
  db_unique (run_calls env cs w) ∧
  (length (records_for k (run_calls env cs w)) ≤ 1)%nat ∧
  (length (cached_for k (run_calls env cs w)) ≤ 1)%nat.
Proof.
  intros Hw. pose proof (run_calls_unique env cs w Hw) as Hu.
  split; [done|]. split; [|apply cached_for_length].
  unfold records_for, matches_key. by apply filter_key_length.
Qed.

Lemma w_abc_unique : db_unique w_abc.
Proof. apply (bool_decide_unpack _). vm_compute. reflexivity. Qed.

Lemma uniqueness_invariant_witness :
  let cs := [ MarkOne "CS101" "A" "2024-01-15" late "I1";
              MarkBulk "CS101" "2024-01-16"
                [mkMark "S1" late; mkMark "S2" present; mkMark "S1" absent] "I1";
              MarkOne "CS101" "S1" "2024-01-16" late "I2" ] in
  db_unique (run_calls calm cs w_abc) ∧
  (length (records_for ("CS101", "A", "2024-01-15") (run_calls calm cs w_abc)) ≤ 1)%nat ∧
  (length (cached_for ("CS101", "A", "2024-01-15") (run_calls calm cs w_abc)) ≤ 1)%nat.
Proof.
  intros cs.
  apply (uniqueness_invariant calm cs w_abc ("CS101", "A", "2024-01-15")).
  exact w_abc_unique.
Defined.

(** ** Bulk marks replace the cached day *)

Lemma bulk_object_dom env markedBy (l : list Mark) :
  ∀ t (acc : gmap string CacheMark) (s : string),
    is_Some (bulk_object env markedBy t acc l !! s)
    ↔ s ∈ map m_studentId l ∨ is_Some (acc !! s).
Proof.
  induction l as [|m l IH]; intros t acc s; simpl.
  - split; [by right | intros [Hs | Hs]; [by apply elem_of_nil in Hs | done]].
  - rewrite IH, elem_of_cons, lookup_insert_is_Some.
    destruct (decide (m_studentId m = s)) as [Heq | Hne].
    + split; intros _; [left; by left | right; by left].
    + split.
      * intros [Hs | [Heq | [_ Hs]]]; [left; by right | done | by right].
      * intros [[Heq | Hs] | Hs]; [by subst | by left | right; by right].
Qed.

Lemma bulk_object_size env markedBy (l : list Mark) :
  ∀ t (acc : gmap string CacheMark),
    NoDup (map m_studentId l) →
    (∀ m, m ∈ l → acc !! m_studentId m = None) →
    size (bulk_object env markedBy t acc l) = size acc + length l.
Proof.
  induction l as [|m l IH]; intros t acc Hnd Hacc; simpl; [lia|].
  apply NoDup_cons in Hnd as [Hfresh Hnd].
  rewrite IH; [|done|].
  - rewrite map_size_insert_None by (apply Hacc; by left). lia.
  - intros m' Hm'. rewrite lookup_insert_ne; [apply Hacc; by right|].
    intros Heq. apply Hfresh. rewrite Heq. by apply list_elem_of_fmap_2.
Qed.

(** C2, as amended. [markAttendance] always returns [true] and replaces
    the whole cache entry of the day: afterwards the entry holds exactly
    the students of the payload, one mark each, with the payload's status
    and marker when the payload names each student once.  In the table,
    the rows of the day for students outside the payload are gone when the
    delete is answered, and are what they were when it is not; rows of
    other days are never touched. *)
Theorem bulk_mark_overwrites env courseId d attendanceData markedBy w :
  let w' := snd (markAttendance env courseId d attendanceData markedBy w) in
  fst (markAttendance env courseId d attendanceData markedBy w) = Val true ∧
  (∃ o,
     localStorage w' !! storageKey courseId d = Some (ObjText o) ∧
     (∀ s, is_Some (o !! s) ↔ s ∈ map m_studentId attendanceData) ∧
     (NoDup (map m_studentId attendanceData) →
        size o = length attendanceData ∧
        ∀ m, m ∈ attendanceData →
             ∃ ts, o !! m_studentId m = Some (mkCacheMark (m_status m) markedBy ts))) ∧
  (∀ s, s ∉ map m_studentId attendanceData →
     records_for (courseId, s, d) w'
     = match net_at env (tick w + length attendanceData) with
       | NoFault => []
       | _ => records_for (courseId, s, d) w
       end) ∧
  List.filter (fun r => negb (in_partition courseId d r)) (db w')
  = List.filter (fun r => negb (in_partition courseId d r)) (db w).
Proof.
  intros w'. unfold w'.
  destruct (markAttendance_db env courseId d attendanceData markedBy w) as [Hdb _].
  split; [by rewrite markAttendance_steps|]. split; [|split].
  - rewrite bulk_mark_storage. eexists. split; [apply lookup_insert_eq|]. split.
    + intros s. rewrite bulk_object_dom, lookup_empty. split; [|by left].
      intros [Hs | Hs]; [done | by destruct Hs].
    + intros Hnd. split.
      * rewrite bulk_object_size; [by rewrite map_size_empty | done |].
        intros m _. apply lookup_empty.
      * intros m Hm. by apply bulk_object_in.
  - intros s Hs. unfold records_for. rewrite Hdb.
    destruct (net_at env _); [|done|done].
    unfold matches_key. apply filter_key_nil, out_partition_key.
  - rewrite Hdb. destruct (net_at env _); [|done|done].
    apply (filter_out_out (in_partition courseId d)).
Qed.

Lemma bulk_mark_overwrites_witness :
  let w' := snd (markAttendance calm "CS101" "2024-01-15"
                   [mkMark "A" absent; mkMark "B" present] "I1" w_abc) in
  (∃ o,
     localStorage w' !! storageKey "CS101" "2024-01-15" = Some (ObjText o) ∧
     size o = 2 ∧ o !! "C" = None) ∧
  records_for ("CS101", "C", "2024-01-15") w_abc ≠ [] ∧
  records_for ("CS101", "C", "2024-01-15") w' = [].
Proof.
  intros w'.
  destruct (bulk_mark_overwrites calm "CS101" "2024-01-15"
              [mkMark "A" absent; mkMark "B" present] "I1" w_abc)
    as (_ & (o & Ho & Hdom & Hnd) & Hgone & _).
  split; [|split].
  - exists o. split; [exact Ho|]. split.
    + apply Hnd. apply (bool_decide_unpack _). vm_compute. reflexivity.
    + apply eq_None_not_Some. rewrite Hdom.
      apply (bool_decide_unpack _). vm_compute. reflexivity.
  - vm_compute. discriminate.
  - apply (Hgone "C"). apply (bool_decide_unpack _). vm_compute. reflexivity.
Defined.

(** C2 as stated fails: when the remote end cannot be reached, the call
    returns [true] and the table still holds the three rows of the day,
    C's among them. *)
Lemma bulk_overwrite_counterexample :
  let w' := snd (markAttendance offline "CS101" "2024-01-15"
                   [mkMark "A" absent; mkMark "B" present] "I1" w_abc) in
  fst (markAttendance offline "CS101" "2024-01-15"
         [mkMark "A" absent; mkMark "B" present] "I1" w_abc) = Val true ∧
  length (List.filter (in_partition "CS101" "2024-01-15") (db w_abc)) = 3 ∧
  length (List.filter (in_partition "CS101" "2024-01-15") (db w')) = 3 ∧
  records_for ("CS101", "C", "2024-01-15") w' ≠ [].
Proof. vm_compute. repeat split; discriminate. Qed.

(** ** Marking the same student twice *)

Lemma singleton_of_short {A} (a : A) (l : list A) :
  a ∈ l → (length l ≤ 1)%nat → l = [a].
Proof.
  destruct l as [|x [|y l]]; simpl.
  - by intros ?%elem_of_nil.
  - by intros ->%list_elem_of_singleton.
  - lia.
Qed.

(** The cached record of a student is the decoded mark of the entry. *)
Lemma cached_for_lookup (w : World) courseId studentId d (o : gmap string CacheMark) m :
  localStorage w !! storageKey courseId d = Some (ObjText o) →
  o !! studentId = Some m →
  cached_for (courseId, studentId, d) w
  = [mkAttendanceRecord (courseId ++ "_" ++ studentId ++ "_" ++ d)%string
       courseId studentId d (cm_status m) (cm_markedBy m)].
Proof.
  intros Ho Hm. apply singleton_of_short; [|apply cached_for_length].
  unfold cached_for. rewrite Ho.
  apply list_elem_of_In, List.filter_In. split.
  - apply list_elem_of_In, elem_of_decode_entries. eauto.
  - by apply bool_decide_eq_true.
Qed.

(** C6, as amended. For a cache entry that is missing or parses as an
    object (as every entry the service wrote does), marking the same
    student twice in a row returns [true] both times and leaves what one
    call leaves, up to the [timestamp] of the cached mark: the table after
    the second call is the table after the first; the cache after each call
    is the cache before the first with the student's mark of the day set to
    the status, the marker and the instant read by that call; so the two
    states are equal exactly when the two calls read the same instant.  The
    cache holds a single record for the triple after either call. *)
Theorem mark_twice_same_record env courseId studentId d st markedBy w o :
  entry_object (localStorage w !! storageKey courseId d) = Some o →
  let w1 := snd (markSingleAttendance env courseId studentId d st markedBy w) in
  let w2 := snd (markSingleAttendance env courseId studentId d st markedBy w1) in
  let entry t := ObjText (<[studentId := mkCacheMark st markedBy t]> o) in
  let record := mkAttendanceRecord (courseId ++ "_" ++ studentId ++ "_" ++ d)%string
                  courseId studentId d st markedBy in
  fst (markSingleAttendance env courseId studentId d st markedBy w) = Val true ∧
  fst (markSingleAttendance env courseId studentId d st markedBy w1) = Val true ∧
  db w2 = db w1 ∧
  localStorage w1
  = <[storageKey courseId d := entry (time_at env (tick w))]> (localStorage w) ∧
  localStorage w2
  = <[storageKey courseId d := entry (time_at env (tick w1))]> (localStorage w) ∧
  (localStorage w2 = localStorage w1
   ↔ time_at env (tick w1) = time_at env (tick w)) ∧
  cached_for (courseId, studentId, d) w1 = [record] ∧
  cached_for (courseId, studentId, d) w2 = [record].
Proof.
  intros Ho w1 w2 entry record.
  destruct (single_mark_storage env courseId studentId d st markedBy w o Ho)
    as [Hok1 Hls1].
  fold w1 in Hls1.
  assert (entry_object (localStorage w1 !! storageKey courseId d)
          = Some (<[studentId := mkCacheMark st markedBy (time_at env (tick w))]> o))
    as Ho1 by by rewrite Hls1, lookup_insert_eq.
  destruct (single_mark_storage env courseId studentId d st markedBy w1 _ Ho1)
    as [Hok2 Hls2].
  fold w2 in Hls2.
  assert (localStorage w2
          = <[storageKey courseId d := entry (time_at env (tick w1))]> (localStorage w))
    as Hls2'.
  { rewrite Hls2, Hls1. unfold entry. by rewrite !insert_insert_eq. }
  split; [done|]. split; [done|]. split; [|split; [done|split; [done|split; [|split]]]].
  - apply (markSingleAttendance_db env courseId studentId d st markedBy w1).
  - rewrite Hls2', Hls1. split.
    + intros Heq.
      apply (f_equal (fun m => m !! storageKey courseId d)) in Heq.
      rewrite !lookup_insert_eq in Heq. injection Heq as Heq.
      apply (f_equal (fun m => m !! studentId)) in Heq.
      rewrite !lookup_insert_eq in Heq. by injection Heq.
    + by intros ->.
  - apply (cached_for_lookup w1 courseId studentId d
             (<[studentId := mkCacheMark st markedBy (time_at env (tick w))]> o)
             (mkCacheMark st markedBy (time_at env (tick w)))).
    + rewrite Hls1. apply lookup_insert_eq.
    + apply lookup_insert_eq.
  - apply (cached_for_lookup w2 courseId studentId d
             (<[studentId := mkCacheMark st markedBy (time_at env (tick w1))]> o)
             (mkCacheMark st markedBy (time_at env (tick w1)))).
    + rewrite Hls2'. apply lookup_insert_eq.
    + apply lookup_insert_eq.
Qed.

Lemma mark_twice_same_record_witness :
  let w1 := snd (markSingleAttendance calm "CS101" "A" "2024-01-15" late "I2" w_abc) in
  let w2 := snd (markSingleAttendance calm "CS101" "A" "2024-01-15" late "I2" w1) in
  db w2 = db w1 ∧
  cached_for ("CS101", "A", "2024-01-15") w2
  = cached_for ("CS101", "A", "2024-01-15") w1.
Proof.
  intros w1 w2.
  destruct (mark_twice_same_record calm "CS101" "A" "2024-01-15" late "I2" w_abc
              {[ "A" := mkCacheMark present "I1" 1; "B" := mkCacheMark late "I1" 2;
                 "C" := mkCacheMark absent "I1" 3 ]})
    as (_ & _ & Hdb & _ & _ & _ & Hc1 & Hc2).
  - vm_compute. reflexivity.
  - split; [exact Hdb|]. unfold w2, w1. by rewrite Hc1, Hc2.
Defined.

(** C6 as stated fails: each call stamps the cached mark with the instant
    it reads, so with a clock that advances the cache after two calls is
    not the cache after one. *)
Lemma mark_twice_counterexample :
  let w1 := snd (markSingleAttendance calm "CS101" "S1" "2024-01-15" present "I1" w0) in
  let w2 := snd (markSingleAttendance calm "CS101" "S1" "2024-01-15" present "I1" w1) in
  localStorage w1 !! storageKey "CS101" "2024-01-15"
    = Some (ObjText {[ "S1" := mkCacheMark present "I1" 0 ]}) ∧
  localStorage w2 !! storageKey "CS101" "2024-01-15"
    = Some (ObjText {[ "S1" := mkCacheMark present "I1" 5 ]}) ∧
  localStorage w2 ≠ localStorage w1.
Proof.
  intros w1 w2.
  assert (localStorage w1 !! storageKey "CS101" "2024-01-15"
          = Some (ObjText {[ "S1" := mkCacheMark present "I1" 0 ]})) as Hl1
    by (vm_compute; reflexivity).
  assert (localStorage w2 !! storageKey "CS101" "2024-01-15"
          = Some (ObjText {[ "S1" := mkCacheMark present "I1" 5 ]})) as Hl2
    by (vm_compute; reflexivity).
  repeat split; try assumption.
  intros Heq. rewrite Heq, Hl1 in Hl2. by simplify_eq.
Qed.

(** ** Invariants of the worlds the service reaches *)

Lemma run_calls_ids env (cs : list Call) :
  ∀ w, ids_ok w → ids_ok (run_calls env cs w).
Proof.
  induction cs as [|c cs IH]; intros w Hw; simpl; [done|]. apply IH.
  unfold ids_ok in *. destruct Hw as [Hnd Hlt].
  destruct c as [courseId studentId d st markedBy
                | courseId d attendanceData markedBy]; simpl.
  - destruct (markSingleAttendance_db env courseId studentId d st markedBy w)
      as [-> ->]. by split.
  - destruct (markAttendance_db env courseId d attendanceData markedBy w)
      as [-> ->].
    destruct (net_at env _); [|by split|by split].
    split; [by apply NoDup_map_filter | by apply Forall_filter_list].
Qed.

Lemma cache_ok_insert (w : World) key (o : gmap string CacheMark) :
  cache_ok w →
  ∀ key', <[key := ObjText o]> (localStorage w) !! key' ≠ Some BadText.
Proof.
  intros Hw key'. destruct (decide (key = key')) as [-> | Hne].
  - by rewrite lookup_insert_eq.
  - rewrite lookup_insert_ne by done. apply Hw.
Qed.

Lemma run_calls_cache env (cs : list Call) :
  ∀ w, cache_ok w → cache_ok (run_calls env cs w).
Proof.
  induction cs as [|c cs IH]; intros w Hw; simpl; [done|]. apply IH.
  destruct c as [courseId studentId d st markedBy
                | courseId d attendanceData markedBy]; simpl.
  - rewrite markSingleAttendance_steps, cache_step_single_eq.
    destruct (entry_object _) as [o|]; [|done]. cbn [snd].
    unfold cache_ok. rewrite remote_step_single_ls. by apply cache_ok_insert.
  - unfold cache_ok. rewrite bulk_mark_storage. by apply cache_ok_insert.
Qed.

Lemma cache_ok_entry (w : World) (key : string) :
  cache_ok w → ∃ o, entry_object (localStorage w !! key) = Some o.
Proof.
  intros Hw. specialize (Hw key).
  destruct (localStorage w !! key) as [[o|]|]; simpl; eauto. done.
Qed.

(** From a table that satisfies its constraints and a cache that parses,
    every world the marking calls reach does so too. *)
Lemma reachable_worlds_ok env (cs : list Call) (w : World) :
  db_unique w → ids_ok w → cache_ok w →
  db_unique (run_calls env cs w) ∧
  ids_ok (run_calls env cs w) ∧
  cache_ok (run_calls env cs w).
Proof.
  intros Hu Hi Hc. split; [|split].
  - by apply run_calls_unique.
  - by apply run_calls_ids.
  - by apply run_calls_cache.
Qed.

Lemma w_abc_ids : ids_ok w_abc.
Proof.
  split.
  - apply (bool_decide_unpack _). vm_compute. reflexivity.
  - unfold w_abc. cbn [db next_id]. repeat constructor.
Qed.

Lemma w_abc_cache : cache_ok w_abc.
Proof.
  intros key. unfold w_abc. cbn [localStorage].
  destruct (decide (key = storageKey "CS101" "2024-01-15")) as [-> | Hne].
  - by rewrite lookup_singleton_eq.
  - by rewrite lookup_singleton_ne.
Qed.

(** ** Further checks on concrete runs *)

(** A bulk payload naming a student twice, sent while the remote end
    answers: the cache keeps the last mark of each student; the table has
    lost the rows of the day and has been given none. *)
Example duplicate_bulk_payload :
  let w := snd (markAttendance calm "CS101" "2024-01-15"
                  [mkMark "S1" late; mkMark "S2" present; mkMark "S1" absent] "I1"
                  w_abc) in
  db w = [] ∧
  localStorage w !! storageKey "CS101" "2024-01-15"
    = Some (ObjText {[ "S1" := mkCacheMark absent "I1" 12;
                       "S2" := mkCacheMark present "I1" 11 ]}).
Proof. vm_compute. split; reflexivity. Qed.

(** An import over a corrupt cache entry and a dead network: nothing is
    written anywhere, and both entries are counted as imported. *)
Example import_counts_failed_writes :
  bulkImportAttendance offline "CS101"
    [mkImportEntry "S1" "2024-01-15" present; mkImportEntry "S2" "2024-01-15" late]
    "I1" w_corrupt
  = (Val (mkImportResults 2 0 []), w_corrupt).
Proof. vm_compute. reflexivity. Qed.

(** The view prints the rate with one decimal, rounded from the number
    the division gave: [23 / 80 * 100] is a little below [28.75]. *)
Example view_rate_one_decimal :
  CourseCard.attendanceRate
    (CourseCard.getAttendanceStats mockStudents (map DbRow (db w_three)))
  = "66.7" ∧
  PrimFloat.ltb (percent 23 80) (2875 / 100) = true ∧
  CourseCard.toFixed1 (percent 23 80) = "28.7".
Proof. vm_compute. repeat split; reflexivity. Qed.

(** The scenario of the specification: one student is marked present on an
    empty table while the remote end answers.  The insert is refused, so
    a read that is answered shows no record; a read that is not answered
    shows the cached mark. *)
Example scenario_mark_and_read :
  let w := snd (markSingleAttendance calm "C1" "S1" "2024-01-15" present "I1" w0) in
  db w = [] ∧
  fst (getAttendanceRecords calm "C1" (Some "2024-01-15") w) = Val [] ∧
  fst (getAttendanceRecords offline "C1" (Some "2024-01-15") w)
    = Val [CacheRecord (mkAttendanceRecord "C1_S1_2024-01-15" "C1" "S1" "2024-01-15"
                          present "I1")].
Proof. vm_compute. repeat split; reflexivity. Qed.

(** The second scenario: the three students of the day are marked absent
    in bulk, then one of them is marked late, the remote end answering
    throughout.  The table ends without a row for the day; the cache holds
    the three marks. *)
Example scenario_bulk_then_single :
  let w := run_calls calm
             [ MarkBulk "CS101" "2024-01-15"
                 [mkMark "A" absent; mkMark "B" absent; mkMark "C" absent] "I1";
               MarkOne "CS101" "A" "2024-01-15" late "I1" ] w_abc in
  db w = [] ∧
  map (fun a => (ar_studentId a, ar_status a))
      (cached_for ("CS101", "A", "2024-01-15") w
       ++ cached_for ("CS101", "B", "2024-01-15") w
       ++ cached_for ("CS101", "C", "2024-01-15") w)
  = [("A", late); ("B", absent); ("C", absent)].
Proof. vm_compute. split; reflexivity. Qed.

(** * The rest of the service and its callers *)

(** ** Order on dates *)

Lemma string_compare_le_trans (s1 : string) :
  ∀ s2 s3, String.compare s1 s2 ≠ Gt → String.compare s2 s3 ≠ Gt →
           String.compare s1 s3 ≠ Gt.
Proof.
  induction s1 as [|c1 s1 IH]; intros [|c2 s2] [|c3 s3]; simpl; try done.
  unfold Ascii.compare.
  destruct (N.compare_spec (Ascii.N_of_ascii c1) (Ascii.N_of_ascii c2)) as [H12|H12|H12];
    destruct (N.compare_spec (Ascii.N_of_ascii c2) (Ascii.N_of_ascii c3)) as [H23|H23|H23];
    try done; intros Ha Hb.
  - rewrite H12, H23, N.compare_refl. by apply (IH s2).
  - rewrite H12. by apply N.compare_lt_iff in H23 as ->.
  - rewrite <- H23. by apply N.compare_lt_iff in H12 as ->.
  - assert (Ascii.N_of_ascii c1 < Ascii.N_of_ascii c3)%N as Hlt by lia.
    by apply N.compare_lt_iff in Hlt as ->.
Qed.

Lemma string_leb_trans (s1 s2 s3 : string) :
  String.leb s1 s2 = true → String.leb s2 s3 = true → String.leb s1 s3 = true.
Proof.
  unfold String.leb. intros H1 H2.
  pose proof (string_compare_le_trans s1 s2 s3) as H.
  destruct (String.compare s1 s2), (String.compare s2 s3), (String.compare s1 s3);
    try done; exfalso; by apply H.
Qed.

Lemma string_leb_flip (s1 s2 : string) :
  String.leb s1 s2 = false → String.leb s2 s1 = true.
Proof.
  intros H. destruct (String.leb_total s1 s2) as [H'|H']; [congruence | done].
Qed.

Lemma insert_desc_perm (r : Row) (l : list Row) : insert_desc r l ≡ₚ r :: l.
Proof.
  induction l as [|x l IH]; simpl; [done|].
  destruct (String.leb (date x) (date r)); [done|].
  rewrite IH. apply Permutation_swap.
Qed.

Lemma order_desc_perm (l : list Row) : order_desc l ≡ₚ l.
Proof.
  unfold order_desc. induction l as [|x l IH]; simpl; [done|].
  by rewrite insert_desc_perm, IH.
Qed.

Lemma insert_desc_sorted (r : Row) (l : list Row) :
  StronglySorted date_desc l → StronglySorted date_desc (insert_desc r l).
Proof.
  induction l as [|x l IH]; simpl; intros Hl.
  - repeat constructor.
  - apply StronglySorted_inv in Hl as [Hl Hx].
    destruct (String.leb (date x) (date r)) eqn:E.
    + constructor; [by constructor|]. constructor; [done|].
      eapply Forall_impl; [exact Hx|]. intros y Hy. unfold date_desc in *.
      by apply (string_leb_trans _ (date x)).
    + constructor; [by apply IH|].
      rewrite insert_desc_perm. constructor; [|done].
      by apply string_leb_flip.
Qed.

Lemma order_desc_sorted (l : list Row) : StronglySorted date_desc (order_desc l).
Proof.
  unfold order_desc. induction l as [|x l IH]; simpl; [constructor|].
  by apply insert_desc_sorted.
Qed.

Lemma insert_asc_perm (r : Row) (l : list Row) : insert_asc r l ≡ₚ r :: l.
Proof.
  induction l as [|x l IH]; simpl; [done|].
  destruct (String.leb (date r) (date x)); [done|].
  rewrite IH. apply Permutation_swap.
Qed.

Lemma order_asc_perm (l : list Row) : order_asc l ≡ₚ l.
Proof.
  unfold order_asc. induction l as [|x l IH]; simpl; [done|].
  by rewrite insert_asc_perm, IH.
Qed.

Lemma insert_asc_sorted (r : Row) (l : list Row) :
  StronglySorted date_asc l → StronglySorted date_asc (insert_asc r l).
Proof.
  induction l as [|x l IH]; simpl; intros Hl.
  - repeat constructor.
  - apply StronglySorted_inv in Hl as [Hl Hx].
    destruct (String.leb (date r) (date x)) eqn:E.
    + constructor; [by constructor|]. constructor; [done|].
      eapply Forall_impl; [exact Hx|]. intros y Hy. unfold date_asc in *.
      by apply (string_leb_trans _ (date x)).
    + constructor; [by apply IH|].
      rewrite insert_asc_perm. constructor; [|done].
      by apply string_leb_flip.
Qed.

Lemma order_asc_sorted (l : list Row) : StronglySorted date_asc (order_asc l).
Proof.
  unfold order_asc. induction l as [|x l IH]; simpl; [constructor|].
  by apply insert_asc_sorted.
Qed.

(** ** Reads that the remote end answers *)

Lemma getAttendanceRecords_remote env courseId d w :
  net_at env (tick w) = NoFault →
  getAttendanceRecords env courseId d w =
  (Val (map DbRow (order_desc (List.filter (selected courseId d) (db w)))),
   set_tick (S (tick w)) w).
Proof.
  intros Hf.
  cbv [getAttendanceRecords try_catch bind db_select_records remote net ret throw].
  cbn [tick set_tick]. rewrite Hf. cbn [error data default db]. unfold selected.
  destruct (truthy d) eqn:Ht.
  - destruct d as [d|]; [|done]. cbn [date_text default]. cbv [id].
    by rewrite filter_filter_andb.
  - cbv [id]. cbn [db set_tick].
    erewrite (List.filter_ext (fun r => _ && true)); [reflexivity|].
    intros r. by rewrite andb_true_r.
Qed.

(** X1. When the remote read answers, [getAttendanceRecords] returns the
    rows the table holds for the course (for the day, when a non-empty date
    is given), each exactly once, in non-increasing date order; the cache is
    neither read nor written, so the result is the same whatever the cache
    holds. *)
Theorem remote_read_ignores_cache env courseId d w :
  net_at env (tick w) = NoFault →
  (∃ rows,
     fst (getAttendanceRecords env courseId d w) = Val (map DbRow rows) ∧
     rows ≡ₚ List.filter (selected courseId d) (db w) ∧
     StronglySorted date_desc rows) ∧
  (∀ cache,
     fst (getAttendanceRecords env courseId d (set_localStorage (fun _ => cache) w))
     = fst (getAttendanceRecords env courseId d w)) ∧
  localStorage (snd (getAttendanceRecords env courseId d w)) = localStorage w.
Proof.
  intros Hf. split; [|split].
  - rewrite getAttendanceRecords_remote by done. eexists. split; [reflexivity|].
    split; [apply order_desc_perm | apply order_desc_sorted].
  - intros cache. by rewrite !getAttendanceRecords_remote by done.
  - by rewrite getAttendanceRecords_remote by done.
Qed.

Lemma remote_read_ignores_cache_witness :
  fst (getAttendanceRecords calm "CS101" (Some "2024-01-15") w_three)
  = fst (getAttendanceRecords calm "CS101" (Some "2024-01-15")
           (set_localStorage (fun _ => ∅) w_three)).
Proof.
  symmetry.
  apply (proj1 (proj2 (remote_read_ignores_cache calm "CS101" (Some "2024-01-15")
                         w_three eq_refl))).
Defined.

Lemma getStudentAttendance_remote env studentId courseId w :
  net_at env (tick w) = NoFault →
  getStudentAttendance env studentId courseId w =
  (Val (order_desc (List.filter (selected_student studentId courseId) (db w))),
   set_tick (S (tick w)) w).
Proof.
  intros Hf.
  cbv [getStudentAttendance try_catch bind db_select_student remote net ret throw].
  cbn [tick set_tick]. rewrite Hf. cbn [error data default db]. unfold selected_student.
  destruct (truthy courseId) eqn:Ht.
  - destruct courseId as [c|]; [|done]. cbn [date_text default]. cbv [id].
    by rewrite filter_filter_andb.
  - cbv [id]. cbn [db set_tick].
    erewrite (List.filter_ext (fun r => _ && true)); [reflexivity|].
    intros r. by rewrite andb_true_r.
Qed.

(** X2. When the remote read answers, [getStudentAttendance] returns the
    rows of the student (within the course, when a non-empty course id is
    given), each exactly once, in non-increasing date order. *)
Theorem student_attendance_rows env studentId courseId w :
  net_at env (tick w) = NoFault →
  ∃ rows,
    fst (getStudentAttendance env studentId courseId w) = Val rows ∧
    rows ≡ₚ List.filter (selected_student studentId courseId) (db w) ∧
    StronglySorted date_desc rows.
Proof.
  intros Hf. rewrite getStudentAttendance_remote by done. eexists.
  split; [reflexivity|]. split; [apply order_desc_perm | apply order_desc_sorted].
Qed.

Lemma student_attendance_rows_witness :
  ∃ rows,
    fst (getStudentAttendance calm "S1" (Some "CS101") w_three) = Val rows ∧
    rows ≡ₚ List.filter (selected_student "S1" (Some "CS101")) (db w_three) ∧
    StronglySorted date_desc rows.
Proof.
  apply (student_attendance_rows calm "S1" (Some "CS101") w_three). reflexivity.
Defined.

(** ** Readers without a fallback *)

Lemma getStudentAttendance_fails env studentId courseId w :
  net_at env (tick w) ≠ NoFault →
  ∃ e, getStudentAttendance env studentId courseId w
       = (Thrown e, set_tick (S (tick w)) w).
Proof.
  intros Hf.
  cbv [getStudentAttendance try_catch bind db_select_student remote net ret throw].
  cbn [tick set_tick]. destruct (net_at env (tick w)); [done | |]; cbn [error]; eauto.
Qed.

Lemma getAttendanceDates_fails env courseId w :
  net_at env (tick w) ≠ NoFault →
  ∃ e, getAttendanceDates env courseId w = (Thrown e, set_tick (S (tick w)) w).
Proof.
  intros Hf.
  cbv [getAttendanceDates try_catch bind db_select_dates remote net ret throw].
  cbn [tick set_tick]. destruct (net_at env (tick w)); [done | |]; cbn [error]; eauto.
Qed.

Lemma generateAttendanceReport_eq env courseId startDate endDate w :
  generateAttendanceReport env courseId startDate endDate w =
  match net_at env (S (tick w)) with
  | NoFault =>
      (Val (map (report_entry
                   (Some (order_asc
                            (List.filter (in_range courseId startDate endDate) (db w)))))
                match fst (getCourseStudents env courseId w) with
                | Val roster => roster
                | Thrown _ => []
                end),
       set_tick (S (S (tick w))) w)
  | ReturnsError => (Thrown (Raised Unavailable), set_tick (S (S (tick w))) w)
  | Throws => (Thrown NetworkFailure, set_tick (S (S (tick w))) w)
  end.
Proof.
  unfold generateAttendanceReport, try_catch at 1, bind at 1.
  rewrite getCourseStudents_eq. cbn [fst].
  unfold bind at 1, db_select_range, remote. unfold bind at 1, net.
  cbn [tick set_tick]. destruct (net_at env (S (tick w))); cbv [throw ret];
    cbn [error data db set_tick]; try reflexivity.
  unfold in_range. rewrite !filter_filter_andb. reflexivity.
Qed.

(** X3. [getStudentAttendance], [getAttendanceDates] and
    [generateAttendanceReport] have no fallback: when their query on
    [attendance_records] throws or answers with an error the call throws,
    whatever the cache holds; for the report this is so even though its
    roster never fails. *)
Theorem readers_rethrow env w :
  (∀ studentId courseId,
     net_at env (tick w) ≠ NoFault →
     ∃ e, fst (getStudentAttendance env studentId courseId w) = Thrown e) ∧
  (∀ courseId,
     net_at env (tick w) ≠ NoFault →
     ∃ e, fst (getAttendanceDates env courseId w) = Thrown e) ∧
  (∀ courseId startDate endDate,
     net_at env (S (tick w)) ≠ NoFault →
     ∃ e, fst (generateAttendanceReport env courseId startDate endDate w) = Thrown e).
Proof.
  split; [|split].
  - intros studentId courseId Hf.
    destruct (getStudentAttendance_fails env studentId courseId w Hf) as [e ->]. eauto.
  - intros courseId Hf.
    destruct (getAttendanceDates_fails env courseId w Hf) as [e ->]. eauto.
  - intros courseId startDate endDate Hf. rewrite generateAttendanceReport_eq.
    destruct (net_at env (S (tick w))); [done | |]; eauto.
Qed.

Lemma readers_rethrow_witness :
  ∃ e, fst (generateAttendanceReport offline "CS101" "2024-01-01" "2024-12-31" w_three)
       = Thrown e.
Proof.
  apply (proj2 (proj2 (readers_rethrow offline w_three))). discriminate.
Defined.

(** ** The dates of a course *)

Lemma elem_of_set_values (l : list string) :
  ∀ seen x, x ∈ set_values seen l ↔ x ∈ l ∧ x ∉ seen.
Proof.
  induction l as [|y l IH]; intros seen x; simpl.
  - split; [by intros ?%elem_of_nil | by intros [?%elem_of_nil _]].
  - case_bool_decide as Hy.
    + rewrite IH, elem_of_cons. split; [intros [Hx Hseen]; split; [by right | done]|].
      intros [[-> | Hx] Hseen]; [done | by split].
    + rewrite !elem_of_cons, IH, not_elem_of_cons. split.
      * intros [-> | (Hx & Hne & Hseen)]; [split; [by left | done] | split; [by right | done]].
      * intros [[-> | Hx] Hseen]; [by left|].
        destruct (decide (x = y)) as [-> | Hne]; [by left | by right].
Qed.

Lemma set_values_NoDup (l : list string) : ∀ seen, NoDup (set_values seen l).
Proof.
  induction l as [|y l IH]; intros seen; simpl; [constructor|].
  case_bool_decide; [apply IH|]. constructor; [|apply IH].
  rewrite elem_of_set_values, not_elem_of_cons. by intros [_ [Hne _]].
Qed.

Lemma set_values_sorted (R : relation string) (l : list string) :
  ∀ seen, StronglySorted R l → StronglySorted R (set_values seen l).
Proof.
  induction l as [|y l IH]; intros seen Hl; simpl; [constructor|].
  apply StronglySorted_inv in Hl as [Hl Hy].
  case_bool_decide; [by apply IH|]. constructor; [by apply IH|].
  rewrite Forall_forall in Hy. apply Forall_forall. intros x Hx.
  apply Hy. by apply elem_of_set_values in Hx as [Hx _].
Qed.

Lemma sorted_NoDup_later (l : list string) :
  StronglySorted (fun a b => String.leb b a = true) l → NoDup l →
  StronglySorted later l.
Proof.
  induction l as [|x l IH]; intros Hl Hnd; [constructor|].
  apply StronglySorted_inv in Hl as [Hl Hx]. apply NoDup_cons in Hnd as [Hfresh Hnd].
  constructor; [by apply IH|].
  rewrite Forall_forall in Hx. apply Forall_forall. intros y Hy. split; [by apply Hx|].
  by intros ->.
Qed.

Lemma getAttendanceDates_remote env courseId w :
  net_at env (tick w) = NoFault →
  getAttendanceDates env courseId w =
  (Val (set_values []
          (map date
             (order_desc
                (List.filter (fun r => bool_decide (course_id r = courseId)) (db w))))),
   set_tick (S (tick w)) w).
Proof.
  intros Hf.
  cbv [getAttendanceDates try_catch bind db_select_dates remote net ret throw].
  cbn [tick set_tick]. rewrite Hf. by cbn [error data default db].
Qed.

(** X4. When the remote read answers, [getAttendanceDates] returns the
    dates on which the course has a row: every such date, no other, each
    once, in strictly decreasing order. *)
Theorem attendance_dates_distinct_descending env courseId w :
  net_at env (tick w) = NoFault →
  ∃ dates,
    fst (getAttendanceDates env courseId w) = Val dates ∧
    NoDup dates ∧
    StronglySorted later dates ∧
    ∀ d, d ∈ dates ↔ ∃ r, r ∈ db w ∧ course_id r = courseId ∧ date r = d.
Proof.
  intros Hf. rewrite getAttendanceDates_remote by done. eexists.
  split; [reflexivity|]. split; [apply set_values_NoDup|]. split.
  - apply sorted_NoDup_later; [|apply set_values_NoDup].
    apply set_values_sorted.
    apply (StronglySorted_fmap date date_desc), order_desc_sorted. done.
  - intros d. rewrite elem_of_set_values. split.
    + intros [Hd _]. apply list_elem_of_fmap in Hd as (r & -> & Hr).
      rewrite order_desc_perm in Hr. apply list_elem_of_In, List.filter_In in Hr.
      destruct Hr as [Hr Hc]. apply bool_decide_eq_true in Hc.
      exists r. by rewrite list_elem_of_In.
    + intros (r & Hr & Hc & <-). split; [|apply not_elem_of_nil].
      apply list_elem_of_fmap_2. rewrite order_desc_perm.
      apply list_elem_of_In, List.filter_In. split; [by apply list_elem_of_In|].
      by apply bool_decide_eq_true.
Qed.

Lemma attendance_dates_distinct_descending_witness :
  ∃ dates,
    fst (getAttendanceDates calm "CS101" w_three) = Val dates ∧
    NoDup dates ∧
    StronglySorted later dates ∧
    ∀ d, d ∈ dates ↔ ∃ r, r ∈ db w_three ∧ course_id r = "CS101" ∧ date r = d.
Proof.
  apply (attendance_dates_distinct_descending calm "CS101" w_three). reflexivity.
Defined.


(** ** The report *)

Lemma count_rows_total (l : list Row) :
  length l = count_rows present l + count_rows late l + count_rows absent l.
Proof.
  unfold count_rows. induction l as [|r l IH]; simpl; [done|].
  destruct (status r); simpl; lia.
Qed.

(** X5. When its query answers, [generateAttendanceReport] returns one
    entry per student of the roster [getCourseStudents] gives, in roster
    order; the entry of a student holds exactly the fetched rows of the
    course and date range that carry the student's id, in ascending date
    order; [total] is their number and [present], [late], [absent] are the
    numbers of those rows with that status, so that
    [total = present + late + absent]; the rate is the number
    [(present + late) / total * 100], or [0] for a student without rows. *)
Theorem report_structure env courseId startDate endDate w :
  net_at env (S (tick w)) = NoFault →
  ∃ report roster rows,
    fst (generateAttendanceReport env courseId startDate endDate w) = Val report ∧
    fst (getCourseStudents env courseId w) = Val roster ∧
    map re_student report = roster ∧
    rows ≡ₚ List.filter (in_range courseId startDate endDate) (db w) ∧
    StronglySorted date_asc rows ∧
    Forall (fun e =>
              let records := sa_records (re_attendance e) in
              let having st :=
                length (List.filter (fun r => bool_decide (status r = st)) records) in
              records
              = List.filter (fun r => bool_decide (student_id r = st_id (re_student e)))
                            rows ∧
              sa_total (re_attendance e) = length records ∧
              sa_present (re_attendance e) = having present ∧
              sa_late (re_attendance e) = having late ∧
              sa_absent (re_attendance e) = having absent ∧
              sa_total (re_attendance e)
              = sa_present (re_attendance e) + sa_late (re_attendance e)
                + sa_absent (re_attendance e) ∧
              sa_attendanceRate (re_attendance e)
              = (if (0 <? length records)%nat
                 then percent (having present + having late) (length records)
                 else 0%float))
           report.
Proof.
  intros Hf. rewrite generateAttendanceReport_eq, Hf.
  destruct (getCourseStudents_nonempty env courseId w) as (roster & Hr & _).
  rewrite Hr. cbn [fst].
  eexists _, roster, _. split; [reflexivity|]. split; [reflexivity|].
  split; [|split; [apply order_asc_perm | split; [apply order_asc_sorted|]]].
  - rewrite map_map. cbn [report_entry re_student]. apply map_id.
  - apply Forall_forall. intros e He.
    apply list_elem_of_fmap in He as (student & -> & _).
    cbn. split; [done|]. split; [done|]. split; [done|]. split; [done|].
    split; [done|]. split; [apply count_rows_total | done].
Qed.

Lemma report_structure_witness :
  ∃ report,
    fst (generateAttendanceReport calm "CS101" "2024-01-01" "2024-12-31" w_enrolled)
      = Val report ∧
    map (fun e => (st_id (re_student e), sa_total (re_attendance e),
                   sa_present (re_attendance e), sa_absent (re_attendance e)))
        report
    = [("S1", 2, 1, 1); ("S2", 1, 0, 1)].
Proof.
  destruct (report_structure calm "CS101" "2024-01-01" "2024-12-31" w_enrolled)
    as (report & roster & rows & Hreport & _); [reflexivity|].
  exists report. split; [exact Hreport|].
  rewrite (Val_inj _ _ (eq_trans (eq_sym Hreport) eq_refl)). vm_compute. reflexivity.
Defined.

(** ** Statistics from the cache *)

(** X6. When the status query of [getAttendanceStats] answers with an
    error and every cached text parses, the counts are taken from the
    cache: from all the marks cached under a key that starts with
    [attendance_{courseId}_], whatever the date range asked for and
    whatever the table holds. *)
Theorem stats_from_cache env courseId startDate endDate w :
  net_at env (S (tick w)) = ReturnsError →
  cache_ok w →
  (∃ roster,
     fst (getCourseStudents env courseId w) = Val roster ∧
     fst (getAttendanceStats env courseId startDate endDate w)
     = Val (build_stats (length roster) (cached_statuses courseId w))) ∧
  (∀ startDate' endDate' rows,
     fst (getAttendanceStats env courseId startDate' endDate'
            (set_db (fun _ => rows) w))
     = fst (getAttendanceStats env courseId startDate endDate w)).
Proof.
  intros Hf Hw. apply (cache_ok_course_texts courseId) in Hw.
  destruct (getAttendanceStats_error env courseId startDate endDate w Hf Hw)
    as (roster & Hr & Hs).
  split; [by exists roster|].
  intros startDate' endDate' rows.
  destruct (getAttendanceStats_error env courseId startDate' endDate'
              (set_db (fun _ => rows) w) Hf Hw) as (roster' & Hr' & Hs').
  rewrite Hs, Hs'.
  assert (fst (getCourseStudents env courseId (set_db (fun _ => rows) w))
          = fst (getCourseStudents env courseId w)) as Heq
    by (by rewrite !getCourseStudents_eq).
  rewrite Heq, Hr in Hr'. by simplify_eq.
Qed.

Lemma stats_from_cache_witness :
  let env := mkEnv (fun n => n) (fun _ => ReturnsError) in
  let w := run_calls env
             [MarkBulk "CS101" "2024-01-15"
                [mkMark "A" present; mkMark "B" late; mkMark "C" absent] "I1"] w0 in
  ∃ roster,
    fst (getCourseStudents env "CS101" w) = Val roster ∧
    fst (getAttendanceStats env "CS101" (Some "2030-01-01") None w)
    = Val (build_stats (length roster) (cached_statuses "CS101" w)).
Proof.
  intros env w.
  apply (stats_from_cache env "CS101" (Some "2030-01-01") None w).
  - reflexivity.
  - apply run_calls_cache. intros key. unfold w0. cbn [localStorage].
    by rewrite lookup_empty.
Defined.

(** X7. When the status query of [getAttendanceStats] throws, or answers
    with an error while some cached text under a key of the course does not
    parse, the result has all record counts and both percentages [0] (and a
    positive [totalStudents]), whatever the cache and the table hold. *)
Theorem stats_zero_on_failure env courseId startDate endDate w :
  net_at env (S (tick w)) = Throws ∨
  (net_at env (S (tick w)) = ReturnsError ∧
   ∃ bad, String.prefix ("attendance_" ++ courseId ++ "_")%string bad = true ∧
          localStorage w !! bad = Some BadText) →
  ∃ n, 0 < n ∧
       fst (getAttendanceStats env courseId startDate endDate w)
       = Val (mkStats n 0 0 0 0 0%float 0%float).
Proof.
  intros Hcase.
  destruct (getCourseStudents_nonempty env courseId w) as (roster & Hr & Hpos).
  unfold getAttendanceStats, try_catch at 1, bind at 1. rewrite Hr.
  unfold bind at 1, db_select_status, remote. unfold bind at 1, net.
  cbn [tick set_tick].
  destruct Hcase as [Hf | (Hf & bad & Hpre & Hbad)]; rewrite Hf.
  - unfold throw at 1. apply default_stats.
  - unfold ret at 1. cbn [error data]. unfold bind at 1. unfold bind at 1, storage_keys.
    cbn [localStorage set_tick].
    match goal with
    | |- context [foldM ?f ?acc ?keys ?w1] =>
        assert (bad ∈ keys) as Hin;
        [| destruct (stats_fold_bad w1 keys bad Hin Hbad acc) as [e ->] ]
    end.
    + apply list_elem_of_In, List.filter_In. split; [|done].
      apply list_elem_of_In. apply (list_elem_of_fmap_2 fst _ (bad, BadText)).
      by apply elem_of_map_to_list.
    + apply default_stats.
Qed.

Lemma stats_zero_on_failure_witness :
  ∃ n, 0 < n ∧
       fst (getAttendanceStats offline "CS101" None None w_three)
       = Val (mkStats n 0 0 0 0 0%float 0%float).
Proof.
  apply (stats_zero_on_failure offline "CS101" None None w_three). left. reflexivity.
Defined.


(** ** Which cached days the statistics count *)

Lemma count_status_perm (s : Status) (l l' : list Status) :
  l ≡ₚ l' → count_status s l = count_status s l'.
Proof.
  unfold count_status. induction 1 as [|x l l' _ IH|x y l|l l' l'' _ IH1 _ IH2]; simpl.
  - done.
  - case_bool_decide; simpl; by rewrite IH.
  - by repeat case_bool_decide.
  - by rewrite IH1.
Qed.

Lemma filter_perm {A} (P : A → bool) (l l' : list A) :
  l ≡ₚ l' → List.filter P l ≡ₚ List.filter P l'.
Proof.
  induction 1 as [|x l l' _ IH|x y l|l l' l'' _ IH1 _ IH2]; simpl.
  - done.
  - destruct (P x); by rewrite IH.
  - destruct (P x), (P y); try done. apply Permutation_swap.
  - by rewrite IH1.
Qed.

Lemma concat_map_perm {A B} (f : A → list B) (l l' : list A) :
  l ≡ₚ l' → concat (map f l) ≡ₚ concat (map f l').
Proof.
  induction 1 as [|x l l' _ IH|x y l|l l' l'' _ IH1 _ IH2]; simpl.
  - done.
  - by rewrite IH.
  - rewrite !app_assoc. by rewrite (Permutation_app_comm (f y) (f x)).
  - by rewrite IH1.
Qed.

Lemma build_stats_perm (n : nat) (l l' : list Status) :
  l ≡ₚ l' → build_stats n l = build_stats n l'.
Proof.
  intros H. unfold build_stats.
  by rewrite (Permutation_length H), !(count_status_perm _ _ _ H).
Qed.

Lemma length_cached_statuses (courseId : string) (w : World) :
  length (cached_statuses courseId w)
  = sum_list_with (entry_size w) (course_keys courseId w).
Proof.
  unfold cached_statuses. fold (course_keys courseId w).
  induction (course_keys courseId w) as [|key keys IH]; simpl; [done|].
  rewrite length_app, IH. f_equal. unfold statuses_at, entry_size.
  destruct (localStorage w !! key) as [[o|]|]; [|done|done].
  by rewrite length_map, length_map_to_list.
Qed.

Lemma elem_of_course_keys (courseId : string) (w : World) (key : string) :
  key ∈ course_keys courseId w
  ↔ String.prefix ("attendance_" ++ courseId ++ "_")%string key = true ∧
    is_Some (localStorage w !! key).
Proof.
  unfold course_keys. rewrite list_elem_of_In, List.filter_In, <- list_elem_of_In.
  rewrite list_elem_of_fmap. split.
  - intros [([k t] & -> & Hkt) Hpre]. split; [done|].
    apply elem_of_map_to_list in Hkt. by exists t.
  - intros [Hpre [t Ht]]. split; [|done].
    exists (key, t). split; [done|]. by apply elem_of_map_to_list.
Qed.

Lemma course_keys_NoDup (courseId : string) (w : World) :
  NoDup (course_keys courseId w).
Proof.
  unfold course_keys.
  pose proof (NoDup_map_filter id
                (String.prefix ("attendance_" ++ courseId ++ "_")%string)
                (map fst (map_to_list (localStorage w)))) as H.
  rewrite !map_id in H. apply H, NoDup_fst_map_to_list.
Qed.

(** A text stored under a key that lacks the prefix does not change what
    the fallback visits. *)
Lemma course_keys_insert_other (courseId key : string) (t : StoredText) (w : World) :
  String.prefix ("attendance_" ++ courseId ++ "_")%string key = false →
  course_keys courseId (set_localStorage (insert key t) w) ≡ₚ course_keys courseId w.
Proof.
  intros Hpre. unfold course_keys. cbn [localStorage set_localStorage].
  assert (∀ (t' : StoredText) (m : gmap string StoredText), m !! key = None →
            List.filter (String.prefix ("attendance_" ++ courseId ++ "_")%string)
                        (map fst (map_to_list (<[key := t']> m)))
            ≡ₚ List.filter (String.prefix ("attendance_" ++ courseId ++ "_")%string)
                           (map fst (map_to_list m))) as Hfresh.
  { intros t' m Hm.
    rewrite (filter_perm _ _ (key :: map fst (map_to_list m))).
    - cbn [List.filter]. by rewrite Hpre.
    - by rewrite map_to_list_insert. }
  destruct (localStorage w !! key) as [old|] eqn:E; [|by apply Hfresh].
  trans (List.filter (String.prefix ("attendance_" ++ courseId ++ "_")%string)
                     (map fst (map_to_list (delete key (localStorage w))))).
  - rewrite <- (insert_delete_eq (localStorage w) key t).
    apply Hfresh, lookup_delete_eq.
  - symmetry.
    rewrite <- (insert_delete_id (localStorage w) key old E) at 1.
    apply Hfresh, lookup_delete_eq.
Qed.

Lemma cached_statuses_insert_other (courseId key : string) (t : StoredText) (w : World) :
  String.prefix ("attendance_" ++ courseId ++ "_")%string key = false →
  cached_statuses courseId (set_localStorage (insert key t) w)
  ≡ₚ cached_statuses courseId w.
Proof.
  intros Hpre. unfold cached_statuses.
  fold (course_keys courseId (set_localStorage (insert key t) w)).
  fold (course_keys courseId w).
  rewrite <- (concat_map_perm (statuses_at w) _ _
                (course_keys_insert_other courseId key t w Hpre)).
  assert (map (statuses_at (set_localStorage (insert key t) w))
              (course_keys courseId (set_localStorage (insert key t) w))
          = map (statuses_at w)
                (course_keys courseId (set_localStorage (insert key t) w))) as ->;
    [|done].
  apply map_ext_in. intros k Hk.
  apply list_elem_of_In, elem_of_course_keys in Hk as [Hk _].
  unfold statuses_at. cbn [localStorage set_localStorage].
  rewrite lookup_insert_ne; [done|]. intros ->. congruence.
Qed.

(** X8. When the status query of [getAttendanceStats] answers with an
    error and the texts cached under the keys that start with
    [attendance_{courseId}_] parse, [totalRecords] is the sum, over the keys
    of the storage with that prefix (each once), of the number of marks
    cached under the key.  These are the days of the course and also the
    days of every course whose id is [courseId], an underscore, and more.
    What the storage holds under a key without the prefix, a text that does
    not parse included, has no influence on the result. *)
Theorem stats_count_keys_by_prefix env courseId startDate endDate w :
  net_at env (S (tick w)) = ReturnsError →
  course_texts_ok courseId w →
  ∃ s,
    fst (getAttendanceStats env courseId startDate endDate w) = Val s ∧
    totalRecords s = sum_list_with (entry_size w) (course_keys courseId w) ∧
    NoDup (course_keys courseId w) ∧
    (∀ key, key ∈ course_keys courseId w
            ↔ String.prefix ("attendance_" ++ courseId ++ "_")%string key = true ∧
              is_Some (localStorage w !! key)) ∧
    (∀ d o, localStorage w !! storageKey courseId d = Some (ObjText o) →
            storageKey courseId d ∈ course_keys courseId w ∧
            entry_size w (storageKey courseId d) = size o) ∧
    (∀ x d o,
       localStorage w !! storageKey (courseId ++ "_" ++ x) d = Some (ObjText o) →
       storageKey (courseId ++ "_" ++ x) d ∈ course_keys courseId w ∧
       entry_size w (storageKey (courseId ++ "_" ++ x) d) = size o) ∧
    (∀ key t,
       String.prefix ("attendance_" ++ courseId ++ "_")%string key = false →
       fst (getAttendanceStats env courseId startDate endDate
              (set_localStorage (insert key t) w)) = Val s).
Proof.
  intros Hf Hw.
  destruct (getAttendanceStats_error env courseId startDate endDate w Hf Hw)
    as (roster & Hr & ->).
  eexists. split; [reflexivity|].
  split; [apply length_cached_statuses|].
  split; [apply course_keys_NoDup|].
  split; [apply elem_of_course_keys|].
  split; [|split].
  - intros d o Ho. split.
    + apply elem_of_course_keys. split; [apply storageKey_prefix | by rewrite Ho].
    + unfold entry_size. by rewrite Ho.
  - intros x d o Ho. split.
    + apply elem_of_course_keys.
      split; [apply storageKey_prefix_longer | by rewrite Ho].
    + unfold entry_size. by rewrite Ho.
  - intros key t Hpre.
    assert (course_texts_ok courseId (set_localStorage (insert key t) w)) as Hw'.
    { intros k Hk. cbn [localStorage set_localStorage].
      rewrite lookup_insert_ne; [by apply Hw|]. intros ->. congruence. }
    destruct (getAttendanceStats_error env courseId startDate endDate
                (set_localStorage (insert key t) w) Hf Hw')
      as (roster' & Hr' & ->).
    assert (fst (getCourseStudents env courseId (set_localStorage (insert key t) w))
            = fst (getCourseStudents env courseId w)) as Heq
      by (by rewrite !getCourseStudents_eq).
    rewrite Heq, Hr in Hr'. injection Hr' as <-. f_equal.
    by apply build_stats_perm, cached_statuses_insert_other.
Qed.

Lemma stats_count_keys_by_prefix_witness :
  let env := mkEnv (fun n => n) (fun _ => ReturnsError) in
  let w := run_calls env
             [MarkBulk "CS_101" "2024-01-15"
                [mkMark "A" present; mkMark "B" late; mkMark "C" absent] "I1";
              MarkBulk "CS" "2024-01-15" [mkMark "A" present; mkMark "B" late] "I1"]
             w_theme in
  ∃ s,
    fst (getAttendanceStats env "CS" None None w) = Val s ∧
    totalRecords s = 5.
Proof.
  intros env w.
  destruct (stats_count_keys_by_prefix env "CS" None None w)
    as (s & Hs & Htotal & _).
  - reflexivity.
  - apply service_cache_course_texts, run_calls_service_cache,
      no_attendance_text_service_cache, w_theme_fresh.
  - exists s. split; [exact Hs|]. rewrite Htotal. vm_compute. reflexivity.
Defined.

(** ** Statistics after a bulk mark that only reached the cache *)

Lemma bulk_object_statuses env markedBy (l : list Mark) :
  ∀ t (acc : gmap string CacheMark),
    NoDup (map m_studentId l) →
    (∀ m, m ∈ l → acc !! m_studentId m = None) →
    map (fun e => cm_status (snd e)) (map_to_list (bulk_object env markedBy t acc l))
    ≡ₚ map (fun e => cm_status (snd e)) (map_to_list acc) ++ map m_status l.
Proof.
  induction l as [|m l IH]; intros t acc Hnd Hacc; simpl.
  - by rewrite app_nil_r.
  - apply NoDup_cons in Hnd as [Hfresh Hnd].
    rewrite IH; [|done|].
    + rewrite map_to_list_insert by (apply Hacc; by left). simpl.
      by rewrite Permutation_middle.
    + intros m' Hm'. rewrite lookup_insert_ne; [apply Hacc; by right|].
      intros Heq. apply Hfresh. rewrite Heq. by apply list_elem_of_fmap_2.
Qed.

Lemma cached_statuses_after_bulk env courseId d attendanceData markedBy w :
  NoDup (map m_studentId attendanceData) →
  (∀ key, String.prefix ("attendance_" ++ courseId ++ "_")%string key = true →
          localStorage w !! key = None) →
  cached_statuses courseId (snd (markAttendance env courseId d attendanceData markedBy w))
  ≡ₚ map m_status attendanceData.
Proof.
  intros Hnd Hfree. unfold cached_statuses, statuses_at.
  rewrite bulk_mark_storage.
  set (ob := bulk_object env markedBy (tick w) ∅ attendanceData).
  assert (localStorage w !! storageKey courseId d = None) as Hnone
    by apply Hfree, storageKey_prefix.
  assert (List.filter (String.prefix ("attendance_" ++ courseId ++ "_")%string)
            (map fst (map_to_list (<[storageKey courseId d := ObjText ob]>
                                     (localStorage w))))
          = [storageKey courseId d]) as ->.
  { apply Permutation_singleton_r.
    rewrite (filter_perm _ _ (storageKey courseId d :: map fst (map_to_list (localStorage w)))).
    - cbn [List.filter]. rewrite storageKey_prefix. rewrite filter_none; [done|].
      intros key Hkey. apply list_elem_of_fmap in Hkey as ([k t] & -> & Hkt).
      apply elem_of_map_to_list in Hkt. simpl.
      destruct (String.prefix _ k) eqn:E; [|done].
      apply Hfree in E. congruence.
    - by rewrite map_to_list_insert. }
  simpl. rewrite lookup_insert_eq, app_nil_r. subst ob.
  rewrite bulk_object_statuses; [|done|].
  - by rewrite map_to_list_empty.
  - intros m _. apply lookup_empty.
Qed.

(** X9. After [markAttendance] with pairwise distinct students on a cache
    that held no day of the course, whatever the network did during the
    mark, a [getAttendanceStats] whose status query answers with an error
    reports the payload: [totalRecords] is its length and the counts by
    status are the payload's. *)
Theorem stats_after_cached_bulk env courseId d attendanceData markedBy w
    startDate endDate :
  NoDup (map m_studentId attendanceData) →
  cache_ok w →
  (∀ key, String.prefix ("attendance_" ++ courseId ++ "_")%string key = true →
          localStorage w !! key = None) →
  net_at env (S (tick (snd (markAttendance env courseId d attendanceData markedBy w))))
  = ReturnsError →
  ∃ s,
    fst (getAttendanceStats env courseId startDate endDate
           (snd (markAttendance env courseId d attendanceData markedBy w))) = Val s ∧
    totalRecords s = length attendanceData ∧
    stats_present s = count_status present (map m_status attendanceData) ∧
    stats_late s = count_status late (map m_status attendanceData) ∧
    stats_absent s = count_status absent (map m_status attendanceData).
Proof.
  intros Hnd Hw Hfree Hf.
  pose proof (cached_statuses_after_bulk env courseId d attendanceData markedBy w
                Hnd Hfree) as Hperm.
  assert (cache_ok (snd (markAttendance env courseId d attendanceData markedBy w)))
    as Hw1
    by apply (run_calls_cache env [MarkBulk courseId d attendanceData markedBy] w Hw).
  destruct (getAttendanceStats_error env courseId startDate endDate _ Hf
              (cache_ok_course_texts courseId _ Hw1))
    as (roster & _ & ->).
  eexists. split; [reflexivity|]. cbn [build_stats totalRecords stats_present
                                       stats_late stats_absent].
  split; [by rewrite Hperm, length_map|].
  split; [|split]; by apply count_status_perm.
Qed.

Lemma stats_after_cached_bulk_witness :
  let env := mkEnv (fun n => n) (fun _ => ReturnsError) in
  ∃ s,
    fst (getAttendanceStats env "CS101" None None
           (snd (markAttendance env "CS101" "2024-01-15"
                   [mkMark "A" present; mkMark "B" late; mkMark "C" absent] "I1" w0)))
      = Val s ∧
    totalRecords s = 3 ∧
    stats_present s = 1 ∧
    stats_late s = 1 ∧
    stats_absent s = 1.
Proof.
  intros env.
  apply (stats_after_cached_bulk env "CS101" "2024-01-15"
           [mkMark "A" present; mkMark "B" late; mkMark "C" absent] "I1" w0 None None).
  - apply (bool_decide_unpack _). vm_compute. reflexivity.
  - intros key. unfold w0. cbn [localStorage]. by rewrite lookup_empty.
  - intros key _. apply lookup_empty.
  - reflexivity.
Defined.

(** ** A single mark and the other triples *)

(** X10. Whatever the network does, [markSingleAttendance] leaves the rows
    of every other triple as they were: on a table with distinct ids, the
    rows stored for [(courseId', studentId', date')] before and after the
    call are the same whenever that triple is not the marked one. *)
Theorem single_mark_leaves_other_rows env courseId studentId d st markedBy w (k' : Key) :
  ids_ok w →
  k' ≠ (courseId, studentId, d) →
  records_for k' (snd (markSingleAttendance env courseId studentId d st markedBy w))
  = records_for k' w.
Proof.
  intros _ _. unfold records_for.
  by rewrite (proj1 (markSingleAttendance_db env courseId studentId d st markedBy w)).
Qed.

Lemma single_mark_leaves_other_rows_witness :
  records_for ("CS101", "B", "2024-01-15")
    (snd (markSingleAttendance calm "CS101" "A" "2024-01-15" late "I2" w_abc))
  = records_for ("CS101", "B", "2024-01-15") w_abc.
Proof.
  apply (single_mark_leaves_other_rows calm "CS101" "A" "2024-01-15" late "I2" w_abc).
  - exact w_abc_ids.
  - discriminate.
Defined.

(** ** What the course modal shows after a mark *)

Lemma find_head_filter {A} (f : A → bool) (l : list A) :
  List.find f l = head (List.filter f l).
Proof. induction l as [|a l IH]; simpl; [done|]. by destruct (f a). Qed.

Lemma filter_map_DbRow (s : string) (rows : list Row) :
  List.filter (fun r => bool_decide (prop_student_id r = Some s)) (map DbRow rows)
  = map DbRow (List.filter (fun r => bool_decide (student_id r = s)) rows).
Proof.
  induction rows as [|r rows IH]; simpl; [done|].
  destruct (decide (student_id r = s)) as [Hs | Hs].
  - rewrite !bool_decide_eq_true_2 by congruence. simpl. by rewrite IH.
  - rewrite !bool_decide_eq_false_2 by congruence. done.
Qed.

Lemma modal_status_rows (v : CourseManagementModal.State) (rows : list Row) (s : string) :
  CourseManagementModal.getAttendanceStatus
    (CourseManagementModal.setAttendanceRecords (map DbRow rows) v) s
  = status <$> head (List.filter (fun r => bool_decide (student_id r = s)) rows).
Proof.
  unfold CourseManagementModal.getAttendanceStatus.
  cbn [CourseManagementModal.attendanceRecords
       CourseManagementModal.setAttendanceRecords].
  rewrite find_head_filter, filter_map_DbRow.
  by destruct (List.filter _ rows).
Qed.

Lemma selected_student_key (courseId d s : string) (l : list Row) :
  d ≠ "" →
  List.filter (fun r => bool_decide (student_id r = s))
              (List.filter (selected courseId (Some d)) l)
  = List.filter (matches_key (courseId, s, d)) l.
Proof.
  intros Hd. rewrite filter_filter_andb. apply List.filter_ext. intros r.
  unfold selected, matches_key, row_key. rewrite truthy_nonempty by done.
  change (date_text (Some d)) with d.
  destruct (decide (course_id r = courseId)) as [Hc|Hc],
           (decide (date r = d)) as [Hdt|Hdt],
           (decide (student_id r = s)) as [Hs|Hs];
    rewrite ?(bool_decide_eq_true_2 _ Hc), ?(bool_decide_eq_false_2 _ Hc),
            ?(bool_decide_eq_true_2 _ Hdt), ?(bool_decide_eq_false_2 _ Hdt),
            ?(bool_decide_eq_true_2 _ Hs), ?(bool_decide_eq_false_2 _ Hs);
    simpl; symmetry;
    first [ apply bool_decide_eq_true_2; congruence
          | apply bool_decide_eq_false_2; congruence ].
Qed.

Lemma perm_short {A} (l l' : list A) : l ≡ₚ l' → (length l' ≤ 1)%nat → l = l'.
Proof.
  intros Hp Hlen. destruct l' as [|a [|b l']]; simpl in Hlen; [| |lia].
  - by apply Permutation_nil_r.
  - by apply Permutation_singleton_r.
Qed.

Lemma read_rows_of_student (courseId d : string) (w : World) (s : string) :
  d ≠ "" → db_unique w →
  List.filter (fun r => bool_decide (student_id r = s))
              (order_desc (List.filter (selected courseId (Some d)) (db w)))
  = records_for (courseId, s, d) w.
Proof.
  intros Hd Hw. unfold records_for. apply perm_short.
  - rewrite <- (selected_student_key courseId d s) by done.
    apply filter_perm, order_desc_perm.
  - unfold matches_key. by apply filter_key_length.
Qed.

Lemma modal_loadAttendance_remote env courseId (v : CourseManagementModal.State) w :
  courseId ≠ "" →
  net_at env (tick w) = NoFault →
  CourseManagementModal.loadAttendance env courseId v w
  = (Val (CourseManagementModal.setAttendanceRecords
            (map DbRow (order_desc
                          (List.filter
                             (selected courseId
                                (Some (CourseManagementModal.selectedDate v)))
                             (db w)))) v),
     set_tick (S (tick w)) w).
Proof.
  intros Hc Hf. unfold CourseManagementModal.loadAttendance.
  destruct (String.eqb courseId "") eqn:E; [by apply String.eqb_eq in E|].
  unfold try_catch, bind. by rewrite getAttendanceRecords_remote.
Qed.

Lemma modal_markAttendance_eq env courseId userId studentId st
    (v : CourseManagementModal.State) w :
  courseId ≠ "" →
  CourseManagementModal.markAttendance env courseId (Some userId) studentId st v w
  = CourseManagementModal.loadAttendance env courseId v
      (snd (markSingleAttendance env courseId studentId
              (CourseManagementModal.selectedDate v) st userId w)).
Proof.
  intros Hc. unfold CourseManagementModal.markAttendance.
  destruct (String.eqb courseId "") eqn:E; [by apply String.eqb_eq in E|].
  unfold try_catch at 1, bind at 1.
  destruct (markSingleAttendance_total env courseId studentId
              (CourseManagementModal.selectedDate v) st userId w) as [b Hb].
  destruct (markSingleAttendance env courseId studentId _ st userId w) as [[b'|e] w1];
    simpl in Hb; [|discriminate]. cbn [snd].
  unfold CourseManagementModal.loadAttendance. rewrite E.
  unfold try_catch.
  by destruct (bind _ _ w1) as [[v'|e] w2].
Qed.

(** X11. A mark made from the modal is not shown once the table answers.
    With a course and a non-empty day selected, a user signed in, a table
    with one row per triple and a cached day that is missing or parses: if
    the read that follows the mark is answered, then, whatever the remote
    end did during the mark, [getAttendanceStatus] gives every student, the
    marked one included, the status of the row the table held for that
    student and day before the call (none if none).  The writes of the mark
    name [updated_at] and are refused, so the table is what it was; the
    cached day holds the new status. *)
Theorem modal_mark_not_shown env courseId userId studentId st
    (v : CourseManagementModal.State) w o :
  let d := CourseManagementModal.selectedDate v in
  courseId ≠ "" →
  d ≠ "" →
  db_unique w →
  entry_object (localStorage w !! storageKey courseId d) = Some o →
  net_at env (tick (snd (markSingleAttendance env courseId studentId d st userId w)))
  = NoFault →
  ∃ v',
    fst (CourseManagementModal.markAttendance env courseId (Some userId)
           studentId st v w) = Val v' ∧
    (∀ s, CourseManagementModal.getAttendanceStatus v' s
          = status <$> head (records_for (courseId, s, d) w)) ∧
    db (snd (CourseManagementModal.markAttendance env courseId (Some userId)
               studentId st v w)) = db w ∧
    localStorage
      (snd (CourseManagementModal.markAttendance env courseId (Some userId)
              studentId st v w)) !! storageKey courseId d
    = Some (ObjText (<[studentId := mkCacheMark st userId (time_at env (tick w))]> o)).
Proof.
  intros d Hc Hd Hu Ho Hread.
  rewrite modal_markAttendance_eq by done. fold d.
  destruct (single_mark_storage env courseId studentId d st userId w o Ho)
    as [_ Hls].
  destruct (markSingleAttendance_db env courseId studentId d st userId w)
    as [Hdb _].
  set (w1 := snd (markSingleAttendance env courseId studentId d st userId w)) in *.
  assert (db_unique w1) as Hu1 by (unfold db_unique; by rewrite Hdb).
  rewrite modal_loadAttendance_remote by done. fold d. cbn [fst snd].
  eexists. split; [reflexivity|]. split; [|split].
  - intros s. rewrite modal_status_rows.
    rewrite (read_rows_of_student courseId d w1 s Hd Hu1).
    unfold records_for. by rewrite Hdb.
  - done.
  - cbn [localStorage set_tick]. rewrite Hls. apply lookup_insert_eq.
Qed.

Lemma modal_mark_not_shown_witness :
  let v := CourseManagementModal.mkState mockStudents [] "2024-01-15" false in
  ∃ v',
    fst (CourseManagementModal.markAttendance calm "CS101" (Some "I2") "A" late v w_abc)
      = Val v' ∧
    CourseManagementModal.getAttendanceStatus v' "A" = Some present ∧
    (∃ o', localStorage
             (snd (CourseManagementModal.markAttendance calm "CS101" (Some "I2") "A"
                     late v w_abc)) !! storageKey "CS101" "2024-01-15"
           = Some (ObjText o') ∧
           cm_status <$> o' !! "A" = Some late).
Proof.
  intros v.
  destruct (modal_mark_not_shown calm "CS101" "I2" "A" late v w_abc
              {[ "A" := mkCacheMark present "I1" 1; "B" := mkCacheMark late "I1" 2;
                 "C" := mkCacheMark absent "I1" 3 ]})
    as (v' & Hv & Hst & _ & Hls);
    [done | done | exact w_abc_unique | vm_compute; reflexivity | reflexivity |].
  exists v'. split; [exact Hv|]. split.
  - rewrite Hst. vm_compute. reflexivity.
  - eexists. split; [exact Hls|]. by rewrite lookup_insert_eq.
Defined.

(** ** Which field of a record the two views read *)

Lemma find_student_id_cached (s : string) (l : list AttendanceRecord) :
  List.find (fun r => bool_decide (prop_student_id r = Some s)) (map CacheRecord l)
  = None.
Proof. induction l as [|a l IH]; simpl; [done|]. exact IH. Qed.

Lemma find_studentId_rows (s : string) (l : list Row) :
  List.find (fun r => bool_decide (prop_studentId r = Some s)) (map DbRow l) = None.
Proof. induction l as [|a l IH]; simpl; [done|]. exact IH. Qed.

Lemma length_decode_entries courseId d (o : gmap string CacheMark) :
  length (decode_entries courseId d o) = size o.
Proof. unfold decode_entries. by rewrite length_map, length_map_to_list. Qed.

Lemma tab_status_cached courseId d (o : gmap string CacheMark) (s : string) m :
  o !! s = Some m →
  CourseManagement.getAttendanceStatus
    (map CacheRecord (decode_entries courseId d o)) s = Some (cm_status m).
Proof.
  intros Hs. unfold CourseManagement.getAttendanceStatus.
  destruct (List.find _ _) as [x|] eqn:E.
  - apply List.find_some in E as [Hin Hp].
    apply List.in_map_iff in Hin as (a & <- & Ha).
    apply list_elem_of_In, elem_of_decode_entries in Ha as (s' & m' & Hs' & ->).
    apply bool_decide_eq_true in Hp. cbn in Hp.
    assert (s' = s) as -> by congruence.
    assert (m' = m) as -> by congruence. done.
  - exfalso.
    pose proof (List.find_none _ _ E
                  (CacheRecord (mkAttendanceRecord
                                  (courseId ++ "_" ++ s ++ "_" ++ d)%string
                                  courseId s d (cm_status m) (cm_markedBy m)))) as Hn.
    cbn in Hn. rewrite bool_decide_eq_true_2 in Hn by done.
    assert (true = false) by (apply Hn, List.in_map, list_elem_of_In,
                              elem_of_decode_entries; eauto).
    discriminate.
Qed.

(** X12. When the query of [getAttendanceRecords] does not answer, the
    modal's [loadAttendance] still ends normally, and in the state it sets
    [getAttendanceStatus] finds no status for any student: the records of the
    cache fallback carry [studentId], the modal looks up [student_id].  Its
    [getAttendanceStats] counts them all the same: with a day selected and an
    object cached for it, [markedStudents] is the number of cached marks. *)
Theorem modal_hides_cached_marks env courseId (v : CourseManagementModal.State) w :
  courseId ≠ "" →
  net_at env (tick w) ≠ NoFault →
  ∃ v',
    fst (CourseManagementModal.loadAttendance env courseId v w) = Val v' ∧
    (∀ s, CourseManagementModal.getAttendanceStatus v' s = None) ∧
    (∀ o, CourseManagementModal.selectedDate v ≠ "" →
          localStorage w !! storageKey courseId (CourseManagementModal.selectedDate v)
          = Some (ObjText o) →
          CourseCard.markedStudents (CourseManagementModal.getAttendanceStats v')
          = size o).
Proof.
  intros Hc Hf. unfold CourseManagementModal.loadAttendance.
  destruct (String.eqb courseId "") eqn:E; [by apply String.eqb_eq in E|].
  unfold try_catch, bind. rewrite getAttendanceRecords_fallback by done.
  set (d := CourseManagementModal.selectedDate v).
  destruct (truthy (Some d)) eqn:Ht.
  - change (date_text (Some d)) with d.
    destruct (localStorage w !! storageKey courseId d) as [[o|]|] eqn:Ho;
      cbn [entry_object ret fst]; eexists; (split; [reflexivity|]); split.
    + intros s. unfold CourseManagementModal.getAttendanceStatus.
      cbn [CourseManagementModal.attendanceRecords
           CourseManagementModal.setAttendanceRecords].
      by rewrite find_student_id_cached.
    + intros o' _ [= <-]. cbn. by rewrite length_map, length_decode_entries.
    + done.
    + intros o' _ [=].
    + intros s. unfold CourseManagementModal.getAttendanceStatus.
      cbn [CourseManagementModal.attendanceRecords
           CourseManagementModal.setAttendanceRecords].
      by rewrite find_student_id_cached.
    + intros o' _ [=].
  - cbn [ret fst]. eexists. split; [reflexivity|]. split; [done|].
    intros o Hd _. exfalso. unfold truthy in Ht.
    apply negb_false_iff, String.eqb_eq in Ht. done.
Qed.

Lemma modal_hides_cached_marks_witness :
  let env := mkEnv (fun n => n) (fun _ => ReturnsError) in
  let v := CourseManagementModal.mkState mockStudents [] "2024-01-15" false in
  ∃ v',
    fst (CourseManagementModal.loadAttendance env "CS101" v w_abc) = Val v' ∧
    (∀ s, CourseManagementModal.getAttendanceStatus v' s = None) ∧
    (∀ o, CourseManagementModal.selectedDate v ≠ "" →
          localStorage w_abc !! storageKey "CS101" (CourseManagementModal.selectedDate v)
          = Some (ObjText o) →
          CourseCard.markedStudents (CourseManagementModal.getAttendanceStats v')
          = size o).
Proof.
  intros env v.
  apply (modal_hides_cached_marks env "CS101" v w_abc); [done | done].
Defined.

(** X13. In the attendance tab of the course page, a mark made while the
    following read does not answer is shown: with a course and a day selected
    and a cache that parses, [markAttendance] ends with records in which
    [getAttendanceStatus] gives the marked student the new status. *)
Theorem tab_shows_cached_mark env courseId userId d studentId st
    (records : list Fetched) w :
  courseId ≠ "" → d ≠ "" → cache_ok w →
  net_at env (tick (snd (markSingleAttendance env courseId studentId d st userId w)))
  ≠ NoFault →
  ∃ records',
    fst (CourseManagement.markAttendance env courseId (Some userId) d studentId st
           records w) = Val records' ∧
    CourseManagement.getAttendanceStatus records' studentId = Some st.
Proof.
  intros Hc Hd Hk Hf. unfold CourseManagement.markAttendance.
  destruct (String.eqb courseId "") eqn:E; [by apply String.eqb_eq in E|].
  destruct (cache_ok_entry w (storageKey courseId d) Hk) as [o Ho].
  destruct (single_mark_storage env courseId studentId d st userId w o Ho)
    as [Hv Hls].
  unfold try_catch at 1, bind at 1.
  destruct (markSingleAttendance env courseId studentId d st userId w)
    as [[b|e] w1]; simpl in Hv; [|discriminate]. cbn [snd] in Hf, Hls.
  unfold CourseManagement.loadAttendance. rewrite E.
  unfold try_catch, bind. rewrite getAttendanceRecords_fallback by done.
  rewrite truthy_nonempty by done. change (date_text (Some d)) with d.
  rewrite Hls, lookup_insert_eq. cbn [entry_object ret fst].
  eexists. split; [reflexivity|].
  rewrite (tab_status_cached courseId d _ studentId
             (mkCacheMark st userId (time_at env (tick w)))); [done|].
  apply lookup_insert_eq.
Qed.

Lemma tab_shows_cached_mark_witness :
  ∃ records',
    fst (CourseManagement.markAttendance offline "CS101" (Some "I2") "2024-01-15"
           "A" late [] w_abc) = Val records' ∧
    CourseManagement.getAttendanceStatus records' "A" = Some late.
Proof.
  apply (tab_shows_cached_mark offline "CS101" "I2" "2024-01-15" "A" late [] w_abc);
    [done | done | exact w_abc_cache | done].
Defined.

(** X14. In the same tab, a read that is answered sets the rows of the
    table, one record per selected row, and [getAttendanceStatus] finds no
    status in them for any student: the rows carry [student_id], the tab
    looks up [studentId]. *)
Theorem tab_misses_table_rows env courseId selectedDate (records : list Fetched) w :
  courseId ≠ "" →
  net_at env (tick w) = NoFault →
  ∃ records',
    fst (CourseManagement.loadAttendance env courseId selectedDate records w)
      = Val records' ∧
    length records'
      = length (List.filter (selected courseId (Some selectedDate)) (db w)) ∧
    ∀ s, CourseManagement.getAttendanceStatus records' s = None.
Proof.
  intros Hc Hf. unfold CourseManagement.loadAttendance.
  destruct (String.eqb courseId "") eqn:E; [by apply String.eqb_eq in E|].
  unfold try_catch, bind. rewrite getAttendanceRecords_remote by done.
  cbn [ret fst]. eexists. split; [reflexivity|]. split.
  - by rewrite length_map, order_desc_perm.
  - intros s. unfold CourseManagement.getAttendanceStatus.
    by rewrite find_studentId_rows.
Qed.

Lemma tab_misses_table_rows_witness :
  ∃ records',
    fst (CourseManagement.loadAttendance calm "CS101" "2024-01-15" [] w_abc)
      = Val records' ∧
    length records'
      = length (List.filter (selected "CS101" (Some "2024-01-15")) (db w_abc)) ∧
    ∀ s, CourseManagement.getAttendanceStatus records' s = None.
Proof.
  apply (tab_misses_table_rows calm "CS101" "2024-01-15" [] w_abc); done.
Defined.

(** ** Marking the whole roster from the modal *)

Lemma selected_in_partition (courseId d : string) (l : list Row) :
  d ≠ "" →
  List.filter (selected courseId (Some d)) l = List.filter (in_partition courseId d) l.
Proof.
  intros Hd. apply List.filter_ext. intros r. unfold selected, in_partition.
  by rewrite truthy_nonempty.
Qed.

(** A payload in which every mark has the same status caches that status
    for each of its students. *)
Lemma bulk_object_uniform env markedBy (st : Status) (l : list Mark) :
  (∀ m, m ∈ l → m_status m = st) →
  ∀ t (acc : gmap string CacheMark) (s : string),
    s ∈ map m_studentId l →
    ∃ ts, bulk_object env markedBy t acc l !! s = Some (mkCacheMark st markedBy ts).
Proof.
  induction l as [|m l IH]; intros Hst t acc s Hs; simpl.
  - by apply elem_of_nil in Hs.
  - destruct (decide (s ∈ map m_studentId l)) as [Hin | Hnotin].
    + apply IH; [|done]. intros m' Hm'. apply Hst. by right.
    + rewrite bulk_object_notin by done.
      simpl in Hs. apply elem_of_cons in Hs as [-> | Hs]; [|done].
      rewrite lookup_insert_eq, (Hst m) by by left. eauto.
Qed.

Lemma modal_markAll_eq (st : Status) env courseId userId
    (v : CourseManagementModal.State) w :
  courseId ≠ "" →
  let data := map (fun student => mkMark (st_id student) st)
                  (CourseManagementModal.students v) in
  let w1 := snd (markAttendance env courseId (CourseManagementModal.selectedDate v)
                   data userId w) in
  net_at env (tick w1) = NoFault →
  CourseManagementModal.markAll st env courseId (Some userId) v w
  = (Val (CourseManagementModal.mkState (CourseManagementModal.students v)
            (map DbRow
               (order_desc
                  (List.filter
                     (selected courseId (Some (CourseManagementModal.selectedDate v)))
                     (db w1))))
            (CourseManagementModal.selectedDate v) false),
     set_tick (S (tick w1)) w1).
Proof.
  intros Hc data w1 Hread. unfold CourseManagementModal.markAll.
  destruct (String.eqb courseId "") eqn:E; [by apply String.eqb_eq in E|].
  unfold bind at 1, try_catch at 1, bind at 1, service_markAttendance.
  fold data. unfold w1 in *. rewrite markAttendance_steps in *. cbn [snd] in *.
  by rewrite modal_loadAttendance_remote.
Qed.

Lemma modal_markAll_clears (st : Status) env courseId userId
    (v : CourseManagementModal.State) w :
  let d := CourseManagementModal.selectedDate v in
  let n := length (CourseManagementModal.students v) in
  courseId ≠ "" →
  d ≠ "" →
  net_at env (tick w + n) = NoFault →
  net_at env (tick w + 3 * n + 2) = NoFault →
  ∃ v',
    fst (CourseManagementModal.markAll st env courseId (Some userId) v w) = Val v' ∧
    CourseManagementModal.isSaving v' = false ∧
    CourseManagementModal.attendanceRecords v' = [] ∧
    (∀ s, CourseManagementModal.getAttendanceStatus v' s = None) ∧
    CourseManagementModal.getAttendanceStats v'
    = CourseCard.mkViewStats n 0 0 0 0 (Z.of_nat n) "0" ∧
    List.filter (in_partition courseId d)
      (db (snd (CourseManagementModal.markAll st env courseId (Some userId) v w)))
    = [] ∧
    ∃ o,
      localStorage (snd (CourseManagementModal.markAll st env courseId (Some userId) v w))
        !! storageKey courseId d = Some (ObjText o) ∧
      ∀ student, student ∈ CourseManagementModal.students v →
                 cm_status <$> o !! st_id student = Some st.
Proof.
  intros d n Hc Hd Hdel Hread.
  set (data := map (fun student => mkMark (st_id student) st)
                   (CourseManagementModal.students v)).
  assert (length data = n) as Hlen by apply length_map.
  destruct (markAttendance_db env courseId d data userId w) as [Hdb _].
  rewrite Hlen, Hdel in Hdb.
  pose proof (bulk_mark_storage env courseId d data userId w) as Hls.
  assert (tick (snd (markAttendance env courseId d data userId w))
          = tick w + 3 * n + 2) as Htick.
  { rewrite markAttendance_steps, cache_step_bulk_eq. cbn [snd].
    rewrite remote_step_bulk_eq. cbn [tick set_localStorage set_tick].
    rewrite Hlen, Hdel. cbn [snd tick]. lia. }
  rewrite (modal_markAll_eq st env courseId userId v w Hc)
    by (fold d data; by rewrite Htick).
  fold d data. cbn [fst snd db localStorage set_tick].
  rewrite selected_in_partition by done.
  rewrite Hdb, (filter_in_out (in_partition courseId d)).
  eexists. split; [reflexivity|]. split; [done|]. split; [done|].
  split; [done|]. split; [|split; [done|]].
  - unfold CourseManagementModal.getAttendanceStats, CourseCard.getAttendanceStats.
    cbn. fold n. f_equal. lia.
  - rewrite Hls. eexists. split; [apply lookup_insert_eq|].
    intros student Hin.
    destruct (bulk_object_uniform env userId st data) with
      (t := tick w) (acc := (∅ : gmap string CacheMark)) (s := st_id student)
      as [ts ->]; [| |done].
    + intros m Hm. unfold data in Hm.
      by apply list_elem_of_fmap in Hm as (x & -> & _).
    + unfold data. rewrite map_map. cbn. by apply list_elem_of_fmap_2.
Qed.

(** X15. With a course and a non-empty day selected and a user signed in,
    if the delete of the bulk mark and the read that follows it are
    answered (interactions [tick w + n] and [tick w + 3 n + 2] for a roster
    of [n]), the modal's [markAllPresent] empties the day it was meant to
    fill: the insert names [updated_at] and is refused after the rows of the
    day were deleted.  Afterwards the table holds no row for the day, the
    modal shows no status for any student and counts nobody as marked
    ([unmarked] is the roster size, the rate is [0]), [isSaving] is reset,
    and only the cache holds [present] for every student of the roster.
    [markAllAbsent] does the same with [absent]. *)
Theorem modal_mark_all_clears_day env courseId userId
    (v : CourseManagementModal.State) w :
  let d := CourseManagementModal.selectedDate v in
  let n := length (CourseManagementModal.students v) in
  courseId ≠ "" →
  d ≠ "" →
  net_at env (tick w + n) = NoFault →
  net_at env (tick w + 3 * n + 2) = NoFault →
  (∃ v',
     fst (CourseManagementModal.markAllPresent env courseId (Some userId) v w)
       = Val v' ∧
     CourseManagementModal.isSaving v' = false ∧
     CourseManagementModal.attendanceRecords v' = [] ∧
     (∀ s, CourseManagementModal.getAttendanceStatus v' s = None) ∧
     CourseManagementModal.getAttendanceStats v'
     = CourseCard.mkViewStats n 0 0 0 0 (Z.of_nat n) "0" ∧
     List.filter (in_partition courseId d)
       (db (snd (CourseManagementModal.markAllPresent env courseId (Some userId) v w)))
     = [] ∧
     ∃ o,
       localStorage
         (snd (CourseManagementModal.markAllPresent env courseId (Some userId) v w))
         !! storageKey courseId d = Some (ObjText o) ∧
       ∀ student, student ∈ CourseManagementModal.students v →
                  cm_status <$> o !! st_id student = Some present) ∧
  (∃ v',
     fst (CourseManagementModal.markAllAbsent env courseId (Some userId) v w)
       = Val v' ∧
     CourseManagementModal.isSaving v' = false ∧
     CourseManagementModal.attendanceRecords v' = [] ∧
     (∀ s, CourseManagementModal.getAttendanceStatus v' s = None) ∧
     CourseManagementModal.getAttendanceStats v'
     = CourseCard.mkViewStats n 0 0 0 0 (Z.of_nat n) "0" ∧
     List.filter (in_partition courseId d)
       (db (snd (CourseManagementModal.markAllAbsent env courseId (Some userId) v w)))
     = [] ∧
     ∃ o,
       localStorage
         (snd (CourseManagementModal.markAllAbsent env courseId (Some userId) v w))
         !! storageKey courseId d = Some (ObjText o) ∧
       ∀ student, student ∈ CourseManagementModal.students v →
                  cm_status <$> o !! st_id student = Some absent).
Proof.
  intros d n Hc Hd Hdel Hread. split.
  - by apply (modal_markAll_clears present).
  - by apply (modal_markAll_clears absent).
Qed.

Lemma modal_mark_all_clears_day_witness :
  let v := CourseManagementModal.mkState mockStudents [] "2024-01-15" false in
  length (List.filter (in_partition "CS101" "2024-01-15") (db w_abc)) = 3 ∧
  ∃ v',
    fst (CourseManagementModal.markAllPresent calm "CS101" (Some "I2") v w_abc)
      = Val v' ∧
    CourseManagementModal.attendanceRecords v' = [] ∧
    CourseManagementModal.getAttendanceStats v'
    = CourseCard.mkViewStats 5 0 0 0 0 5 "0" ∧
    List.filter (in_partition "CS101" "2024-01-15")
      (db (snd (CourseManagementModal.markAllPresent calm "CS101" (Some "I2") v w_abc)))
    = [].
Proof.
  intros v. split; [vm_compute; reflexivity|].
  destruct (modal_mark_all_clears_day calm "CS101" "I2" v w_abc)
    as [(v' & Hv & _ & Hrec & _ & Hstats & Hdb & _) _];
    [done | done | reflexivity | reflexivity |].
  exists v'. split; [exact Hv|]. split; [exact Hrec|]. split; [exact Hstats | exact Hdb].
Defined.

(** ** The modal with the date cleared *)

Lemma string_leb_refl (s : string) : String.leb s s = true.
Proof. by destruct (String.leb_total s s). Qed.

Lemma sorted_filter_head {A} (R : relation A) (P : A → bool) (l : list A) :
  StronglySorted R l →
  ∀ r rest, List.filter P l = r :: rest → Forall (R r) rest.
Proof.
  induction 1 as [|x l Hsorted IH Hx]; intros r rest; simpl; [done|].
  destruct (P x); [|by apply IH].
  intros [= <- <-]. by apply Forall_filter_list.
Qed.

(** X16. With the date input cleared (the selected date is the empty
    string) a read that is answered is not restricted to a day: the modal's
    [loadAttendance] sets one record per row of the course, of any day, and
    [getAttendanceStatus] gives a student the status of a row of the
    student in the course whose date is the latest, and nothing exactly
    when the course has no row for the student. *)
Theorem modal_cleared_date_shows_latest env courseId
    (v : CourseManagementModal.State) w :
  courseId ≠ "" →
  CourseManagementModal.selectedDate v = "" →
  net_at env (tick w) = NoFault →
  ∃ v',
    fst (CourseManagementModal.loadAttendance env courseId v w) = Val v' ∧
    length (CourseManagementModal.attendanceRecords v')
    = length (List.filter (fun r => bool_decide (course_id r = courseId)) (db w)) ∧
    ∀ s,
      match CourseManagementModal.getAttendanceStatus v' s with
      | Some st =>
          ∃ r, r ∈ db w ∧ course_id r = courseId ∧ student_id r = s ∧
               status r = st ∧
               ∀ r', r' ∈ db w → course_id r' = courseId → student_id r' = s →
                     String.leb (date r') (date r) = true
      | None =>
          ∀ r, r ∈ db w → course_id r = courseId → student_id r ≠ s
      end.
Proof.
  intros Hc Hd Hread.
  rewrite modal_loadAttendance_remote by done. rewrite Hd. cbn [fst].
  assert (∀ l : list Row,
            List.filter (selected courseId (Some "")) l
            = List.filter (fun r => bool_decide (course_id r = courseId)) l) as Hsel.
  { intros l. apply List.filter_ext. intros r. unfold selected.
    cbn [truthy]. by rewrite andb_true_r. }
  rewrite Hsel.
  set (rows := List.filter (fun r => bool_decide (course_id r = courseId)) (db w)).
  eexists. split; [reflexivity|]. split.
  - cbn [CourseManagementModal.attendanceRecords
         CourseManagementModal.setAttendanceRecords].
    by rewrite length_map, order_desc_perm.
  - intros s. rewrite modal_status_rows.
    assert (∀ r, r ∈ List.filter (fun r => bool_decide (student_id r = s))
                       (order_desc rows)
                 ↔ r ∈ db w ∧ course_id r = courseId ∧ student_id r = s) as Hmem.
    { intros r. rewrite list_elem_of_In, List.filter_In, <- list_elem_of_In.
      rewrite order_desc_perm. unfold rows.
      rewrite list_elem_of_In, List.filter_In, <- list_elem_of_In.
      rewrite !bool_decide_eq_true. tauto. }
    pose proof (sorted_filter_head date_desc
                  (fun r => bool_decide (student_id r = s)) (order_desc rows)
                  (order_desc_sorted rows)) as Hhead.
    destruct (List.filter _ (order_desc rows)) as [|r rest]; cbn [head fmap option_fmap
                                                                 option_map].
    + intros r Hr Hcourse Hs. by apply (elem_of_nil r), Hmem.
    + destruct (proj1 (Hmem r)) as (Hr & Hcourse & Hs); [by left|].
      exists r. split; [done|]. split; [done|]. split; [done|]. split; [done|].
      intros r' Hr' Hcourse' Hs'.
      assert (r' ∈ r :: rest) as Hin by by apply Hmem.
      apply elem_of_cons in Hin as [-> | Hin]; [apply string_leb_refl|].
      specialize (Hhead r rest eq_refl). rewrite Forall_forall in Hhead.
      by apply Hhead.
Qed.

Lemma modal_cleared_date_shows_latest_witness :
  let v := CourseManagementModal.mkState mockStudents [] "" false in
  ∃ v',
    fst (CourseManagementModal.loadAttendance calm "CS101" v w_abc) = Val v' ∧
    length (CourseManagementModal.attendanceRecords v') = 3 ∧
    CourseManagementModal.getAttendanceStatus v' "B" = Some late.
Proof.
  intros v.
  destruct (modal_cleared_date_shows_latest calm "CS101" v w_abc)
    as (v' & Hv & Hlen & _); [done | done | done |].
  exists v'. split; [exact Hv|]. split; [exact Hlen|].
  rewrite (Val_inj _ _ (eq_trans (eq_sym Hv) eq_refl)). vm_compute. reflexivity.
Defined.

(** ** What the handlers of the two views never do *)

Lemma modal_loadAttendance_total env courseId (v : CourseManagementModal.State) w :
  ∃ v', fst (CourseManagementModal.loadAttendance env courseId v w) = Val v'.
Proof.
  unfold CourseManagementModal.loadAttendance.
  destruct (String.eqb courseId ""); [by eexists|].
  unfold try_catch, bind.
  destruct (getAttendanceRecords env courseId _ w) as [[r|e] w']; by eexists.
Qed.

(** X17. The attendance handlers of the modal never throw, whatever the
    network and the cache do: [loadAttendance], [markAttendance],
    [markAllPresent] and [markAllAbsent] end normally; a bulk handler that
    got past its guard ends with [isSaving] reset; and without a course or
    without a user the marking handlers change neither the state of the view
    nor the world. *)
Theorem modal_handlers_never_throw env courseId currentUser
    (v : CourseManagementModal.State) w :
  (∃ v', fst (CourseManagementModal.loadAttendance env courseId v w) = Val v') ∧
  (∀ studentId st,
     ∃ v', fst (CourseManagementModal.markAttendance env courseId currentUser
                  studentId st v w) = Val v') ∧
  (∃ v', fst (CourseManagementModal.markAllPresent env courseId currentUser v w)
         = Val v' ∧
         (courseId ≠ "" ∧ currentUser ≠ None →
          CourseManagementModal.isSaving v' = false)) ∧
  (∃ v', fst (CourseManagementModal.markAllAbsent env courseId currentUser v w)
         = Val v' ∧
         (courseId ≠ "" ∧ currentUser ≠ None →
          CourseManagementModal.isSaving v' = false)) ∧
  (courseId = "" ∨ currentUser = None →
   (∀ studentId st,
      CourseManagementModal.markAttendance env courseId currentUser studentId st v w
      = (Val v, w)) ∧
   CourseManagementModal.markAllPresent env courseId currentUser v w = (Val v, w) ∧
   CourseManagementModal.markAllAbsent env courseId currentUser v w = (Val v, w)).
Proof.
  assert (∀ st,
            ∃ v', fst (CourseManagementModal.markAll st env courseId currentUser v w)
                  = Val v' ∧
                  (courseId ≠ "" ∧ currentUser ≠ None →
                   CourseManagementModal.isSaving v' = false)) as Hall.
  { intros st. unfold CourseManagementModal.markAll.
    destruct currentUser as [userId|]; [|exists v; split; [done | by intros [_ ?]]].
    destruct (String.eqb courseId "") eqn:E.
    { apply String.eqb_eq in E. exists v. split; [done | by intros [? _]]. }
    unfold bind at 1, try_catch at 1, bind at 1, service_markAttendance.
    rewrite markAttendance_steps.
    set (w1 := snd (remote_step_bulk _ _ _ _ _ _)).
    destruct (modal_loadAttendance_total env courseId
                (CourseManagementModal.setIsSaving true v) w1) as [v1 Hv1].
    destruct (CourseManagementModal.loadAttendance env courseId _ w1) as [[v2|e] w2];
      simpl in Hv1; [|discriminate].
    eexists. split; [reflexivity | done]. }
  split; [apply modal_loadAttendance_total|]. split; [|split; [|split]].
  - intros studentId st. unfold CourseManagementModal.markAttendance.
    destruct currentUser as [userId|]; [|by eexists].
    destruct (String.eqb courseId ""); [by eexists|].
    unfold try_catch.
    destruct (bind _ _ w) as [[v'|e] w']; by eexists.
  - apply Hall.
  - apply Hall.
  - intros [-> | ->].
    + unfold CourseManagementModal.markAllPresent, CourseManagementModal.markAllAbsent,
        CourseManagementModal.markAll, CourseManagementModal.markAttendance.
      by destruct currentUser.
    + done.
Qed.

(** X18. When the read fails altogether (the query does not answer and the
    cached text of the selected day does not parse), the two views differ:
    the modal's [loadAttendance] clears its records, the tab's
    [loadAttendance] keeps the records it showed. *)
Theorem failed_load_clears_or_keeps env courseId
    (v : CourseManagementModal.State) (records : list Fetched) w :
  courseId ≠ "" →
  CourseManagementModal.selectedDate v ≠ "" →
  net_at env (tick w) ≠ NoFault →
  localStorage w !! storageKey courseId (CourseManagementModal.selectedDate v)
  = Some BadText →
  fst (CourseManagementModal.loadAttendance env courseId v w)
  = Val (CourseManagementModal.setAttendanceRecords [] v) ∧
  fst (CourseManagement.loadAttendance env courseId
         (CourseManagementModal.selectedDate v) records w)
  = Val records.
Proof.
  intros Hc Hd Hf Hbad.
  unfold CourseManagementModal.loadAttendance, CourseManagement.loadAttendance.
  destruct (String.eqb courseId "") eqn:E; [by apply String.eqb_eq in E|].
  unfold try_catch, bind. rewrite getAttendanceRecords_fallback by done.
  rewrite truthy_nonempty by done.
  change (date_text (Some ?x)) with x. by rewrite Hbad.
Qed.

Lemma failed_load_clears_or_keeps_witness :
  let v := CourseManagementModal.mkState mockStudents
             [DbRow (mkRow 0 "CS101" "A" "2024-01-15" present "I1" 0)]
             "2024-01-15" false in
  let records := [DbRow (mkRow 0 "CS101" "A" "2024-01-15" present "I1" 0)] in
  fst (CourseManagementModal.loadAttendance offline "CS101" v w_corrupt)
  = Val (CourseManagementModal.setAttendanceRecords [] v) ∧
  fst (CourseManagement.loadAttendance offline "CS101" "2024-01-15" records w_corrupt)
  = Val records.
Proof.
  intros v records.
  apply (failed_load_clears_or_keeps offline "CS101" v records w_corrupt);
    [done | done | done | vm_compute; reflexivity].
Defined.
